(** * The LIRC command-line client (client.c): a shallow embedding

    The front end of the LIRC library is a single C file.  Its functions
    are embedded here as Rocq functions over explicit state: the
    file-scope variables of client.c become the record [globals], the
    calls into the library (irc.c, not part of this development) are
    recorded in a trace of [effect]s and answered by the oracle class
    [IrcLib], and the blocking [poll] loop of [client_readline] consumes
    a list of poll outcomes.

    Conventions.  A [char *] that may be NULL is an [option string]; an
    int is a [Z], wrapped where the code can overflow it.  A function
    that would dereference NULL returns [None].  Formatted output is
    kept as the format string with its arguments, not rendered.  Memory
    allocation (vasprintf) is taken to succeed.  Each thread is
    modelled on its own: what the other thread does shows only in the
    bytes the pipe delivers. *)

From Stdlib Require Import ZArith List String Ascii Bool Lia.
Import ListNotations.
Open Scope string_scope.
Open Scope Z_scope.

(** ** C strings and the libc functions client.c calls *)

Module CStr.

(** [tolower(3)] in the C locale. *)
Definition tolower (c : ascii) : ascii :=
  let n := N_of_ascii c in
  if (65 <=? n)%N && (n <=? 90)%N then ascii_of_N (n + 32) else c.

(** [strcasecmp(a, b) == 0]. *)
Fixpoint strcaseeq (a b : string) : bool :=
  match a, b with
  | EmptyString, EmptyString => true
  | String x a', String y b' =>
      Ascii.eqb (tolower x) (tolower y) && strcaseeq a' b'
  | _, _ => false
  end.

(** [strncasecmp(a, b, n) == 0]. *)
Fixpoint strncaseeq (a b : string) (n : nat) : bool :=
  match n with
  | O => true
  | S n' =>
      match a, b with
      | EmptyString, EmptyString => true
      | String x a', String y b' =>
          Ascii.eqb (tolower x) (tolower y) && strncaseeq a' b' n'
      | _, _ => false
      end
  end.

(** One token of [strsep(3)] on a non-NULL string: the text before the
    first delimiter, and what follows it ([None] when there was no
    delimiter, which is the NULL that strsep stores back). *)
Fixpoint strsep_str (delim : ascii) (s : string) : string * option string :=
  match s with
  | EmptyString => (EmptyString, None)
  | String c r =>
      if Ascii.eqb c delim then (EmptyString, Some r)
      else let (tok, rest) := strsep_str delim r in (String c tok, rest)
  end.

(** [tok = strsep(&s, delim)] with a one-character delimiter set; the
    pair is (tok, new value of s).  A NULL [s] yields a NULL token. *)
Definition strsep (s : option string) (delim : ascii)
  : option string * option string :=
  match s with
  | None => (None, None)
  | Some str => let (tok, rest) := strsep_str delim str in (Some tok, rest)
  end.

(** The C string left in [dst] by [strncpy(dst, src, n); dst[n] = 0]. *)
Fixpoint strncpy (n : nat) (src : string) : string :=
  match n, src with
  | S n', String c r => String c (strncpy n' r)
  | _, _ => EmptyString
  end.

(** What [snprintf(dst, size, ...)] leaves in [dst] when the formatted
    text is [s]: at most [size - 1] characters. *)
Definition snprintf (size : nat) (s : string) : string :=
  strncpy (Nat.pred size) s.

Definition isspace (c : ascii) : bool :=
  let n := N_of_ascii c in
  ((9 <=? n)%N && (n <=? 13)%N) || (n =? 32)%N.

Definition digit_of (c : ascii) : option Z :=
  let n := N_of_ascii c in
  if (48 <=? n)%N && (n <=? 57)%N then Some (Z.of_N n - 48) else None.

Fixpoint skip_space (s : string) : string :=
  match s with
  | String c r => if isspace c then skip_space r else s
  | EmptyString => s
  end.

Fixpoint digits (acc : Z) (s : string) : Z :=
  match s with
  | String c r =>
      match digit_of c with
      | Some d => digits (10 * acc + d) r
      | None => acc
      end
  | EmptyString => acc
  end.

(** Signed 32-bit and unsigned 32/64-bit wrap-around (the build uses
    -fwrapv). *)
Definition wrap_int (x : Z) : Z := (x + 2 ^ 31) mod 2 ^ 32 - 2 ^ 31.
Definition wrap_uint (x : Z) : Z := x mod 2 ^ 32.
Definition wrap_size_t (x : Z) : Z := x mod 2 ^ 64.

Definition clamp_long (x : Z) : Z :=
  Z.max (- 2 ^ 63) (Z.min (2 ^ 63 - 1) x).

(** [strtol(s, NULL, 10)]: optional white space, optional sign, decimal
    digits, saturating at the range of long. *)
Definition strtol (s : string) : Z :=
  match skip_space s with
  | String "-" r => clamp_long (- digits 0 r)
  | String "+" r => clamp_long (digits 0 r)
  | r => clamp_long (digits 0 r)
  end.

(** [atoi(s)], which is [(int) strtol(s, NULL, 10)]. *)
Definition atoi (s : string) : Z := wrap_int (strtol s).

(** [strlen] and [memset] on raw bytes. *)
Fixpoint strlen (m : list Z) : nat :=
  match m with
  | [] => O
  | b :: r => if b =? 0 then O else S (strlen r)
  end.

Fixpoint memset (m : list Z) (c : Z) (n : nat) : list Z :=
  match n, m with
  | S n', _ :: r => c :: memset r c n'
  | _, _ => m
  end.

End CStr.

(** Characters that C writes with an escape sequence. *)
Definition nl : string := String (ascii_of_nat 10) EmptyString.
Definition bel : string := String (ascii_of_nat 7) EmptyString.
Definition esc : string := String (ascii_of_nat 27) EmptyString.

Definition COLOR_RESET : string := esc ++ "[0m".
Definition COLOR_BEGIN : string := esc ++ "[1;".
Definition COLOR_RED : string := COLOR_BEGIN ++ "31m".
Definition COLOR_GREEN : string := COLOR_BEGIN ++ "32m".
Definition COLOR_CYAN : string := COLOR_BEGIN ++ "36m".
Definition CLEAR_LINE : string := String (ascii_of_nat 13) (esc ++ "[0K").

(** ** The interface of the library (irc.h, numerics.h) *)

Inductive irc_log_level : Type :=
| IRC_LOG_ERR
| IRC_LOG_WARN
| IRC_LOG_INFO
| IRC_LOG_DEBUG.

(** Modelled from the spec: enum irc_msg_type is declared in irc.h, which
    is not part of this development.  The enumerators with a case in
    [handle_irc_msg] are the ones client.c names; the specification's
    data model adds the classification of a line that matches no
    recognized command, for which two enumerators stand here. *)
Inductive irc_msg_type_t : Type :=
| IRC_UNPARSED
| IRC_NUMERIC
| IRC_CMD_PRIVMSG
| IRC_CMD_NOTICE
| IRC_CMD_PING
| IRC_CMD_JOIN
| IRC_CMD_PART
| IRC_CMD_QUIT
| IRC_CMD_KICK
| IRC_CMD_NICK
| IRC_CMD_MODE
| IRC_CMD_ERROR
| IRC_CMD_TOPIC
| IRC_CMD_OTHER.

(** Modelled from the spec: enum irc_ctcp_type is declared in irc.h.  The
    specification lists the closed verb set ACTION, VERSION, TIME, PING,
    DCC, SED and an unknown verb that keeps its raw name. *)
Inductive irc_ctcp_type : Type :=
| CTCP_ACTION
| CTCP_VERSION
| CTCP_TIME
| CTCP_PING
| CTCP_DCC
| CTCP_SED
| CTCP_UNKNOWN.

(** Modelled from the spec: struct irc_msg is declared in irc.h; client.c
    reads it only through the accessors [irc_msg_type], [irc_msg_numeric],
    [irc_msg_prefix], [irc_msg_command], [irc_msg_channel],
    [irc_msg_body] and [irc_msg_ctcp_type], which are the projections
    here.  A [char *] that may be NULL is an [option string]. *)
Record irc_msg : Type := mk_irc_msg {
  irc_msg_type : irc_msg_type_t;
  irc_msg_numeric : Z;
  irc_msg_prefix : option string;
  irc_msg_command : option string;
  irc_msg_channel : option string;
  irc_msg_body : option string;
  irc_msg_ctcp_type : irc_ctcp_type
}.

(** Modelled from the spec: struct irc_client is private to irc.c.  The
    fields are the attributes of the specification's Connection;
    client.c reads three of them, through [irc_client_nickname],
    [irc_client_hostname] and [irc_client_connected]. *)
Record irc_client : Type := mk_irc_client {
  irc_client_hostname : string;
  irc_client_port : Z;
  irc_client_nickname : string;
  irc_client_username : string;
  irc_client_flags : Z;
  irc_client_connected : bool;
  irc_client_authenticated : bool
}.

(** Modelled from the spec: numerics.h is not part of this development.
    The values are the ones the comments of [handle_irc_msg] give beside
    each group of cases (1 to 5, 250 to 255, 265 to 266, 375, 372, 376,
    353, 366, 396, 321-323, 412, 404, 421). *)
Module Numerics.
Definition RPL_WELCOME : Z := 1.
Definition RPL_YOURHOST : Z := 2.
Definition RPL_CREATED : Z := 3.
Definition RPL_MYINFO : Z := 4.
Definition RPL_ISUPPORT : Z := 5.
Definition RPL_STATSDLINE : Z := 250.
Definition RPL_LUSERCLIENT : Z := 251.
Definition RPL_LUSEROP : Z := 252.
Definition RPL_LUSERUNKNOWN : Z := 253.
Definition RPL_LUSERCHANNELS : Z := 254.
Definition RPL_LUSERME : Z := 255.
Definition RPL_LOCALUSERS : Z := 265.
Definition RPL_GLOBALUSERS : Z := 266.
Definition RPL_LISTSTART : Z := 321.
Definition RPL_LIST : Z := 322.
Definition RPL_LISTEND : Z := 323.
Definition RPL_NAMREPLY : Z := 353.
Definition RPL_ENDOFNAMES : Z := 366.
Definition RPL_MOTD : Z := 372.
Definition RPL_MOTDSTART : Z := 375.
Definition RPL_ENDOFMOTD : Z := 376.
Definition RPL_VISIBLEHOST : Z := 396.
Definition ERR_CANNOTSENDTOCHAN : Z := 404.
Definition ERR_NOTEXTTOSEND : Z := 412.
Definition ERR_UNKNOWNCOMMAND : Z := 421.
End Numerics.
Import Numerics.

(** The functions of the library that client.c calls on a client.  Each
    constructor carries the arguments of the call other than the client
    itself. *)
Inductive libcall : Type :=
| irc_send (s : option string)
| irc_client_quit (msg : option string)
| irc_client_channel_leave (chans : option string)
| irc_client_channel_join (chans : option string)
| irc_client_msg (channel : option string) (msg : option string)
| irc_client_notice (channel : option string) (msg : option string)
| irc_client_action (channel : option string) (msg : option string)
| irc_client_ctcp_request (target : option string) (ctcp : irc_ctcp_type)
| irc_client_ctcp_reply (target : option string) (ctcp : irc_ctcp_type)
    (data : option string)
| irc_client_change_nick (nick : string)
| irc_client_set_channel_topic (channel : option string) (topic : option string)
| irc_client_list_channels (chans : option string)
| irc_client_invite_user (nick : option string) (channel : option string)
| irc_client_auth (user : option string) (pass : option string)
    (nick : option string)
| irc_client_set_flags (flags : Z)
| irc_client_autojoin (chans : option string)
| irc_client_connect
| irc_client_login
| irc_client_pong (msg : irc_msg)
| irc_client_set_nick (nick : string)
| irc_client_destroy.

(** The library as client.c sees it: every call returns an int and may
    change the client; [irc_client_new] returns NULL or a client;
    [irc_ctcp_from_string] returns a CTCP type or a negative value
    ([None]); [irc_parse_msg_ctcp] returns an int and rewrites the
    message in place. *)
Class IrcLib : Type := {
  lib_exec : libcall -> irc_client -> Z * irc_client;
  irc_client_new : string -> Z -> string -> string -> option irc_client;
  irc_ctcp_from_string : string -> option irc_ctcp_type;
  irc_msg_is_ctcp : irc_msg -> bool;
  irc_parse_msg_ctcp : irc_msg -> Z * irc_msg
}.

(** The flag masks of irc.h, which client.c only names. *)
Class IrcH : Type := {
  IRC_CLIENT_USE_TLS : Z;
  IRC_CLIENT_VERIFY_SERVER : Z;
  IRC_CLIENT_USE_SASL : Z
}.

(** Modelled from the spec: the default ports are macros of irc.h.  The
    values are the ones the usage text of [main] prints for the option
    -p (6667 for plain text and 6697 for TLS). *)
Definition IRC_DEFAULT_PORT : Z := 6667.
Definition IRC_DEFAULT_TLS_PORT : Z := 6697.

(** ** Observable actions of client.c *)

Record timeval : Type := mk_timeval { tv_sec : Z; tv_usec : Z }.

(** What the clock answers during one call of the callback:
    [gettimeofday], and the text [strftime] produces for the local
    time. *)
Record clock : Type := mk_clock { clk_now : timeval; clk_timebuf : string }.

(** An argument of a printf-style call.  The elapsed time of a CTCP ping
    is a double computed from two timevals; the two timevals are kept
    instead of the quotient. *)
Inductive arg : Type :=
| AStr (s : option string)
| AInt (n : Z)
| ACtcpName (t : irc_ctcp_type)
| ASecs (tnow sent : timeval)
| ABytes (b : list Z)
| AErrno.

(** What client.c does to the outside, one constructor per kind of
    call: [irc_print], printf, [client_log], a call of a library
    function on the client, [irc_client_new], pthread_create, a raw
    write(2) to standard output or to the write end of [iopipe],
    fprintf to stderr, another system or library set-up call by name,
    and the abort of a failed assertion. *)
Inductive effect : Type :=
| IrcPrint (fmt : string) (args : list arg)
| Printf (fmt : string) (args : list arg)
| ClientLog (level : irc_log_level) (sublevel : Z) (fmt : string)
    (args : list arg)
| Lib (c : libcall)
| LibNew (server : string) (port : Z) (user pass : string)
| PthreadCreate
| WriteStdout (bytes : list Z)
| WritePipe (bytes : list Z)
| Eprintf (fmt : string) (args : list arg)
| Sys (name : string)
| Abort.

(** The file-scope variables of client.c. *)
Record globals : Type := mk_globals {
  debug_level : Z;
  fully_started : Z;
  shutting_down : Z;
  do_not_disturb : Z;
  client_prompt : string;
  fg_chan : string;
  ctcp_ping_time : timeval
}.

Definition initial_globals : globals :=
  {| debug_level := 0; fully_started := 0; shutting_down := 0;
     do_not_disturb := 0; client_prompt := "IRC> "; fg_chan := EmptyString;
     ctcp_ping_time := mk_timeval 0 0 |}.

Definition set_debug_level (g : globals) (v : Z) : globals :=
  mk_globals v (fully_started g) (shutting_down g) (do_not_disturb g)
    (client_prompt g) (fg_chan g) (ctcp_ping_time g).

Definition set_fully_started (g : globals) (v : Z) : globals :=
  mk_globals (debug_level g) v (shutting_down g) (do_not_disturb g)
    (client_prompt g) (fg_chan g) (ctcp_ping_time g).

Definition set_shutting_down (g : globals) (v : Z) : globals :=
  mk_globals (debug_level g) (fully_started g) v (do_not_disturb g)
    (client_prompt g) (fg_chan g) (ctcp_ping_time g).

Definition set_do_not_disturb (g : globals) (v : Z) : globals :=
  mk_globals (debug_level g) (fully_started g) (shutting_down g) v
    (client_prompt g) (fg_chan g) (ctcp_ping_time g).

Definition set_client_prompt (g : globals) (v : string) : globals :=
  mk_globals (debug_level g) (fully_started g) (shutting_down g)
    (do_not_disturb g) v (fg_chan g) (ctcp_ping_time g).

Definition set_ctcp_ping_time (g : globals) (v : timeval) : globals :=
  mk_globals (debug_level g) (fully_started g) (shutting_down g)
    (do_not_disturb g) (client_prompt g) (fg_chan g) v.

(** [client_log(level, fmt, ...)]: the macro passes sublevel 0 to
    [_client_log], which formats the text and hands it to
    [__client_log]. *)
Definition client_log (level : irc_log_level) (fmt : string)
  (args : list arg) : effect :=
  ClientLog level 0 fmt args.

(** [__client_log], the process-wide logging callback: whether a
    message of this level and sublevel is written to the output
    descriptor. *)
Definition __client_log (g : globals) (level : irc_log_level)
  (sublevel : Z) : bool :=
  match level with
  | IRC_LOG_ERR => true
  | IRC_LOG_WARN => true
  | IRC_LOG_INFO => true
  | IRC_LOG_DEBUG => sublevel <=? debug_level g
  end.

(** [update_prompt]. *)
Definition update_prompt (g : globals) (client : irc_client) : globals :=
  let nick := irc_client_nickname client in
  let host := irc_client_hostname client in
  let text :=
    match nick with
    | String _ _ =>
        match fg_chan g with
        | String _ _ => nick ++ "@" ++ host ++ " (" ++ fg_chan g ++ ")> "
        | EmptyString => nick ++ "@" ++ host ++ "> "
        end
    | EmptyString => host ++ "> "
    end%string in
  set_client_prompt g (CStr.snprintf 84 text).

(** [set_term_title]. *)
Definition set_term_title (s : string) : effect :=
  Printf (esc ++ "]2;%s" ++ bel) [AStr (Some s)].

(** [set_fg_chan]: the new value of [fg_chan] and the title it prints. *)
Definition set_fg_chan (g : globals) (fgchan : string) : globals * list effect :=
  let v := CStr.strncpy 63 fgchan in
  (mk_globals (debug_level g) (fully_started g) (shutting_down g)
     (do_not_disturb g) (client_prompt g) v (ctcp_ping_time g),
   [set_term_title v]).

(** ** The event callback *)

Section Callback.
Context {L : IrcLib}.

(** The [case] labels of the inner switch of [handle_irc_msg], group by
    group. *)
Definition numeric_cases_body : list Z :=
  [ RPL_WELCOME; RPL_YOURHOST; RPL_CREATED; RPL_MYINFO; RPL_ISUPPORT;
    RPL_STATSDLINE; RPL_LUSERCLIENT; RPL_LUSEROP; RPL_LUSERUNKNOWN;
    RPL_LUSERCHANNELS; RPL_LUSERME; RPL_LOCALUSERS; RPL_GLOBALUSERS;
    RPL_MOTDSTART; RPL_MOTD; RPL_ENDOFMOTD;
    RPL_NAMREPLY; RPL_ENDOFNAMES;
    RPL_VISIBLEHOST;
    RPL_LISTSTART; RPL_LIST; RPL_LISTEND ].

Definition numeric_cases_prefix_body : list Z :=
  [ ERR_NOTEXTTOSEND ].

Definition numeric_cases_red : list Z :=
  [ ERR_CANNOTSENDTOCHAN; ERR_UNKNOWNCOMMAND ].

Definition is_case (n : Z) (labels : list Z) : bool :=
  existsb (Z.eqb n) labels.

(** The [IRC_NUMERIC] case: the inner switch on [irc_msg_numeric]. *)
Definition handle_numeric (msg : irc_msg) : list effect :=
  let n := irc_msg_numeric msg in
  if is_case n numeric_cases_body then
    [IrcPrint ("%s" ++ nl) [AStr (irc_msg_body msg)]]
  else if is_case n numeric_cases_prefix_body then
    [IrcPrint ("%s %s" ++ nl) [AStr (irc_msg_prefix msg); AStr (irc_msg_body msg)]]
  else if is_case n numeric_cases_red then
    [IrcPrint ("%s%s %s%s" ++ nl)
       [AStr (Some COLOR_RED); AStr (irc_msg_prefix msg);
        AStr (irc_msg_body msg); AStr (Some COLOR_RESET)]]
  else
    [client_log IRC_LOG_WARN
       ("Unhandled numeric: prefix: %s, num: %d, body: %s" ++ nl)
       [AStr (irc_msg_prefix msg); AInt n; AStr (irc_msg_body msg)]].

(** The CTCP branch for a message carried on PRIVMSG (a request). *)
Definition handle_ctcp_request (clk : clock) (client : irc_client)
  (msg : irc_msg) : irc_client * list effect :=
  match irc_msg_ctcp_type msg with
  | CTCP_ACTION =>
      (client,
       [IrcPrint ("[ACTION] %s %s %s" ++ nl)
          [AStr (irc_msg_prefix msg); AStr (irc_msg_channel msg);
           AStr (irc_msg_body msg)]])
  | CTCP_PING =>
      let c := irc_client_ctcp_reply (irc_msg_prefix msg)
                 (irc_msg_ctcp_type msg) (irc_msg_body msg) in
      (snd (lib_exec c client), [Lib c])
  | CTCP_TIME =>
      let c := irc_client_ctcp_reply (irc_msg_prefix msg)
                 (irc_msg_ctcp_type msg) (Some (clk_timebuf clk)) in
      (snd (lib_exec c client), [Lib c])
  | t =>
      (client,
       [client_log IRC_LOG_ERR
          ("Unhandled CTCP extended data type: %s" ++ nl) [ACtcpName t]])
  end.

(** The CTCP branch for a message carried on anything else (NOTICE, a
    reply). *)
Definition handle_ctcp_reply (clk : clock) (g : globals) (msg : irc_msg)
  : list effect :=
  match irc_msg_ctcp_type msg with
  | CTCP_PING =>
      [IrcPrint ("Ping reply from %s in %.3f seconds" ++ nl)
         [AStr (irc_msg_prefix msg); ASecs (clk_now clk) (ctcp_ping_time g)]]
  | t =>
      [IrcPrint ("CTCP %s reply %s from %s" ++ nl)
         [ACtcpName t; AStr (irc_msg_body msg); AStr (irc_msg_prefix msg)]]
  end.

Definition print_chat (msg : irc_msg) : effect :=
  IrcPrint ("%s <%s> %s" ++ nl)
    [AStr (irc_msg_channel msg); AStr (irc_msg_prefix msg);
     AStr (irc_msg_body msg)].

(** The bell rung when a chat message starts with our nickname and Do
    Not Disturb is off. *)
Definition mention_bell (g : globals) (client : irc_client) (body : string)
  : list effect :=
  let nick := irc_client_nickname client in
  if (do_not_disturb g =? 0)
     && CStr.strncaseeq body nick (String.length nick)
  then [IrcPrint bel []] else [].

(** The [IRC_CMD_PRIVMSG] and [IRC_CMD_NOTICE] cases.  The test for a
    mention is [!do_not_disturb && !strncasecmp(body, nick, ...)]: the
    body is handed to strncasecmp only when Do Not Disturb is off, and
    [None] is the undefined behaviour of strncasecmp on a NULL body.
    With Do Not Disturb on the test short-circuits and the message is
    handled whatever its body is. *)
Definition handle_chat (clk : clock) (g : globals) (client : irc_client)
  (msg : irc_msg) : option (irc_client * globals * list effect) :=
  let mention :=
    if do_not_disturb g =? 0 then
      match irc_msg_body msg with
      | Some body => Some (mention_bell g client body)
      | None => None
      end
    else Some [] in
  match mention with
  | None => None
  | Some bell =>
      if irc_msg_is_ctcp msg then
        let (rc, msg') := irc_parse_msg_ctcp msg in
        if rc =? 0 then
          match irc_msg_type msg' with
          | IRC_CMD_PRIVMSG =>
              let (client', tr) := handle_ctcp_request clk client msg' in
              Some (client', g, (bell ++ tr)%list)
          | _ => Some (client, g, (bell ++ handle_ctcp_reply clk g msg')%list)
          end
        else Some (client, g, (bell ++ [print_chat msg'])%list)
      else Some (client, g, (bell ++ [print_chat msg])%list)
  end.

(** The line printed for every NICK message. *)
Definition nick_notice (msg : irc_msg) : effect :=
  IrcPrint ("%s is %snow known as%s %s" ++ nl)
    [AStr (irc_msg_prefix msg); AStr (Some COLOR_CYAN);
     AStr (Some COLOR_RESET); AStr (irc_msg_body msg)].

(** The [IRC_CMD_NICK] case.  [None] is undefined behaviour: strncpy
    from a NULL prefix, or [irc_msg_body(msg) + 1] when the body is NULL
    or empty. *)
Definition handle_nick (g : globals) (client : irc_client) (msg : irc_msg)
  : option (irc_client * globals * list effect) :=
  let pr := nick_notice msg in
  match irc_msg_prefix msg with
  | None => None
  | Some prefix =>
      let oldnick := CStr.strncpy 63 prefix in
      let (realnick, tmp) := CStr.strsep (Some oldnick) "!" in
      match realnick with
      | Some rn =>
          if String.eqb rn (irc_client_nickname client) then
            match irc_msg_body msg with
            | Some (String _ newnick) =>
                let c := irc_client_set_nick newnick in
                let client' := snd (lib_exec c client) in
                Some (client', update_prompt g client', [pr; Lib c])
            | _ => None
            end
          else Some (client, g, [pr])
      | None => Some (client, g, [pr])
      end
  end.

Definition body_or_empty (msg : irc_msg) : option string :=
  match irc_msg_body msg with
  | Some b => Some b
  | None => Some EmptyString
  end.



(** The numerics and the message types that have a [case] label of
    their own in [handle_irc_msg]. *)
Definition numeric_has_case (n : Z) : bool :=
  is_case n numeric_cases_body
  || is_case n numeric_cases_prefix_body
  || is_case n numeric_cases_red.

Definition command_has_case (t : irc_msg_type_t) : bool :=
  match t with
  | IRC_NUMERIC | IRC_CMD_PRIVMSG | IRC_CMD_NOTICE | IRC_CMD_PING
  | IRC_CMD_JOIN | IRC_CMD_PART | IRC_CMD_QUIT | IRC_CMD_KICK
  | IRC_CMD_NICK | IRC_CMD_MODE | IRC_CMD_ERROR | IRC_CMD_TOPIC => true
  | _ => false
  end.

(** A message that reaches one of the two [default] labels. *)
Definition unhandled (msg : irc_msg) : bool :=
  match irc_msg_type msg with
  | IRC_NUMERIC => negb (numeric_has_case (irc_msg_numeric msg))
  | t => negb (command_has_case t)
  end.

(** The nick portion of a prefix nick!user@host: the text before the
    first exclamation mark. *)
Definition nick_portion (prefix : string) : string :=
  fst (CStr.strsep_str "!" prefix).

(** [handle_irc_msg]: the new client and globals and the actions
    performed, in order. *)
Definition handle_irc_msg (clk : clock) (g : globals) (client : irc_client)
  (msg : irc_msg) : option (irc_client * globals * list effect) :=
  match irc_msg_type msg with
  | IRC_NUMERIC => Some (client, g, handle_numeric msg)
  | IRC_CMD_PRIVMSG | IRC_CMD_NOTICE => handle_chat clk g client msg
  | IRC_CMD_PING =>
      let c := irc_client_pong msg in
      Some (snd (lib_exec c client), g, [Lib c])
  | IRC_CMD_JOIN =>
      Some (client, g,
            [IrcPrint ("%s has %sjoined%s %s" ++ nl)
               [AStr (irc_msg_prefix msg); AStr (Some COLOR_GREEN);
                AStr (Some COLOR_RESET); AStr (irc_msg_channel msg)]])
  | IRC_CMD_PART =>
      Some (client, g,
            [IrcPrint ("%s has %sleft%s %s" ++ nl)
               [AStr (irc_msg_prefix msg); AStr (Some COLOR_RED);
                AStr (Some COLOR_RESET); AStr (irc_msg_channel msg)]])
  | IRC_CMD_QUIT =>
      Some (client, g,
            [IrcPrint ("%s has %squit%s %s" ++ nl)
               [AStr (irc_msg_prefix msg); AStr (Some COLOR_RED);
                AStr (Some COLOR_RESET); AStr (body_or_empty msg)]])
  | IRC_CMD_KICK =>
      Some (client, g,
            [IrcPrint ("%s has been %skicked%s %s" ++ nl)
               [AStr (irc_msg_prefix msg); AStr (Some COLOR_RED);
                AStr (Some COLOR_RESET); AStr (body_or_empty msg)]])
  | IRC_CMD_NICK => handle_nick g client msg
  | IRC_CMD_MODE =>
      Some (client, g,
            [IrcPrint ("%s %s" ++ nl)
               [AStr (irc_msg_prefix msg); AStr (irc_msg_body msg)]])
  | IRC_CMD_ERROR =>
      Some (client, g,
            [IrcPrint ("%s%s%s" ++ nl)
               [AStr (Some COLOR_RED); AStr (irc_msg_body msg);
                AStr (Some COLOR_RESET)]])
  | IRC_CMD_TOPIC =>
      Some (client, g,
            [IrcPrint ("%s has %schanged the topic%s of %s" ++ nl)
               [AStr (irc_msg_prefix msg); AStr (Some COLOR_GREEN);
                AStr (Some COLOR_RESET); AStr (irc_msg_body msg)]])
  | IRC_UNPARSED | IRC_CMD_OTHER =>
      Some (client, g,
            [client_log IRC_LOG_WARN
               ("Unhandled command: prefix: %s, command: %s, body: %s" ++ nl)
               [AStr (irc_msg_prefix msg); AStr (irc_msg_command msg);
                AStr (irc_msg_body msg)]])
  end.

(** The rule for NICK messages read literally: the stored nickname is
    set only when the nick portion of the prefix is the current
    nickname. *)
Definition nick_set_only_for_own_prefix (clk : clock) (g : globals)
  (client : irc_client) (msg : irc_msg) : Prop :=
  forall prefix client' g' tr,
    irc_msg_prefix msg = Some prefix ->
    handle_irc_msg clk g client msg = Some (client', g', tr) ->
    (exists n, In (Lib (irc_client_set_nick n)) tr) ->
    nick_portion prefix = irc_client_nickname client.

End Callback.

(** ** The /command dispatcher *)

(** What one call of [handle_send_msg] leaves behind: its return value,
    the client that [*clientptr] now points to, the globals, and the
    actions performed, in order. *)
Record send_result : Type := mk_send_result {
  sr_res : Z;
  sr_client : irc_client;
  sr_globals : globals;
  sr_trace : list effect
}.

Definition help_lines : list string :=
  [ "/help                     - Show client commands";
    "/debug                    - Set client debug level (0-10)";
    "/dnd                      - Toggle Do Not Disturb";
    "/fg                       - Set the foreground (default) channel for sending messages to";
    "/raw <MSG>                - Send a raw message to the server";
    "/quit [<MSG>]             - Quit from server with optional MSG";
    "/part <CHANS>             - Leave channel(s), comma-separated";
    "/join <CHANS>             - Join channel(s), comma-separated";
    "/msg <CHAN> <MSG>         - Send MSG to channel CHAN";
    "/notice <CHAN> <MSG>      - Send MSG to channel CHAN, inhibit autoresponses";
    "/me <ACTION>              - Send action msg to current foreground channel";
    "/describe <USER> <ACTION> - Send action msg for specified user";
    "/ctcp <TARGET> <CMD>      - Send CTCP command request to another user";
    "/nick <NICK>              - Change nickname to NICK";
    "/topic <CHAN> <TOPIC>     - Set channel CHAN's topic to TOPIC";
    "/list [<CHANS>]           - List channels on server (with optional filter of comma-separated channels)";
    "/invite <NICK> <CHAN>     - Invite user NICK to channel CHAN";
    "/identify <USER> <PASS>   - Authenticate to the server if not authenticated already.";
    "/server <HOST> <PORT>     - Connect to an IRC server, if not already connected to one.";
    "^C                        - Exit client" ].

Section SendMsg.
Context {L : IrcLib} {H : IrcH}.

(** The body of the macro [REQUIRED_PARAMETER] when the variable is
    NULL. *)
Definition missing_parameter (g : globals) (client : irc_client)
  (name : string) : send_result :=
  mk_send_result (-1) client g
    [client_log IRC_LOG_ERR ("Missing required parameter %s" ++ nl)
       [AStr (Some name)]].

(** The body of the macro [REQUIRE_FG_CHANNEL] when [fg_chan] is
    empty. *)
Definition no_fg_channel (g : globals) (client : irc_client) : send_result :=
  mk_send_result (-1) client g
    [client_log IRC_LOG_WARN
       ("No current foreground channel. Type /help for help." ++ nl) []].

(** [res = f(client, ...)] for a library function [f], followed by
    [return res]. *)
Definition call (g : globals) (client : irc_client) (c : libcall)
  : send_result :=
  let (res, client') := lib_exec c client in
  mk_send_result res client' g [Lib c].

(** The [/server] branch. *)
Definition send_server (pthread_rc : Z) (g : globals) (client : irc_client)
  (s : option string) : send_result :=
  let (server, s1) := CStr.strsep s " " in
  match server with
  | None => missing_parameter g client "hostname"
  | Some server =>
      let (portstr, s2) := CStr.strsep s1 " " in
      let port := match portstr with Some p => CStr.atoi p | None => 0 end in
      let flags :=
        if negb (port =? 0) && (6670 <? port)
        then Z.land (Z.lor 0 IRC_CLIENT_USE_TLS) (Z.lnot IRC_CLIENT_VERIFY_SERVER)
        else 0 in
      match irc_client_new server port EmptyString EmptyString with
      | None => mk_send_result (-1) client g [LibNew server port EmptyString EmptyString]
      | Some new =>
          let t0 := [LibNew server port EmptyString EmptyString; Lib irc_client_destroy] in
          let '(new1, t1) :=
            if negb (flags =? 0)
            then (snd (lib_exec (irc_client_set_flags flags) new),
                  [Lib (irc_client_set_flags flags)])
            else (new, []) in
          let (res, new2) := lib_exec irc_client_connect new1 in
          let t2 := (t0 ++ t1 ++ [Lib irc_client_connect])%list in
          if negb (res =? 0) then
            mk_send_result (-1) new2 g
              (t2 ++ [client_log IRC_LOG_ERR
                        ("Failed to connect to server %s" ++ nl)
                        [AStr (Some server)]])%list
          else if negb (pthread_rc =? 0) then
            mk_send_result (-1) new2 g (t2 ++ [PthreadCreate])%list
          else
            mk_send_result res new2 (update_prompt g new2)
              (t2 ++ [PthreadCreate])%list
      end
  end.

(** The commands that follow the connection check. *)
Definition send_connected (now : timeval) (g : globals) (client : irc_client)
  (command : string) (s : option string) : send_result :=
  if CStr.strcaseeq command "raw" then call g client (irc_send s)
  else if CStr.strcaseeq command "quit" then call g client (irc_client_quit s)
  else if CStr.strcaseeq command "part" then
    call g client (irc_client_channel_leave s)
  else if CStr.strcaseeq command "join" then
    call g client (irc_client_channel_join s)
  else if CStr.strcaseeq command "msg" then
    let (channel, s1) := CStr.strsep s " " in
    match s1 with
    | None => missing_parameter g client "message"
    | Some _ => call g client (irc_client_msg channel s1)
    end
  else if CStr.strcaseeq command "notice" then
    let (channel, s1) := CStr.strsep s " " in
    match s1 with
    | None => missing_parameter g client "message"
    | Some _ => call g client (irc_client_notice channel s1)
    end
  else if CStr.strcaseeq command "me" then
    match fg_chan g with
    | EmptyString => no_fg_channel g client
    | String _ _ => call g client (irc_client_action (Some (fg_chan g)) s)
    end
  else if CStr.strcaseeq command "describe" then
    let (channel, s1) := CStr.strsep s " " in
    match s1 with
    | None => missing_parameter g client "message"
    | Some _ => call g client (irc_client_action channel s1)
    end
  else if CStr.strcaseeq command "ctcp" then
    let (channel, s1) := CStr.strsep s " " in
    match channel with
    | None => missing_parameter g client "target"
    | Some _ =>
        let (ctcp_name, s2) := CStr.strsep s1 " " in
        match ctcp_name with
        | None => missing_parameter g client "code"
        | Some name =>
            match irc_ctcp_from_string name with
            | None => mk_send_result (-1) client g []
            | Some ctcp =>
                let g' := match ctcp with
                          | CTCP_PING => set_ctcp_ping_time g now
                          | _ => g
                          end in
                call g' client (irc_client_ctcp_request channel ctcp)
            end
        end
    end
  else if CStr.strcaseeq command "nick" then
    let (msg, s1) := CStr.strsep s " " in
    match msg with
    | None => missing_parameter g client "nickname"
    | Some m => call g client (irc_client_change_nick m)
    end
  else if CStr.strcaseeq command "topic" then
    let (channel, s1) := CStr.strsep s " " in
    match channel with
    | None => missing_parameter g client "channel"
    | Some _ =>
        match s1 with
        | None => missing_parameter g client "topic"
        | Some _ => call g client (irc_client_set_channel_topic channel s1)
        end
    end
  else if CStr.strcaseeq command "list" then
    call g client (irc_client_list_channels s)
  else if CStr.strcaseeq command "invite" then
    let (nickname, s1) := CStr.strsep s " " in
    match nickname with
    | None => missing_parameter g client "nickname"
    | Some _ =>
        let (channel, s2) := CStr.strsep s1 " " in
        match channel with
        | None => missing_parameter g client "channel"
        | Some _ => call g client (irc_client_invite_user nickname channel)
        end
    end
  else if CStr.strcaseeq command "identify" then
    let (nickname, s1) := CStr.strsep s " " in
    match nickname with
    | None => missing_parameter g client "nickname"
    | Some _ =>
        let (password, s2) := CStr.strsep s1 " " in
        match password with
        | None => missing_parameter g client "password"
        | Some _ =>
            let r := call g client (irc_client_auth nickname password nickname) in
            mk_send_result (sr_res r) (sr_client r)
              (update_prompt (sr_globals r) (sr_client r)) (sr_trace r)
        end
    end
  else
    mk_send_result 0 client g
      [client_log IRC_LOG_WARN ("Invalid command: %s" ++ nl)
         [AStr (Some command)]].

(** [handle_send_msg(&client, input)].  [now] is what gettimeofday
    answers and [pthread_rc] what pthread_create returns, should the
    call reach them. *)
Definition handle_send_msg (now : timeval) (pthread_rc : Z) (g : globals)
  (client : irc_client) (input : string) : send_result :=
  match input with
  | String "/" s0 =>
      let (command, s) := CStr.strsep_str " " s0 in
      if CStr.strcaseeq command "help" then
        mk_send_result 0 client g
          (map (fun l => Printf (l ++ nl) []) help_lines)
      else if CStr.strcaseeq command "debug" then
        let (msg, s1) := CStr.strsep s " " in
        match msg with
        | None => missing_parameter g client "level"
        | Some m =>
            let level := CStr.atoi m in
            if (0 <=? level) && (level <=? 10) then
              mk_send_result 0 client (set_debug_level g level)
                [IrcPrint ("Debug level is now %d" ++ nl) [AInt level]]
            else mk_send_result 0 client g []
        end
      else if CStr.strcaseeq command "dnd" then
        let v := if do_not_disturb g =? 0 then 1 else 0 in
        mk_send_result 0 client (set_do_not_disturb g v)
          [IrcPrint ("Do Not Disturb is now %s" ++ nl)
             [AStr (Some (if v =? 0 then "disabled" else "enabled"))]]
      else if CStr.strcaseeq command "fg" then
        let (channel, s1) := CStr.strsep s " " in
        match channel with
        | None => missing_parameter g client "channel"
        | Some ch =>
            let (g1, tr) := set_fg_chan g ch in
            mk_send_result 0 client (update_prompt g1 client) tr
        end
      else if CStr.strcaseeq command "server" then
        send_server pthread_rc g client s
      else if negb (irc_client_connected client) then
        mk_send_result (-1) client g
          [client_log IRC_LOG_ERR
             ("Not connected to a server, operation not permitted." ++ nl) []]
      else send_connected now g client command s
  | _ =>
      match fg_chan g with
      | EmptyString => no_fg_channel g client
      | String _ _ =>
          call g client (irc_client_msg (Some (fg_chan g)) (Some input))
      end
  end.

End SendMsg.

(** How many of the first two space-separated tokens follow the
    command, the way strsep cuts them: none when nothing follows it
    (the pointer is NULL), one when what follows has no space, two
    otherwise.  A token may be empty: after a trailing space strsep
    leaves the empty string, not NULL. *)
Definition params_given (s : option string) : nat :=
  match s with
  | None => 0
  | Some str =>
      match snd (CStr.strsep_str " " str) with
      | None => 1
      | Some _ => 2
      end
  end.

(** For each command, the number of leading parameters that
    [handle_send_msg] checks with [REQUIRED_PARAMETER] (for /msg,
    /notice and /describe the check is on what follows the first
    parameter). *)
Definition guarded_params (command : string) : nat :=
  if CStr.strcaseeq command "help" then 0
  else if CStr.strcaseeq command "debug" then 1
  else if CStr.strcaseeq command "dnd" then 0
  else if CStr.strcaseeq command "fg" then 1
  else if CStr.strcaseeq command "server" then 1
  else if CStr.strcaseeq command "raw" then 0
  else if CStr.strcaseeq command "quit" then 0
  else if CStr.strcaseeq command "part" then 0
  else if CStr.strcaseeq command "join" then 0
  else if CStr.strcaseeq command "msg" then 2
  else if CStr.strcaseeq command "notice" then 2
  else if CStr.strcaseeq command "me" then 0
  else if CStr.strcaseeq command "describe" then 2
  else if CStr.strcaseeq command "ctcp" then 2
  else if CStr.strcaseeq command "nick" then 1
  else if CStr.strcaseeq command "topic" then 2
  else if CStr.strcaseeq command "list" then 0
  else if CStr.strcaseeq command "invite" then 2
  else if CStr.strcaseeq command "identify" then 2
  else 0.

(** The commands that are tested before the check of
    [irc_client_connected] need no connection; all others do. *)
Definition needs_connection (command : string) : bool :=
  negb (CStr.strcaseeq command "help"
        || CStr.strcaseeq command "debug"
        || CStr.strcaseeq command "dnd"
        || CStr.strcaseeq command "fg"
        || CStr.strcaseeq command "server").

(** A call that was rejected: it returned -1, logged an error, and
    called no function of the library. *)
Definition rejects_without_io (r : send_result) : Prop :=
  sr_res r = -1
  /\ (exists fmt args, In (ClientLog IRC_LOG_ERR 0 fmt args) (sr_trace r))
  /\ forall c, ~ In (Lib c) (sr_trace r).

(** ** main: options, connection and login *)

Definition CLIENT_VERSION : string := "LIRC client 0.2.0".
Definition CLIENT_COPYRIGHT : string :=
  CLIENT_VERSION ++ ", Copyright (C) 2023 Naveen Albert".

(** One result of [getopt] for the option string of [main].  An
    argument is the text [optarg] points to; for -k it is the memory
    itself, terminator included, because [main] later writes to it. *)
Inductive cli_opt : Type :=
| Opt_usage
| Opt_a (optarg : string)
| Opt_d
| Opt_f (optarg : string)
| Opt_h (optarg : string)
| Opt_k (optarg : list Z)
| Opt_p (optarg : string)
| Opt_s
| Opt_t
| Opt_u (optarg : string)
| Opt_V.

(** The locals of [main] that the option loop assigns. *)
Record options : Type := mk_options {
  o_flags : Z;
  o_port : Z;
  o_server : string;
  o_username : option string;
  o_autojoin : option string;
  o_fgchan : option string;
  o_optarg_k : option (list Z)
}.

Definition initial_options : options :=
  mk_options 0 0 "127.0.0.1" None None None None.

Definition usage_lines : list string :=
  [ "This is a simple IRC client for use with a single IRC server. It can also be used for debugging.";
    "There are 3 ways to use this program. Specify a server, username, and password to log in immediately.";
    "   You can specify just a server to connect to the server unauthenticated,";
    ("   or specify nothing to just open the client without connecting to any server first." ++ nl);
    "-a<chans>       Channels to autojoin on connect (comma-separated)";
    "-d              Increase debug level";
    "-f<chan>        Set foreground channel on connect";
    "-h<hostname>    IRC server hostname";
    "-k<password>    IRC password. For security reasons, you may omit this and provide on STDIN instead.";
    "-p<port>        IRC server port. If not provided, default is 6667 for plain text and 6697 for TLS.";
    "-s              Use SASL authentication. Some servers may require this.";
    "-t              Use TLS encryption. Recommended if supported by server (remember to use the right port).";
    "-u<username>    IRC username";
    "-V              Display version and exit" ].

(** Where [password] points. *)
Inductive pw_ptr : Type :=
| PwNull
| PwOptarg
| PwBuf.

(** The C string stored at the start of a byte array. *)
Fixpoint cstring (m : list Z) : string :=
  match m with
  | [] => EmptyString
  | b :: r =>
      if b =? 0 then EmptyString
      else String (ascii_of_N (Z.to_N b)) (cstring r)
  end.

(** [m[i] = v] and [memcpy(m, data, length data)], within bounds. *)
Fixpoint store (m : list Z) (i : nat) (v : Z) : list Z :=
  match m, i with
  | [], _ => []
  | _ :: r, O => v :: r
  | b :: r, S i' => b :: store r i' v
  end.

Fixpoint overwrite (m data : list Z) : list Z :=
  match m, data with
  | _ :: r, d :: ds => d :: overwrite r ds
  | _, _ => m
  end.

(** What the operating system answers during the start of [main]. *)
Record main_env : Type := mk_main_env {
  e_isatty : bool;
  e_tcgetattr : bool;
  e_tcsetattr_noecho : bool;
  e_read : list Z;
  e_tcsetattr_restore : bool;
  e_pipe : bool;
  e_pthread_rc : Z;
  e_passwordbuf : list Z
}.

(** [get_password(buf, len)]: its return value and the buffer it
    leaves.  [e_read] is what read(2) delivers; an empty list stands
    for a return value of 0 or less. *)
Definition get_password (env : main_env) (buf : list Z) (len : nat)
  : Z * list Z :=
  if negb (e_tcgetattr env) then (-1, buf)
  else if negb (e_tcsetattr_noecho env) then (-1, buf)
  else
    let data := firstn (Nat.pred len) (e_read env) in
    let nread := List.length data in
    match nread with
    | O => (-1, buf)
    | S last =>
        let buf1 := store (overwrite buf data) nread 0 in
        let buf2 :=
          if (1 <? nread)%nat && (nth last buf1 0 =? 10)
          then store buf1 last 0 else buf1 in
        if negb (e_tcsetattr_restore env) then (-1, buf2) else (0, buf2)
    end.

(** How far a part of [main] got: it returned, jumped to [closepipes],
    or goes on. *)
Inductive progress (A : Type) : Type :=
| Returned (code : Z) (trace : list effect)
| ClosePipes (mainres : Z) (trace : list effect)
| GoesOn (a : A).
Arguments Returned {A} code trace.
Arguments ClosePipes {A} mainres trace.
Arguments GoesOn {A} a.

Section Main.
Context {L : IrcLib} {H : IrcH}.

(** The option loop of [main].  The result is the output printed and,
    unless [main] returned -1 from inside the loop, the debug level and
    the locals. *)
Fixpoint parse_options (opts : list cli_opt) (dbg : Z) (o : options)
  : list effect * option (Z * options) :=
  match opts with
  | [] => ([], Some (dbg, o))
  | Opt_usage :: _ =>
      ((Printf ("%s" ++ nl ++ nl) [AStr (Some CLIENT_COPYRIGHT)]
        :: map (fun l => Printf (l ++ nl) []) usage_lines), None)
  | Opt_a a :: r =>
      parse_options r dbg
        (mk_options (o_flags o) (o_port o) (o_server o) (o_username o)
           (Some a) (o_fgchan o) (o_optarg_k o))
  | Opt_d :: r =>
      if 10 <=? dbg
      then ([Eprintf ("Maximum debug level is %d" ++ nl) [AInt 10]], None)
      else parse_options r (CStr.wrap_int (dbg + 1)) o
  | Opt_f a :: r =>
      parse_options r dbg
        (mk_options (o_flags o) (o_port o) (o_server o) (o_username o)
           (o_autojoin o) (Some a) (o_optarg_k o))
  | Opt_h a :: r =>
      parse_options r dbg
        (mk_options (o_flags o) (o_port o) a (o_username o)
           (o_autojoin o) (o_fgchan o) (o_optarg_k o))
  | Opt_k a :: r =>
      parse_options r dbg
        (mk_options (o_flags o) (o_port o) (o_server o) (o_username o)
           (o_autojoin o) (o_fgchan o) (Some a))
  | Opt_p a :: r =>
      parse_options r dbg
        (mk_options (o_flags o) (CStr.wrap_uint (CStr.atoi a)) (o_server o)
           (o_username o) (o_autojoin o) (o_fgchan o) (o_optarg_k o))
  | Opt_s :: r =>
      parse_options r dbg
        (mk_options (Z.lor (o_flags o) IRC_CLIENT_USE_SASL) (o_port o)
           (o_server o) (o_username o) (o_autojoin o) (o_fgchan o)
           (o_optarg_k o))
  | Opt_t :: r =>
      parse_options r dbg
        (mk_options
           (Z.land (Z.lor (o_flags o) IRC_CLIENT_USE_TLS)
              (Z.lnot IRC_CLIENT_VERIFY_SERVER))
           (o_port o) (o_server o) (o_username o) (o_autojoin o)
           (o_fgchan o) (o_optarg_k o))
  | Opt_u a :: r =>
      parse_options r dbg
        (mk_options (o_flags o) (o_port o) (o_server o) (Some a)
           (o_autojoin o) (o_fgchan o) (o_optarg_k o))
  | Opt_V :: _ => ([Printf ("%s" ++ nl) [AStr (Some CLIENT_COPYRIGHT)]], None)
  end.

(** [if (!port) port = flags & IRC_CLIENT_USE_TLS ? IRC_DEFAULT_TLS_PORT
    : IRC_DEFAULT_PORT;] on the unsigned [port]. *)
Definition default_port (flags port : Z) : Z :=
  if port =? 0 then
    if negb (Z.land flags IRC_CLIENT_USE_TLS =? 0)
    then CStr.wrap_uint IRC_DEFAULT_TLS_PORT
    else CStr.wrap_uint IRC_DEFAULT_PORT
  else port.

(** The password memory [main] can write to: the argument of -k and the
    local [passwordbuf]. *)
Record pw_memory : Type := mk_pw_memory {
  mem_optarg : list Z;
  mem_passwordbuf : list Z
}.

(** The bytes [password] points to. *)
Definition password_bytes (p : pw_ptr) (m : pw_memory) : list Z :=
  match p with
  | PwNull => []
  | PwOptarg => mem_optarg m
  | PwBuf => mem_passwordbuf m
  end.

(** [password ? password : EmptyString] as a C string. *)
Definition password_text (p : pw_ptr) (m : pw_memory) : string :=
  cstring (password_bytes p m).

(** The two memsets inside [if (password)]. *)
Definition zero_password (p : pw_ptr) (m : pw_memory) : pw_memory :=
  match p with
  | PwBuf =>
      mk_pw_memory (mem_optarg m)
        (CStr.memset (mem_passwordbuf m) 0 (List.length (mem_passwordbuf m)))
  | PwOptarg =>
      mk_pw_memory (CStr.memset (mem_optarg m) 0 (CStr.strlen (mem_optarg m)))
        (mem_passwordbuf m)
  | PwNull => m
  end.

(** A point of [main] after the client is created; [ms_connected] tells
    which branch of [if (server && port)] was taken. *)
Record main_state : Type := mk_main_state {
  ms_connected : bool;
  ms_globals : globals;
  ms_client : irc_client;
  ms_options : options;
  ms_password : pw_ptr;
  ms_memory : pw_memory;
  ms_trace : list effect
}.

Definition or_empty (s : option string) : string :=
  match s with Some x => x | None => EmptyString end.

(** [main] from the option loop up to and including
    [irc_client_connect], on the branch [if (server && port)]; the other
    branch creates an unconnected client. *)
Definition main_connect (env : main_env) (opts : list cli_opt)
  : progress main_state :=
  let (t0, parsed) := parse_options opts 0 initial_options in
  match parsed with
  | None => Returned (-1) t0
  | Some (dbg, o0) =>
      let port := default_port (o_flags o0) (o_port o0) in
      let o := mk_options (o_flags o0) port (o_server o0) (o_username o0)
                 (o_autojoin o0) (o_fgchan o0) (o_optarg_k o0) in
      let g := set_debug_level initial_globals dbg in
      let t1 := (t0 ++ [Printf ("%s" ++ nl) [AStr (Some CLIENT_COPYRIGHT)];
                        set_term_title CLIENT_VERSION])%list in
      let mem0 := mk_pw_memory (match o_optarg_k o with Some m => m | None => [] end)
                    (e_passwordbuf env) in
      let p0 := match o_optarg_k o with Some _ => PwOptarg | None => PwNull end in
      let ask :=
        match o_username o, p0 with
        | Some _, PwNull => e_isatty env
        | _, _ => false
        end in
      let t2 :=
        if ask
        then (t1 ++ [Eprintf "Password for %s@%s: "
                       [AStr (o_username o); AStr (Some (o_server o))]])%list
        else t1 in
      let (rc, buf) :=
        if ask then get_password env (e_passwordbuf env) 73
        else (0, e_passwordbuf env) in
      if negb (rc =? 0) then
        Returned (-1)
          (t2 ++ [Eprintf ("Password not provided, and failed to read interactively" ++ nl) []])%list
      else
        let t2' := if ask then (t2 ++ [Eprintf nl []])%list else t2 in
        let mem := mk_pw_memory (mem_optarg mem0) buf in
        let p := if ask then PwBuf else p0 in
        if negb (e_pipe env) then
          Returned (-1)
            (t2' ++ [Sys "pipe";
                     Eprintf ("Failed to create pipe: %s" ++ nl) [AErrno]])%list
        else
          let t3 :=
            (t2' ++ [Sys "pipe"]
               ++ (if negb (dbg =? 0)
                   then [Printf ("IRC client started with debug level %d" ++ nl) [AInt dbg]]
                   else [])
               ++ [Sys "irc_log_callback"])%list in
          if negb (port =? 0) then
            let new := LibNew (o_server o) port (or_empty (o_username o))
                         (password_text p mem) in
            match irc_client_new (o_server o) port (or_empty (o_username o))
                    (password_text p mem) with
            | None => ClosePipes (-1) (t3 ++ [new])%list
            | Some client =>
                let g1 := update_prompt g client in
                let (res, client1) :=
                  lib_exec (irc_client_set_flags (o_flags o)) client in
                let t4 := (t3 ++ [new; Lib (irc_client_set_flags (o_flags o))])%list in
                if negb (res =? 0) then ClosePipes (-1) t4
                else
                  let client2 :=
                    snd (lib_exec (irc_client_autojoin (o_autojoin o)) client1) in
                  let (res', client3) := lib_exec irc_client_connect client2 in
                  let t5 := (t4 ++ [Lib (irc_client_autojoin (o_autojoin o));
                                    Lib irc_client_connect])%list in
                  if negb (res' =? 0) then
                    ClosePipes (-1)
                      (t5 ++ [Printf ("Failed to connect to %s:%d" ++ nl)
                                [AStr (Some (o_server o)); AInt port]])%list
                  else
                    let t6 :=
                      if negb (dbg =? 0) then
                        (t5 ++ [Printf ("Now connected to %s://%s:%d" ++ nl)
                                  [AStr (Some (if negb (Z.land (o_flags o) IRC_CLIENT_USE_TLS =? 0)
                                               then "ircs" else "irc"));
                                   AStr (Some (o_server o)); AInt port]])%list
                      else t5 in
                    GoesOn (mk_main_state true g1 client3 o p mem t6)
            end
          else
            let t4 :=
              (t3 ++ (if negb (dbg =? 0)
                      then [Printf ("Started without active connection" ++ nl) []]
                      else [])
                  ++ [LibNew EmptyString 0 EmptyString EmptyString])%list in
            match irc_client_new EmptyString 0 EmptyString EmptyString with
            | None => ClosePipes (-1) t4
            | Some client => GoesOn (mk_main_state false g client o p mem t4)
            end
  end.
(** The state of [main] at the call [irc_client_login(client)]: the
    statements of [if (password)] that precede the call have run. *)
Definition main_at_login (st : main_state) : option main_state :=
  if ms_connected st then
    match ms_password st with
    | PwNull => None
    | p =>
        Some (mk_main_state true (ms_globals st) (ms_client st) (ms_options st)
                p (zero_password p (ms_memory st)) (ms_trace st))
    end
  else None.

(** [main] from [if (password)] to [fully_started = 1]. *)
Definition main_login (env : main_env) (st : main_state)
  : progress main_state :=
  let ready (s : main_state) : progress main_state :=
    GoesOn (mk_main_state (ms_connected s) (set_fully_started (ms_globals s) 1)
              (ms_client s) (ms_options s) (ms_password s) (ms_memory s)
              (ms_trace s
                 ++ [Printf ("=== IRC client is now ready. Press ^C to exit ===" ++ nl) [];
                     Sys "set_term"; Sys "signal"])%list) in
  let start_thread (s : main_state) : progress main_state :=
    if negb (e_pthread_rc env =? 0)
    then Returned (-1) (ms_trace s ++ [PthreadCreate])%list
    else ready (mk_main_state (ms_connected s) (ms_globals s) (ms_client s)
                  (ms_options s) (ms_password s) (ms_memory s)
                  (ms_trace s ++ [PthreadCreate])%list) in
  if ms_connected st then
    match main_at_login st with
    | Some s1 =>
        let (res, client') := lib_exec irc_client_login (ms_client s1) in
        let t := (ms_trace s1 ++ [Lib irc_client_login])%list in
        if negb (res =? 0) then
          Returned (-1) (t ++ [Printf ("Authentication failed!" ++ nl) []])%list
        else
          let (g', t') :=
            match o_fgchan (ms_options s1) with
            | Some fgchan => set_fg_chan (ms_globals s1) fgchan
            | None => (ms_globals s1, [])
            end in
          start_thread (mk_main_state true g' client' (ms_options s1)
                          (ms_password s1) (ms_memory s1) (t ++ t')%list)
    | None =>
        start_thread
          (mk_main_state true (ms_globals st) (ms_client st) (ms_options st)
             (ms_password st) (ms_memory st)
             (ms_trace st
                ++ (if negb (debug_level (ms_globals st) =? 0)
                    then [Printf ("Connecting without authenticating..." ++ nl) []]
                    else []))%list)
    end
  else ready st.

(** [main] up to the main loop. *)
Definition main_startup (env : main_env) (opts : list cli_opt)
  : progress main_state :=
  match main_connect env opts with
  | GoesOn st => main_login env st
  | other => other
  end.

End Main.

(** The actions a part of [main] performed. *)
Definition progress_trace (p : progress main_state) : list effect :=
  match p with
  | Returned _ t => t
  | ClosePipes _ t => t
  | GoesOn st => ms_trace st
  end.

(** The actions that only print to the terminal. *)
Definition is_print (e : effect) : Prop :=
  match e with
  | Printf _ _ => True
  | Eprintf _ _ => True
  | _ => False
  end.

(** The actions [main] can perform up to [irc_client_connect], given
    the locals [o] the option loop produced. *)
Definition connect_event {H : IrcH} (o : options) (e : effect) : Prop :=
  is_print e
  \/ (exists name, e = Sys name)
  \/ (exists user pass,
        e = LibNew (o_server o) (default_port (o_flags o) (o_port o)) user pass)
  \/ e = Lib (irc_client_set_flags (o_flags o))
  \/ e = Lib (irc_client_autojoin (o_autojoin o))
  \/ e = Lib irc_client_connect.

(** A byte array that holds exactly one C string: its first zero byte is
    its last byte. *)
Definition is_cstr (m : list Z) : bool :=
  Nat.eqb (S (CStr.strlen m)) (List.length m).

(** The argument of every -k is a C string, as the arguments the
    operating system hands to [main] are. *)
Definition opt_wf (o : cli_opt) : Prop :=
  match o with
  | Opt_k m => is_cstr m = true
  | _ => True
  end.

(** ** The line editor and the main loop *)

(** What one iteration of the loop of [client_readline] meets after
    [poll] returns.  [write_ok] tells whether the write(2) to standard
    output made in that iteration, if any, succeeds. *)
Inductive poll_outcome : Type :=
| PollError (eintr : bool)
| PollStdin (byte : option Z) (write_ok : bool)
| PollPipe (data : list Z) (write_ok : bool)
| PollIdle.

(** The locals of [client_readline]; [rl_buf] is bufstart[0..num_read). *)
Record rl_state : Type := mk_rl_state {
  rl_num_read : Z;
  rl_lastpos : Z;
  rl_len : Z;
  rl_buf : list Z
}.

Inductive rl_step : Type :=
| RlContinue (st : rl_state) (g : globals) (out : list effect)
| RlReturn (res : Z) (st : rl_state) (g : globals) (out : list effect).

Definition bytes_of_string (s : string) : list Z :=
  map (fun c => Z.of_N (N_of_ascii c)) (list_ascii_of_string s).

Definition failed_write : effect :=
  client_log IRC_LOG_ERR ("Failed to write to file: %s" ++ nl) [AErrno].

(** The branch [fds[0].revents]: one byte of input from the terminal.
    read(2) has stored the byte at [bufstart[num_read]] by the time it
    is tested; [rl_buf] holds the bytes counted, and [readline_store]
    follows the array itself. *)
Definition readline_stdin (g : globals) (st : rl_state) (byte : option Z)
  (write_ok : bool) : rl_step :=
  match byte with
  | None => RlReturn (-1) st g []
  | Some c =>
      if c =? 10 then
        if rl_num_read st =? 0
        then RlContinue st g [Printf "%s" [AStr (Some (client_prompt g))]]
        else RlReturn (rl_num_read st) st g []
      else if (c =? 8) || (c =? 127) then
        let redraw (s : rl_state) :=
          Printf (CLEAR_LINE ++ "%s%.*s")
            [AStr (Some (client_prompt g)); AInt (rl_num_read s);
             ABytes (rl_buf s)] in
        if negb (rl_num_read st =? 0) then
          let st' := mk_rl_state (CStr.wrap_int (rl_num_read st - 1))
                       (rl_lastpos st) (CStr.wrap_size_t (rl_len st + 1))
                       (removelast (rl_buf st)) in
          RlContinue st' g [redraw st']
        else
          RlContinue st g
            ([WriteStdout [7]]
               ++ (if write_ok then [] else [failed_write])
               ++ [redraw st])%list
      else
        let st' := mk_rl_state (CStr.wrap_int (rl_num_read st + 1)) 0
                     (CStr.wrap_size_t (rl_len st - 1))
                     (rl_buf st ++ [c])%list in
        if rl_len st' <=? 1 then RlReturn (rl_num_read st') st' g []
        else RlContinue st' g []
  end.

(** The branch [fds[1].revents]: output waiting in the pipe.  read(2)
    delivers at most 511 bytes; no byte stands for a result of 0 or
    less. *)
Definition readline_pipe (g : globals) (st : rl_state) (data : list Z)
  (write_ok : bool) : rl_step :=
  let outputbuf := firstn 511 data in
  let res := List.length outputbuf in
  match outputbuf with
  | [] => RlReturn (-1) st g []
  | first :: _ =>
      if (res =? 1)%nat && (first =? 0) then
        RlReturn (-1) st (set_shutting_down g 1) []
      else
        let clear := bytes_of_string CLEAR_LINE in
        if (rl_lastpos st =? 0) && negb write_ok then
          RlReturn (-1) st g
            [WriteStdout clear;
             client_log IRC_LOG_ERR ("Failed to write: %s" ++ nl) [AErrno]]
        else
          let t0 := if rl_lastpos st =? 0 then [WriteStdout clear] else [] in
          let t1 := [Printf "%s" [ABytes outputbuf]] in
          let ends_line :=
            (res <? 511)%nat
            && ((nth (res - 1) outputbuf 0 =? 10)
                || ((2 <=? res)%nat && (nth (res - 2) outputbuf 0 =? 10))) in
          let t2 :=
            if ends_line
            then [Printf (String (ascii_of_nat 13) "%s%.*s")
                    [AStr (Some (client_prompt g)); AInt (rl_num_read st);
                     ABytes (rl_buf st)]]
            else [] in
          RlContinue
            (mk_rl_state (rl_num_read st) 1 (rl_len st) (rl_buf st)) g
            (t0 ++ t1 ++ t2)%list
  end.

(** One iteration of the [for (;;)] of [client_readline]. *)
Definition readline_step (g : globals) (st : rl_state) (o : poll_outcome)
  : rl_step :=
  match o with
  | PollError true => RlContinue st g []
  | PollError false =>
      RlReturn (-1) st g
        [client_log IRC_LOG_ERR ("poll failed: %s" ++ nl) [AErrno]]
  | PollStdin byte write_ok => readline_stdin g st byte write_ok
  | PollPipe data write_ok => readline_pipe g st data write_ok
  | PollIdle => RlContinue st g []
  end.

(** What a call of [client_readline] comes to on a finite list of poll
    outcomes: [rr_res] is [None] while the call is still blocked in
    poll when the list ends. *)
Record readline_result : Type := mk_readline_result {
  rr_res : option Z;
  rr_state : rl_state;
  rr_globals : globals;
  rr_out : list effect;
  rr_rest : list poll_outcome
}.

Fixpoint readline_loop (g : globals) (st : rl_state) (out : list effect)
  (w : list poll_outcome) : readline_result :=
  match w with
  | [] => mk_readline_result None st g out []
  | o :: w' =>
      match readline_step g st o with
      | RlContinue st' g' t => readline_loop g' st' (out ++ t)%list w'
      | RlReturn res st' g' t =>
          mk_readline_result (Some res) st' g' (out ++ t)%list w'
      end
  end.

(** [client_readline(buf, len)]. *)
Definition client_readline (g : globals) (len : Z) (w : list poll_outcome)
  : readline_result :=
  readline_loop g (mk_rl_state 0 0 len [])
    [Printf "%s" [AStr (Some (client_prompt g))]] w.

(** The locals of a call whose length argument was at most [bound]:
    [num_read] counts the bytes kept, and [num_read + len] never
    changes. *)
Definition rl_inv (bound : Z) (st : rl_state) : Prop :=
  0 <= rl_num_read st /\ 1 <= rl_len st /\ rl_num_read st + rl_len st <= bound.

(** The values [client_readline] returns: -1, or a count of at least
    one byte. *)
Definition good_return (res : Z) : Prop := res = -1 \/ 1 <= res.

(** [__sigint_handler]. *)
Definition __sigint_handler : list effect := [WritePipe [0]].

(** The bytes a list of actions puts into the notification pipe with
    raw write(2) calls on [iopipe[1]], the way [__sigint_handler] and
    [rx_thread] signal.  The formatted output of [irc_print] and
    [__client_log], which goes through the same descriptor once
    [fully_started] is set, is not among them; [pipe_output] has
    both. *)
Fixpoint raw_pipe_bytes (t : list effect) : list Z :=
  match t with
  | [] => []
  | WritePipe b :: r => (b ++ raw_pipe_bytes r)%list
  | _ :: r => raw_pipe_bytes r
  end.

(** What goes into [iopipe[1]]: the bytes of a raw write(2), or a line
    of formatted output, which [print_time] starts with a carriage
    return and the date. *)
Inductive pipe_item : Type :=
| RawBytes (bytes : list Z)
| Formatted (fmt : string) (args : list arg).

(** What one action puts into the pipe.  [irc_print] and [__client_log]
    write to [fully_started ? iopipe[1] : STDOUT_FILENO], and
    [__client_log] writes a message only if its level passes. *)
Definition pipe_items (g : globals) (e : effect) : list pipe_item :=
  match e with
  | WritePipe b => [RawBytes b]
  | IrcPrint fmt args =>
      if fully_started g =? 0 then [] else [Formatted fmt args]
  | ClientLog level sublevel fmt args =>
      if fully_started g =? 0 then []
      else if __client_log g level sublevel then [Formatted fmt args]
      else []
  | _ => []
  end.

(** What a list of actions puts into the pipe, in order, while
    [fully_started] and [debug_level] are as in [g]. *)
Definition pipe_output (g : globals) (t : list effect) : list pipe_item :=
  flat_map (pipe_items g) t.

Definition is_formatted (i : pipe_item) : Prop :=
  match i with
  | Formatted _ _ => True
  | RawBytes _ => False
  end.

(** How the main loop ended on a finite list of poll outcomes. *)
Inductive loop_end : Type :=
| RequestedDisconnect
| ClientDisconnected
| StillReading.

Section MainLoop.
Context {L : IrcLib} {H : IrcH}.

(** [sizeof(input) - 1], the length [main] passes to
    [client_readline]. *)
Definition INPUT_LEN : Z := 512.

(** The [for (;;)] of [main], with the loop of [client_readline] unfolded
    into it: [st] holds the locals of the call of [client_readline] in
    progress.  [os] gives what gettimeofday and pthread_create answer
    while a line is handled. *)
Fixpoint main_loop_from (os : string -> timeval * Z) (g : globals)
  (client : irc_client) (st : rl_state) (w : list poll_outcome)
  : loop_end * globals * irc_client * list effect :=
  match w with
  | [] => (StillReading, g, client, [])
  | o :: w' =>
      match readline_step g st o with
      | RlContinue st' g' t =>
          let '(e, g2, c2, t2) := main_loop_from os g' client st' w' in
          (e, g2, c2, (t ++ t2)%list)
      | RlReturn res st' g' t =>
          if negb (shutting_down g' =? 0) then
            (RequestedDisconnect, g', client,
             (t ++ [Printf (nl ++ "Client requested disconnect..." ++ nl) []])%list)
          else if res <=? 0 then
            (ClientDisconnected, g', client,
             (t ++ [Printf (nl ++ "Client disconnected" ++ nl) []])%list)
          else
            let input := cstring (firstn (Z.to_nat res) (rl_buf st')) in
            let r := handle_send_msg (fst (os input)) (snd (os input))
                       g' client input in
            let g3 := sr_globals r in
            let '(e, g4, c4, t4) :=
              main_loop_from os g3 (sr_client r)
                (mk_rl_state 0 0 INPUT_LEN []) w' in
            (e, g4, c4,
             (t ++ sr_trace r ++ [Printf "%s" [AStr (Some (client_prompt g3))]]
                ++ t4)%list)
      end
  end.

(** The main loop from its first iteration. *)
Definition main_loop (os : string -> timeval * Z) (g : globals)
  (client : irc_client) (w : list poll_outcome)
  : loop_end * globals * irc_client * list effect :=
  let '(e, g', c', t) :=
    main_loop_from os g client (mk_rl_state 0 0 INPUT_LEN []) w in
  (e, g', c', (Printf "%s" [AStr (Some (client_prompt g))] :: t)).

End MainLoop.

(** ** The receive thread *)

(** Modelled from the spec: what the transport's blocking line read
    hands to the receive loop, the line already parsed into a message
    by the library. *)
Inductive read_line_result : Type :=
| Line (msg : irc_msg) (clk : clock)
| PeerClosed
| TransportError.

Definition set_connected (c : irc_client) (v : bool) : irc_client :=
  mk_irc_client (irc_client_hostname c) (irc_client_port c)
    (irc_client_nickname c) (irc_client_username c) (irc_client_flags c)
    v (irc_client_authenticated c).

(** Modelled from the spec: [irc_loop] is defined in irc.c, which is not
    part of this development.  Section 4.5 of the specification: the
    loop repeatedly blocks on the line read and invokes the callback
    synchronously per message; it exits when the read reports peer-close
    or a transport error, and on exit the connected flag of the
    connection is false.  [None]: the loop has not returned (the feed
    ended while it was blocked in a read, or the callback ran into
    undefined behaviour). *)
Fixpoint irc_loop
  (cb : clock -> globals -> irc_client -> irc_msg
        -> option (irc_client * globals * list effect))
  (feed : list read_line_result) (g : globals) (client : irc_client)
  : option (irc_client * globals * list effect) :=
  match feed with
  | [] => None
  | Line msg clk :: rest =>
      match cb clk g client msg with
      | None => None
      | Some (client', g', t) =>
          match irc_loop cb rest g' client' with
          | None => None
          | Some (c2, g2, t2) => Some (c2, g2, (t ++ t2)%list)
          end
      end
  | PeerClosed :: _ => Some (set_connected client false, g, [])
  | TransportError :: _ => Some (set_connected client false, g, [])
  end.

Section RxThread.
Context {L : IrcLib}.

(** [rx_thread].  [fopen_ok] and [write_ok] tell whether fopen and the
    final write succeed.  A failed assertion aborts the process. *)
Definition rx_thread (fopen_ok write_ok : bool) (feed : list read_line_result)
  (g : globals) (client : irc_client)
  : option (irc_client * globals * list effect) :=
  let t0 :=
    if fopen_ok then []
    else [client_log IRC_LOG_ERR ("Failed to open file: %s" ++ nl) [AErrno]] in
  match irc_loop handle_irc_msg feed g client with
  | None => None
  | Some (client', g', t1) =>
      let t2 :=
        (t0 ++ t1
           ++ [client_log IRC_LOG_INFO
                 ("IRC client receive thread has exited" ++ nl) []])%list in
      if irc_client_connected client' then Some (client', g', (t2 ++ [Abort])%list)
      else
        Some (client', g',
              (t2 ++ [WritePipe [0]]
                  ++ (if write_ok then [] else [failed_write]))%list)
  end.

End RxThread.

(** ** A library to run the front end against *)

Module SpecLib.

Definition ctcp_delim : ascii := ascii_of_nat 1.

Fixpoint last_char (s : string) : option ascii :=
  match s with
  | EmptyString => None
  | String c EmptyString => Some c
  | String _ r => last_char r
  end.

Fixpoint drop_last (s : string) : string :=
  match s with
  | EmptyString => EmptyString
  | String c EmptyString => EmptyString
  | String c r => String c (drop_last r)
  end.

(** Modelled from the spec: section 4.3, verb matching is case-sensitive
    against the closed CTCP verb set. *)
Definition ctcp_of_verb (v : string) : irc_ctcp_type :=
  if String.eqb v "ACTION" then CTCP_ACTION
  else if String.eqb v "VERSION" then CTCP_VERSION
  else if String.eqb v "TIME" then CTCP_TIME
  else if String.eqb v "PING" then CTCP_PING
  else if String.eqb v "DCC" then CTCP_DCC
  else if String.eqb v "SED" then CTCP_SED
  else CTCP_UNKNOWN.

(** Modelled from the spec: section 4.3, a CTCP payload is a trailing
    body with the delimiter byte at both its start and its end. *)
Definition is_ctcp (m : irc_msg) : bool :=
  match irc_msg_body m with
  | Some (String c r) =>
      Ascii.eqb c ctcp_delim
      && match last_char r with
         | Some d => Ascii.eqb d ctcp_delim
         | None => false
         end
  | _ => false
  end.

(** Modelled from the spec: section 4.3, the sub-parser strips the
    delimiters and splits the interior on the first space into verb and
    data. *)
Definition parse_msg_ctcp (m : irc_msg) : Z * irc_msg :=
  match irc_msg_body m with
  | Some (String c r) =>
      let (verb, data) := CStr.strsep_str " " (drop_last r) in
      (0, mk_irc_msg (irc_msg_type m) (irc_msg_numeric m) (irc_msg_prefix m)
            (irc_msg_command m) (irc_msg_channel m) data (ctcp_of_verb verb))
  | _ => (-1, m)
  end.

Definition ctcp_from_string (s : string) : option irc_ctcp_type :=
  match ctcp_of_verb s with
  | CTCP_UNKNOWN => None
  | t => Some t
  end.

(** Modelled from the spec: a library whose operations all succeed; the
    ones whose effect on the connection the specification's data model
    names update the client. *)
Definition exec (c : libcall) (cl : irc_client) : Z * irc_client :=
  match c with
  | irc_client_set_nick n =>
      (0, mk_irc_client (irc_client_hostname cl) (irc_client_port cl) n
            (irc_client_username cl) (irc_client_flags cl)
            (irc_client_connected cl) (irc_client_authenticated cl))
  | irc_client_set_flags f =>
      (0, mk_irc_client (irc_client_hostname cl) (irc_client_port cl)
            (irc_client_nickname cl) (irc_client_username cl) f
            (irc_client_connected cl) (irc_client_authenticated cl))
  | irc_client_connect => (0, set_connected cl true)
  | irc_client_login =>
      (0, mk_irc_client (irc_client_hostname cl) (irc_client_port cl)
            (irc_client_username cl) (irc_client_username cl)
            (irc_client_flags cl) (irc_client_connected cl) true)
  | _ => (0, cl)
  end.

Definition new (server : string) (port : Z) (user pass : string)
  : option irc_client :=
  Some (mk_irc_client server port EmptyString user 0 false false).

#[export] Instance lib : IrcLib :=
  {| lib_exec := exec;
     irc_client_new := new;
     irc_ctcp_from_string := ctcp_from_string;
     irc_msg_is_ctcp := is_ctcp;
     irc_parse_msg_ctcp := parse_msg_ctcp |}.

(** Modelled from the spec: three distinct single-bit connection flags
    {use-TLS, verify-peer, use-SASL}. *)
#[export] Instance flags : IrcH :=
  {| IRC_CLIENT_USE_TLS := 1;
     IRC_CLIENT_VERIFY_SERVER := 2;
     IRC_CLIENT_USE_SASL := 4 |}.

Definition delimited (s : string) : string :=
  String ctcp_delim (s ++ String ctcp_delim EmptyString).

Definition connected_client : irc_client :=
  mk_irc_client "irc.example.net" 6667 "alice" "alice" 0 true false.

Definition idle_client : irc_client :=
  mk_irc_client EmptyString 0 EmptyString EmptyString 0 false false.

Definition noon : clock :=
  mk_clock (mk_timeval 1700000000 0) "Tue Nov 14 2023 12:00:00 pm UTC".

Definition chat (t : irc_msg_type_t) (prefix target body : string) : irc_msg :=
  mk_irc_msg t 0 (Some prefix) None (Some target) (Some body) CTCP_UNKNOWN.

(** A nickname of 63 bytes, another user's prefix whose nick is one byte
    longer, and the NICK message that user's change of nick produces. *)
Definition long_nick : string := "aaaaaaaaaaaaaaaaaaaaaaaaaaaaaaaaaaaaaaaaaaaaaaaaaaaaaaaaaaaaaaa".

Definition longer_prefix : string := "aaaaaaaaaaaaaaaaaaaaaaaaaaaaaaaaaaaaaaaaaaaaaaaaaaaaaaaaaaaaaaaa!a@example".

Definition long_nick_client : irc_client :=
  mk_irc_client "irc.example.net" 6667 long_nick "alice" 0 true false.

Definition other_nick_change : irc_msg :=
  mk_irc_msg IRC_CMD_NICK 0 (Some longer_prefix) (Some "NICK") None
    (Some ":bob") CTCP_UNKNOWN.

Definition bob_nick_change : irc_msg :=
  mk_irc_msg IRC_CMD_NICK 0 (Some "bob!b@example") (Some "NICK") None
    (Some ":robert") CTCP_UNKNOWN.

Definition own_nick_change : irc_msg :=
  mk_irc_msg IRC_CMD_NICK 0 (Some "alice!a@example") (Some "NICK") None
    (Some ":alicia") CTCP_UNKNOWN.

(** An operating system on which every call succeeds; the terminal
    delivers the line hunter2 when the password is read. *)
Definition env : main_env :=
  mk_main_env true true true [104; 117; 110; 116; 101; 114; 50; 10] true
    true 0 (repeat 170 73).

(** -u alice -k s3cr3t, and -u alice alone. *)
Definition login_opts : list cli_opt :=
  [Opt_u "alice"; Opt_k [115; 51; 99; 114; 51; 116; 0]].

Definition ask_opts : list cli_opt := [Opt_u "alice"].

End SpecLib.

(** The actions the event callback performs. *)
Definition callback_event (e : effect) : Prop :=
  match e with
  | IrcPrint _ _ => True
  | ClientLog _ _ _ _ => True
  | Lib _ => True
  | _ => False
  end.

(** ** The terminal *)

(** struct termios, as far as client.c looks into it: the four flag
    words and the control characters. *)
Record termios : Type := mk_termios {
  c_iflag : Z;
  c_oflag : Z;
  c_cflag : Z;
  c_lflag : Z;
  c_cc : list Z
}.

(** The two local-mode bits of termios.h that client.c names. *)
Class TermiosH : Type := {
  ICANON : Z;
  ECHO : Z
}.

Definition set_lflag (t : termios) (v : Z) : termios :=
  mk_termios (c_iflag t) (c_oflag t) (c_cflag t) v (c_cc t).

(** [memset(&t, 0, sizeof(t))]. *)
Definition zero_termios (t : termios) : termios :=
  mk_termios 0 0 0 0 (map (fun _ => 0) (c_cc t)).

(** What a call of [set_term] leaves: its return value, the global
    [orig_term], the attributes of the terminal, whether
    [restore_term] was registered with atexit, and what was printed.
    A failed tcsetattr is taken to leave the terminal as it was. *)
Record set_term_result : Type := mk_set_term_result {
  st_res : Z;
  st_orig_term : termios;
  st_tty : termios;
  st_atexit : bool;
  st_trace : list effect
}.

Section Terminal.
Context {T : TermiosH}.

(** [set_term]. *)
Definition set_term (tcgetattr_ok tcsetattr_ok : bool)
  (orig_term tty : termios) : set_term_result :=
  let orig0 := zero_termios orig_term in
  if negb tcgetattr_ok then
    mk_set_term_result (-1) orig0 tty false
      [Eprintf ("tcgetattr failed: %s" ++ nl) [AErrno]]
  else
    let orig := tty in
    let term := set_lflag orig (Z.land (c_lflag orig) (Z.lnot ICANON)) in
    if negb tcsetattr_ok then
      mk_set_term_result (-1) orig tty false
        [Eprintf ("tcsetattr failed: %s" ++ nl) [AErrno]]
    else mk_set_term_result 0 orig term true [].

(** [restore_term]: the attributes of the terminal after it. *)
Definition restore_term (tcsetattr_ok : bool) (orig_term tty : termios)
  : termios :=
  if tcsetattr_ok then orig_term else tty.

(** The attributes [get_password] leaves the terminal with, for the
    same answers of the operating system as [get_password] takes. *)
Definition get_password_tty (env : main_env) (len : nat) (tty : termios)
  : termios :=
  if negb (e_tcgetattr env) then tty
  else
    let old := tty in
    let new := set_lflag old (Z.land (c_lflag old) (Z.lnot ECHO)) in
    if negb (e_tcsetattr_noecho env) then tty
    else
      match firstn (Nat.pred len) (e_read env) with
      | [] => new
      | _ :: _ => if negb (e_tcsetattr_restore env) then new else old
      end.

End Terminal.

(** ** Notions used to state further properties *)

(** A byte that the line editor counts as part of the line: not a
    newline, a backspace or a delete. *)
Definition stored_byte (b : Z) : Prop := b <> 10 /\ b <> 8 /\ b <> 127.

(** [m[i] = c] for an array [m]; [None] is a write outside the
    array. *)
Definition poke (m : list Z) (i : Z) (c : Z) : option (list Z) :=
  if (0 <=? i) && (i <? Z.of_nat (List.length m))
  then Some (store m (Z.to_nat i) c)
  else None.

(** The caller's array across one iteration of [client_readline].
    [read(STDIN_FILENO, buf, 1)] stores the byte at [buf], which is
    [bufstart + num_read], before the byte is looked at: a newline, a
    backspace or a delete is stored as well, only not counted. *)
Definition readline_store (m : list Z) (st : rl_state) (o : poll_outcome)
  : option (list Z) :=
  match o with
  | PollStdin (Some c) _ => poke m (rl_num_read st) c
  | _ => Some m
  end.

(** The caller's array when [client_readline] returns, or when the poll
    outcomes end. *)
Fixpoint readline_memory (g : globals) (st : rl_state) (m : list Z)
  (w : list poll_outcome) : option (list Z) :=
  match w with
  | [] => Some m
  | o :: w' =>
      match readline_store m st o with
      | None => None
      | Some m' =>
          match readline_step g st o with
          | RlContinue st' g' _ => readline_memory g' st' m' w'
          | RlReturn _ _ _ _ => Some m'
          end
      end
  end.

(** The locals of a call of [client_readline] entered with [len0]: the
    buffer holds [num_read] stored bytes, at least two bytes of room are
    left, and [num_read + len] is [len0]. *)
Definition rl_exact (len0 : Z) (st : rl_state) : Prop :=
  0 <= rl_num_read st
  /\ 2 <= rl_len st
  /\ rl_num_read st + rl_len st = len0
  /\ Z.of_nat (List.length (rl_buf st)) = rl_num_read st
  /\ Forall stored_byte (rl_buf st).

(** The array agrees with the locals: it is long enough for the call,
    and its first [num_read] bytes are the bytes counted. *)
Definition rl_memory_inv (len0 : Z) (st : rl_state) (m : list Z) : Prop :=
  rl_exact len0 st
  /\ len0 <= Z.of_nat (List.length m)
  /\ firstn (Z.to_nat (rl_num_read st)) m = rl_buf st.

(** A poll outcome that brings no input from the terminal and no
    failure of poll. *)
Definition no_input (o : poll_outcome) : Prop :=
  match o with
  | PollPipe _ _ => True
  | PollError eintr => eintr = true
  | PollIdle => True
  | PollStdin _ _ => False
  end.

(** A pipe read that delivers the zero byte alone. *)
Definition is_signal (o : poll_outcome) : Prop :=
  match o with
  | PollPipe data _ => firstn 511 data = [0]
  | _ => False
  end.



(** The library calls and the thread creation among a list of
    actions. *)
Definition is_lib_event (e : effect) : bool :=
  match e with
  | Lib _ => true
  | LibNew _ _ _ _ => true
  | PthreadCreate => true
  | _ => false
  end.

Definition has_opt_t (opts : list cli_opt) : bool :=
  existsb (fun o => match o with Opt_t => true | _ => false end) opts.

(** The bytes [get_password] keeps of what was read: all of them, less
    a final newline unless the newline is all there is. *)
Definition kept_password (data : list Z) : list Z :=
  match data with
  | _ :: _ :: _ => if last data 0 =? 10 then removelast data else data
  | _ => data
  end.

(** What [handle_irc_msg] cannot be called on without undefined
    behaviour: a chat message with a NULL body while Do Not Disturb is
    off, a NICK message with a NULL prefix, and our own NICK message
    with a NULL or empty body. *)
Definition callback_undefined (g : globals) (client : irc_client)
  (msg : irc_msg) : Prop :=
  match irc_msg_type msg with
  | IRC_CMD_PRIVMSG | IRC_CMD_NOTICE =>
      do_not_disturb g = 0 /\ irc_msg_body msg = None
  | IRC_CMD_NICK =>
      match irc_msg_prefix msg with
      | None => True
      | Some prefix =>
          nick_portion (CStr.strncpy 63 prefix) = irc_client_nickname client
          /\ (irc_msg_body msg = None \/ irc_msg_body msg = Some EmptyString)
      end
  | _ => False
  end.

(** What [handle_send_msg] keeps of the globals: [shutting_down] and
    [fully_started] as they were, and a debug level between 0 and 10
    within that range. *)
Definition send_frame (g g' : globals) : Prop :=
  shutting_down g' = shutting_down g
  /\ fully_started g' = fully_started g
  /\ (0 <= debug_level g <= 10 -> 0 <= debug_level g' <= 10).

(** ** Concrete inputs for the further properties *)

Module Sample.

(** The values of ICANON and ECHO on Linux. *)
#[export] Instance termios_bits : TermiosH :=
  {| ICANON := 2; ECHO := 8 |}.

(** A terminal in canonical mode with echo on. *)
Definition tty : termios := mk_termios 1280 5 191 35387 [3; 28; 127; 21; 4].

(** The keys h, i and return. *)
Definition typed_hi : list poll_outcome :=
  [PollStdin (Some 104) true; PollStdin (Some 105) true;
   PollStdin (Some 10) true].

(** The line /debug 7 and return. *)
Definition typed_debug : list poll_outcome :=
  map (fun b => PollStdin (Some b) true)
    [47; 100; 101; 98; 117; 103; 32; 55; 10].

(** Two bytes typed, then output of the receive thread. *)
Definition output_mid_line : list poll_outcome :=
  [PollPipe [104; 105; 10] true; PollError true; PollIdle;
   PollPipe [111; 107] false].

Definition half_typed : rl_state := mk_rl_state 2 0 510 [47; 106].

Definition no_clock (_ : string) : timeval * Z := (mk_timeval 0 0, 0).

Definition dnd_on : globals := set_do_not_disturb initial_globals 1.

Definition mention : irc_msg :=
  SpecLib.chat IRC_CMD_PRIVMSG "bob!b@example" "#lirc" "ALICE: ping".

(** A PRIVMSG that the parser left without a body. *)
Definition no_body : irc_msg :=
  mk_irc_msg IRC_CMD_PRIVMSG 0 (Some "bob!b@example") (Some "PRIVMSG")
    (Some "#lirc") None CTCP_UNKNOWN.

Definition nick_without_prefix : irc_msg :=
  mk_irc_msg IRC_CMD_NICK 0 None (Some "NICK") None (Some ":bob") CTCP_UNKNOWN.

Definition ping_reply : irc_msg :=
  mk_irc_msg IRC_CMD_NOTICE 0 (Some "bob!b@example") (Some "NOTICE")
    (Some "alice") (Some "12345") CTCP_PING.

End Sample.

(** * Properties *)

(** Case analysis on every test a definition makes, innermost first,
    and on the membership of an action in a trace built by appending. *)
Ltac split_trace :=
  repeat match goal with
         | Hin : In _ (_ ++ _)%list |- _ =>
             apply in_app_or in Hin; destruct Hin as [Hin|Hin]
         | Hin : In _ (_ :: _) |- _ => destruct Hin as [Hin|Hin]
         | Hin : In _ [] |- _ => destruct Hin
         | Hin : In _ (if ?b then _ else _) |- _ => destruct b
         end.

Ltac branches :=
  repeat match goal with
         | |- context [match ?x with _ => _ end] =>
             lazymatch x with
             | context [match _ with _ => _ end] => fail
             | _ => destruct x eqn:?
             end
         end.

(** ** The C library functions *)

Example strsep_two_words :
  CStr.strsep (Some "msg #chan hello world") " "
  = (Some "msg", Some "#chan hello world").
Proof. reflexivity. Qed.

Example strsep_last_word : CStr.strsep (Some "join") " " = (Some "join", None).
Proof. reflexivity. Qed.

Example strsep_trailing_space :
  CStr.strsep (Some "nick ") " " = (Some "nick", Some EmptyString).
Proof. reflexivity. Qed.

Example strcaseeq_ignores_case :
  CStr.strcaseeq "JoIn" "join" = true /\ CStr.strcaseeq "joint" "join" = false.
Proof. split; reflexivity. Qed.

Example atoi_port : CStr.atoi "6697" = 6697.
Proof. reflexivity. Qed.

Example atoi_junk : CStr.atoi " -12x" = -12 /\ CStr.atoi "abc" = 0.
Proof. split; reflexivity. Qed.

Example atoi_wraps : CStr.atoi "4294967297" = 1.
Proof. reflexivity. Qed.

Example memset_strlen :
  CStr.memset [104; 105; 0; 33] 0 (CStr.strlen [104; 105; 0; 33]) = [0; 0; 0; 33].
Proof. reflexivity. Qed.

(** ** The line editor *)

Section Readline.

Lemma wrap_int_small (x : Z) :
  - 2 ^ 31 <= x < 2 ^ 31 -> CStr.wrap_int x = x.
Proof.
  intros Hx. unfold CStr.wrap_int.
  rewrite Z.mod_small by lia. lia.
Qed.

Lemma wrap_size_t_small (x : Z) :
  0 <= x < 2 ^ 64 -> CStr.wrap_size_t x = x.
Proof. intros Hx. unfold CStr.wrap_size_t. now apply Z.mod_small. Qed.

Lemma readline_step_inv (bound : Z) (g : globals) (st : rl_state)
  (o : poll_outcome) :
  bound < 2 ^ 31 -> rl_inv bound st ->
  match readline_step g st o with
  | RlContinue st' _ _ => rl_inv bound st'
  | RlReturn res _ _ _ => good_return res
  end.
Proof.
  intros Hb (Hn & Hl & Hsum).
  assert (H64 : 2 ^ 31 < 2 ^ 64) by (vm_compute; reflexivity).
  destruct o as [[|]|byte ok|data ok|]; cbn [readline_step].
  - repeat split; assumption.
  - now left.
  - unfold readline_stdin. destruct byte as [c|]; [|now left].
    destruct (c =? 10).
    + destruct (rl_num_read st =? 0) eqn:E.
      * repeat split; assumption.
      * apply Z.eqb_neq in E. right. lia.
    + destruct ((c =? 8) || (c =? 127)).
      * destruct (rl_num_read st =? 0) eqn:E; cbn [negb].
        -- repeat split; assumption.
        -- apply Z.eqb_neq in E. cbv zeta. unfold rl_inv.
           cbn [rl_num_read rl_len].
           rewrite wrap_int_small, wrap_size_t_small by lia. lia.
      * cbv zeta. cbn [rl_len rl_num_read].
        rewrite wrap_int_small, wrap_size_t_small by lia.
        destruct (rl_len st - 1 <=? 1) eqn:E.
        -- right. lia.
        -- apply Z.leb_gt in E. unfold rl_inv. cbn [rl_num_read rl_len]. lia.
  - unfold readline_pipe. destruct (firstn 511 data) as [|first rest]; [now left|].
    destruct ((_ =? 1)%nat && (first =? 0)); [now left|].
    destruct ((rl_lastpos st =? 0) && negb ok); [now left|].
    repeat split; assumption.
  - repeat split; assumption.
Qed.

Lemma readline_loop_good (bound : Z) (w : list poll_outcome) :
  bound < 2 ^ 31 ->
  forall g st out res,
    rl_inv bound st ->
    rr_res (readline_loop g st out w) = Some res -> good_return res.
Proof.
  intros Hb. induction w as [|o w IH]; intros g st out res Hinv; cbn [readline_loop].
  - discriminate.
  - pose proof (readline_step_inv bound g st o Hb Hinv) as Hstep.
    destruct (readline_step g st o) as [st' g' t|r st' g' t].
    + now apply IH.
    + cbn [rr_res]. intros [= <-]. exact Hstep.
Qed.

(** C10.  [client_readline] never returns 0.  For every length that an
    int can count (as the 512 that [main] passes), whatever the
    terminal and the pipe deliver, a result that is not negative is at
    least 1; and a newline typed on an empty line only prints the prompt
    again, after which the loop goes on reading with its locals
    unchanged. *)
Theorem client_readline_never_returns_zero :
  forall (g : globals) (len : Z) (w : list poll_outcome),
    1 <= len < 2 ^ 31 ->
    rr_res (client_readline g len w) <> Some 0
    /\ (forall res,
          rr_res (client_readline g len w) = Some res -> 0 <= res -> 1 <= res)
    /\ (forall st out ok w',
          rl_num_read st = 0 ->
          readline_loop g st out (PollStdin (Some 10) ok :: w')
          = readline_loop g st
              (out ++ [Printf "%s" [AStr (Some (client_prompt g))]])%list w')
    /\ (forall (L : IrcLib) (H : IrcH) os client st ok w',
          rl_num_read st = 0 ->
          main_loop_from os g client st (PollStdin (Some 10) ok :: w')
          = let '(e, g2, c2, t2) := main_loop_from os g client st w' in
            (e, g2, c2, Printf "%s" [AStr (Some (client_prompt g))] :: t2)).
Proof.
  intros g len w Hlen.
  assert (Hgood : forall res,
             rr_res (client_readline g len w) = Some res -> good_return res).
  { intros res. unfold client_readline.
    apply (readline_loop_good (len)); [lia|].
    unfold rl_inv. cbn [rl_num_read rl_len]. lia. }
  split; [|split; [|split]].
  - intros E. destruct (Hgood 0 E) as [E0|E0]; lia.
  - intros res E Hpos. destruct (Hgood res E) as [E0|E0]; lia.
  - intros st out ok w' Hzero. cbn [readline_loop readline_step].
    unfold readline_stdin. rewrite Z.eqb_refl, Hzero, Z.eqb_refl. reflexivity.
  - intros L H os client st ok w' Hzero. cbn [main_loop_from readline_step].
    unfold readline_stdin. rewrite Z.eqb_refl, Hzero, Z.eqb_refl.
    now destruct (main_loop_from os g client st w') as [[[e g2] c2] t2].
Qed.

Lemma client_readline_never_returns_zero_witness :
  1 <= 512 < 2 ^ 31
  /\ rr_res (client_readline initial_globals 512
               [PollStdin (Some 10) true; PollStdin (Some 104) true;
                PollStdin (Some 105) true; PollStdin (Some 10) true])
     <> Some 0.
Proof.
  assert (Hlen : 1 <= 512 < 2 ^ 31) by lia.
  split; [exact Hlen|].
  exact (proj1 (client_readline_never_returns_zero initial_globals 512
                  [PollStdin (Some 10) true; PollStdin (Some 104) true;
                   PollStdin (Some 105) true; PollStdin (Some 10) true] Hlen)).
Defined.

(** The line typed after an empty line is the one returned. *)
Example readline_skips_empty_line :
  rr_res (client_readline initial_globals 512
            [PollStdin (Some 10) true; PollStdin (Some 104) true;
             PollStdin (Some 105) true; PollStdin (Some 10) true])
  = Some 2.
Proof. reflexivity. Qed.

(** A full buffer is returned without waiting for the newline. *)
Example readline_full_buffer :
  rr_res (client_readline initial_globals 3
            [PollStdin (Some 104) true; PollStdin (Some 105) true;
             PollStdin (Some 33) true])
  = Some 2.
Proof. reflexivity. Qed.

(** Erasing on an empty line rings the bell and returns nothing. *)
Example readline_backspace_on_empty :
  rr_res (client_readline initial_globals 512 [PollStdin (Some 127) true])
  = None.
Proof. reflexivity. Qed.

End Readline.

(** ** Shutdown through the notification pipe *)

Section Shutdown.
Context {L : IrcLib} {H : IrcH}.

Lemma readline_loop_eintr (k : nat) (g : globals) (st : rl_state)
  (out : list effect) (w : list poll_outcome) :
  readline_loop g st out (repeat (PollError true) k ++ w)%list
  = readline_loop g st out w.
Proof.
  induction k as [|k IH]; cbn [repeat app readline_loop readline_step].
  - reflexivity.
  - now rewrite app_nil_r.
Qed.

Lemma main_loop_from_eintr (os : string -> timeval * Z) (k : nat)
  (g : globals) (client : irc_client) (st : rl_state)
  (w : list poll_outcome) :
  main_loop_from os g client st (repeat (PollError true) k ++ w)%list
  = main_loop_from os g client st w.
Proof.
  induction k as [|k IH]; cbn [repeat app main_loop_from readline_step].
  - reflexivity.
  - rewrite IH. now destruct (main_loop_from os g client st w) as [[[e g'] c'] t].
Qed.

(** C6.  The SIGINT handler does one thing: a raw write of a single zero
    byte to the notification pipe.  When that byte is what the pipe
    delivers to a [client_readline] waiting in poll (after any number of
    polls interrupted by the signal itself), the call sets
    [shutting_down] and returns -1 without printing anything, whatever
    had been typed so far, and the main loop then leaves with the
    disconnect-requested message instead of handling a line. *)
Theorem sigint_wakes_readline_and_ends_main_loop :
  __sigint_handler = [WritePipe [0]]
  /\ forall (os : string -> timeval * Z) (g : globals) (client : irc_client)
       (st : rl_state) (out : list effect) (k : nat) (ok : bool)
       (w : list poll_outcome),
       let wake :=
         (repeat (PollError true) k
            ++ PollPipe (raw_pipe_bytes __sigint_handler) ok :: w)%list in
       readline_loop g st out wake
       = mk_readline_result (Some (-1)) st (set_shutting_down g 1) out w
       /\ shutting_down (rr_globals (readline_loop g st out wake)) = 1
       /\ main_loop_from os g client st wake
          = (RequestedDisconnect, set_shutting_down g 1, client,
             [Printf (nl ++ "Client requested disconnect..." ++ nl) []]).
Proof.
  split; [reflexivity|].
  intros os g client st out k ok w wake. subst wake.
  rewrite readline_loop_eintr, main_loop_from_eintr.
  cbn [raw_pipe_bytes __sigint_handler app readline_loop main_loop_from
       readline_step].
  unfold readline_pipe. cbn [firstn List.length Nat.eqb Z.eqb andb].
  cbn [rr_globals shutting_down set_shutting_down Z.eqb negb].
  rewrite app_nil_r. repeat split; reflexivity.
Qed.

(** A line half typed does not delay the shutdown. *)
Example shutdown_mid_line :
  main_loop (fun _ => (mk_timeval 0 0, 0)) initial_globals SpecLib.idle_client
    [PollStdin (Some 104) true; PollError true; PollPipe [0] true;
     PollStdin (Some 10) true]
  = (RequestedDisconnect, set_shutting_down initial_globals 1,
     SpecLib.idle_client,
     [Printf "%s" [AStr (Some "IRC> ")];
      Printf (nl ++ "Client requested disconnect..." ++ nl) []]).
Proof. reflexivity. Qed.

(** Output of the receive thread that reaches the pipe is printed and
    the line editor goes on. *)
Example pipe_output_is_not_a_shutdown :
  rr_res (client_readline initial_globals 512 [PollPipe [104; 105; 10] true])
  = None.
Proof. reflexivity. Qed.

(** The zero byte read together with output already waiting in the pipe
    is printed with it and does not end the call. *)
Example signal_read_with_pending_output :
  rr_res (client_readline initial_globals 512 [PollPipe [104; 105; 10; 0] true])
  = None
  /\ shutting_down
       (rr_globals
          (client_readline initial_globals 512 [PollPipe [104; 105; 10; 0] true]))
     = 0.
Proof. split; reflexivity. Qed.

End Shutdown.

(** ** The event callback *)

Section CallbackFacts.
Context {L : IrcLib}.






Lemma unhandled_reaches_default_label (clk : clock) (g : globals)
  (client : irc_client) (msg : irc_msg) :
  unhandled msg = true ->
  exists fmt args,
    handle_irc_msg clk g client msg
    = Some (client, g, [ClientLog IRC_LOG_WARN 0 fmt args]).
Proof.
  intros Hun. unfold unhandled in Hun. unfold handle_irc_msg.
  destruct (irc_msg_type msg); cbn [command_has_case negb] in Hun;
    try discriminate Hun.
  - do 2 eexists. reflexivity.
  - apply negb_true_iff in Hun. unfold numeric_has_case in Hun.
    apply orb_false_iff in Hun. destruct Hun as [Hun Hred].
    apply orb_false_iff in Hun. destruct Hun as [Hb Hp].
    unfold handle_numeric. rewrite Hb, Hp, Hred. do 2 eexists. reflexivity.
  - do 2 eexists. reflexivity.
Qed.

(** C2.  A message that reaches one of the two default labels, that is a
    numeric with no case label or a message type with no case label, is
    reported by one call of the logging callback at warning level with
    its prefix, its numeric or command, and its body; the callback
    writes every warning, whatever the debug level; and [handle_irc_msg]
    returns with the client and the globals as they were. *)
Theorem unhandled_message_is_logged_at_warning :
  forall (clk : clock) (g : globals) (client : irc_client) (msg : irc_msg),
    unhandled msg = true ->
    (exists fmt,
        handle_irc_msg clk g client msg
        = Some (client, g,
                [ClientLog IRC_LOG_WARN 0 fmt
                   [AStr (irc_msg_prefix msg);
                    match irc_msg_type msg with
                    | IRC_NUMERIC => AInt (irc_msg_numeric msg)
                    | _ => AStr (irc_msg_command msg)
                    end;
                    AStr (irc_msg_body msg)]]))
    /\ __client_log g IRC_LOG_WARN 0 = true.
Proof.
  intros clk g client msg Hun. split; [|reflexivity].
  unfold unhandled in Hun. unfold handle_irc_msg.
  destruct (irc_msg_type msg); cbn [command_has_case negb] in Hun;
    try discriminate Hun.
  - eexists. reflexivity.
  - apply negb_true_iff in Hun. unfold numeric_has_case in Hun.
    apply orb_false_iff in Hun. destruct Hun as [Hun Hred].
    apply orb_false_iff in Hun. destruct Hun as [Hb Hp].
    unfold handle_numeric. rewrite Hb, Hp, Hred. eexists. reflexivity.
  - eexists. reflexivity.
Qed.

(** The receive loop goes on with the next line after such a message. *)
Lemma irc_loop_continues_after_unhandled (clk : clock) (g : globals)
  (client : irc_client) (msg : irc_msg) (rest : list read_line_result) :
  unhandled msg = true ->
  exists fmt args,
    irc_loop handle_irc_msg (Line msg clk :: rest) g client
    = match irc_loop handle_irc_msg rest g client with
      | None => None
      | Some (c, g', t) => Some (c, g', ClientLog IRC_LOG_WARN 0 fmt args :: t)
      end.
Proof.
  intros Hun.
  destruct (unhandled_reaches_default_label clk g client msg Hun)
    as (fmt & args & Hrun).
  exists fmt, args. cbn [irc_loop]. rewrite Hrun.
  destruct (irc_loop handle_irc_msg rest g client) as [[[c g'] t]|]; reflexivity.
Qed.

End CallbackFacts.


(** The same payload carried on NOTICE is only reported. *)
Example ctcp_ping_on_notice :
  handle_irc_msg (L := SpecLib.lib) SpecLib.noon initial_globals
    SpecLib.connected_client
    (SpecLib.chat IRC_CMD_NOTICE "bob!b@example" "alice"
       (SpecLib.delimited "PING 12345"))
  = Some (SpecLib.connected_client, initial_globals,
          [IrcPrint ("Ping reply from %s in %.3f seconds" ++ nl)
             [AStr (Some "bob!b@example");
              ASecs (mk_timeval 1700000000 0) (mk_timeval 0 0)]]).
Proof. reflexivity. Qed.

(** A TIME request is answered with the local time text. *)
Example ctcp_time_request :
  handle_irc_msg (L := SpecLib.lib) SpecLib.noon initial_globals
    SpecLib.connected_client
    (SpecLib.chat IRC_CMD_PRIVMSG "bob!b@example" "alice"
       (SpecLib.delimited "TIME"))
  = Some (SpecLib.connected_client, initial_globals,
          [Lib (irc_client_ctcp_reply (Some "bob!b@example") CTCP_TIME
                  (Some "Tue Nov 14 2023 12:00:00 pm UTC"))]).
Proof. reflexivity. Qed.

(** An ordinary message that starts with our nickname rings the bell. *)
Example mention_rings_bell :
  handle_irc_msg (L := SpecLib.lib) SpecLib.noon initial_globals
    SpecLib.connected_client
    (SpecLib.chat IRC_CMD_PRIVMSG "bob!b@example" "#chan" "Alice: you there?")
  = Some (SpecLib.connected_client, initial_globals,
          [IrcPrint bel [];
           IrcPrint ("%s <%s> %s" ++ nl)
             [AStr (Some "#chan"); AStr (Some "bob!b@example");
              AStr (Some "Alice: you there?")]]).
Proof. reflexivity. Qed.

Lemma unhandled_message_is_logged_at_warning_witness :
  let msg := mk_irc_msg IRC_NUMERIC 999 (Some "irc.example.net") (Some "999")
               None (Some "mystery") CTCP_UNKNOWN in
  unhandled msg = true
  /\ handle_irc_msg (L := SpecLib.lib) SpecLib.noon initial_globals
       SpecLib.connected_client msg
     <> None.
Proof.
  intros msg. split; [reflexivity|].
  destruct (unhandled_message_is_logged_at_warning (L := SpecLib.lib)
              SpecLib.noon initial_globals SpecLib.connected_client
              msg eq_refl)
    as [[fmt Hrun] _].
  rewrite Hrun. discriminate.
Defined.

Example unknown_numeric_is_reported :
  handle_irc_msg (L := SpecLib.lib) SpecLib.noon initial_globals
    SpecLib.connected_client
    (mk_irc_msg IRC_NUMERIC 999 (Some "irc.example.net") (Some "999")
       None (Some "mystery") CTCP_UNKNOWN)
  = Some (SpecLib.connected_client, initial_globals,
          [ClientLog IRC_LOG_WARN 0
             ("Unhandled numeric: prefix: %s, num: %d, body: %s" ++ nl)
             [AStr (Some "irc.example.net"); AInt 999; AStr (Some "mystery")]]).
Proof. reflexivity. Qed.

Example welcome_is_printed :
  handle_irc_msg (L := SpecLib.lib) SpecLib.noon initial_globals
    SpecLib.connected_client
    (mk_irc_msg IRC_NUMERIC 1 (Some "irc.example.net") (Some "001")
       None (Some "Welcome") CTCP_UNKNOWN)
  = Some (SpecLib.connected_client, initial_globals,
          [IrcPrint ("%s" ++ nl) [AStr (Some "Welcome")]]).
Proof. reflexivity. Qed.

(** ** NICK messages *)

Section NickFacts.
Context {L : IrcLib}.

Lemma nick_portion_cons (c : ascii) (r : string) :
  nick_portion (String c r)
  = if Ascii.eqb c "!" then EmptyString else String c (nick_portion r).
Proof.
  unfold nick_portion. cbn [CStr.strsep_str].
  destruct (Ascii.eqb c "!"); [reflexivity|].
  now destruct (CStr.strsep_str "!" r).
Qed.

(** Cutting a prefix to [n] bytes keeps its nick portion when that is at
    most [n] bytes long. *)
Lemma nick_portion_strncpy (n : nat) :
  forall prefix,
    (String.length (nick_portion prefix) <= n)%nat ->
    nick_portion (CStr.strncpy n prefix) = nick_portion prefix.
Proof.
  induction n as [|n IH]; intros [|c r] Hlen; try reflexivity.
  - rewrite nick_portion_cons in Hlen |- *. cbn [CStr.strncpy].
    destruct (Ascii.eqb c "!"); [reflexivity|]. cbn [String.length] in Hlen. lia.
  - cbn [CStr.strncpy]. rewrite !nick_portion_cons in *.
    destruct (Ascii.eqb c "!"); [reflexivity|].
    cbn [String.length] in Hlen. rewrite IH by lia. reflexivity.
Qed.

(** The NICK case on every message with a prefix.  The nick that is
    compared with the current nickname is the nick portion of the first
    63 bytes of the prefix, which is the nick portion of the prefix
    whenever that is at most 63 bytes long.  When the two differ
    the callback only prints the notice: client, nickname, globals and
    prompt stay as they were.  When they are equal (and the body has a
    first byte to skip) the callback calls [irc_client_set_nick] with
    the rest of the body and then updates the prompt. *)
Theorem nick_updated_only_for_own_truncated_prefix :
  forall (clk : clock) (g : globals) (client : irc_client) (msg : irc_msg)
         (prefix : string),
    irc_msg_type msg = IRC_CMD_NICK ->
    irc_msg_prefix msg = Some prefix ->
    let own := nick_portion (CStr.strncpy 63 prefix) in
    (own <> irc_client_nickname client ->
     handle_irc_msg clk g client msg = Some (client, g, [nick_notice msg]))
    /\ (own = irc_client_nickname client ->
        forall c newnick,
          irc_msg_body msg = Some (String c newnick) ->
          let client' := snd (lib_exec (irc_client_set_nick newnick) client) in
          handle_irc_msg clk g client msg
          = Some (client', update_prompt g client',
                  [nick_notice msg; Lib (irc_client_set_nick newnick)]))
    /\ ((String.length (nick_portion prefix) <= 63)%nat ->
        own = nick_portion prefix).
Proof.
  intros clk g client msg prefix Htype Hprefix own.
  assert (Hsep : CStr.strsep (Some (CStr.strncpy 63 prefix)) "!"
                 = (Some own, snd (CStr.strsep_str "!" (CStr.strncpy 63 prefix)))).
  { unfold CStr.strsep, own, nick_portion.
    now destruct (CStr.strsep_str "!" (CStr.strncpy 63 prefix)). }
  unfold handle_irc_msg. rewrite Htype. unfold handle_nick.
  rewrite Hprefix, Hsep.
  split; [|split].
  - intros Hne. apply String.eqb_neq in Hne. now rewrite Hne.
  - intros He c newnick Hbody. apply String.eqb_eq in He.
    rewrite He, Hbody. reflexivity.
  - intros Hlen. now apply nick_portion_strncpy.
Qed.

End NickFacts.


Lemma nick_updated_only_for_own_truncated_prefix_witness :
  irc_msg_type SpecLib.bob_nick_change = IRC_CMD_NICK
  /\ irc_msg_prefix SpecLib.bob_nick_change = Some "bob!b@example"
  /\ handle_irc_msg (L := SpecLib.lib) SpecLib.noon initial_globals
       SpecLib.connected_client SpecLib.bob_nick_change
     = Some (SpecLib.connected_client, initial_globals,
             [nick_notice SpecLib.bob_nick_change]).
Proof.
  split; [reflexivity|split; [reflexivity|]].
  apply (proj1 (nick_updated_only_for_own_truncated_prefix (L := SpecLib.lib)
                  SpecLib.noon initial_globals SpecLib.connected_client
                  SpecLib.bob_nick_change "bob!b@example" eq_refl eq_refl)).
  cbv zeta. vm_compute. discriminate.
Defined.

(** Our own change of nick reaches the library and the prompt. *)
Example own_nick_change_updates_prompt :
  handle_irc_msg (L := SpecLib.lib) SpecLib.noon initial_globals
    SpecLib.connected_client SpecLib.own_nick_change
  = Some (mk_irc_client "irc.example.net" 6667 "alicia" "alice" 0 true false,
          set_client_prompt initial_globals "alicia@irc.example.net> ",
          [nick_notice SpecLib.own_nick_change;
           Lib (irc_client_set_nick "alicia")]).
Proof. reflexivity. Qed.

(** C7.  Our nickname is 63 bytes long and another user, whose nick is
    ours with one more byte, changes nick.  The nick portion of the
    prefix is not our nickname, yet the comparison is made on the 63
    bytes that strncpy kept of the prefix, so the callback takes the
    branch its comment reserves for a change of our own nickname: it
    calls [irc_client_set_nick] and rewrites the prompt.  The rule that
    the stored nickname is set only for our own prefix fails on this
    message. *)
Lemma nick_of_other_user_taken_for_own :
  irc_msg_prefix SpecLib.other_nick_change = Some SpecLib.longer_prefix
  /\ nick_portion SpecLib.longer_prefix
     <> irc_client_nickname SpecLib.long_nick_client
  /\ handle_irc_msg (L := SpecLib.lib) SpecLib.noon initial_globals
       SpecLib.long_nick_client SpecLib.other_nick_change
     = Some (mk_irc_client "irc.example.net" 6667 "bob" "alice" 0 true false,
             set_client_prompt initial_globals "bob@irc.example.net> ",
             [nick_notice SpecLib.other_nick_change;
              Lib (irc_client_set_nick "bob")])
  /\ ~ nick_set_only_for_own_prefix (L := SpecLib.lib) SpecLib.noon
        initial_globals SpecLib.long_nick_client SpecLib.other_nick_change.
Proof.
  split; [reflexivity|split; [vm_compute; discriminate|split; [reflexivity|]]].
  intros Hclaim.
  specialize (Hclaim SpecLib.longer_prefix _ _ _ eq_refl eq_refl
                (ex_intro _ "bob" (or_intror (or_introl eq_refl)))).
  vm_compute in Hclaim. discriminate Hclaim.
Qed.

(** ** The /command dispatcher *)

Section SendMsgFacts.
Context {L : IrcLib} {H : IrcH}.

Lemma one_error_rejects (client : irc_client) (g : globals) (fmt : string)
  (args : list arg) :
  rejects_without_io
    (mk_send_result (-1) client g [ClientLog IRC_LOG_ERR 0 fmt args]).
Proof.
  unfold rejects_without_io. cbn [sr_res sr_trace]. split; [reflexivity|split].
  - exists fmt, args. now left.
  - intros c [E|[]]. discriminate E.
Qed.

Lemma missing_parameter_rejects (g : globals) (client : irc_client)
  (name : string) :
  rejects_without_io (missing_parameter g client name)
  /\ sr_client (missing_parameter g client name) = client
  /\ sr_globals (missing_parameter g client name) = g.
Proof.
  unfold missing_parameter, client_log.
  split; [apply one_error_rejects|split; reflexivity].
Qed.

Lemma strsep_none (delim : ascii) : CStr.strsep None delim = (None, None).
Proof. reflexivity. Qed.

Lemma strsep_some (delim : ascii) (str : string) :
  CStr.strsep (Some str) delim
  = (Some (fst (CStr.strsep_str delim str)), snd (CStr.strsep_str delim str)).
Proof. unfold CStr.strsep. now destruct (CStr.strsep_str delim str). Qed.

(** Fewer than one parameter: nothing follows the command.  Fewer than
    two: nothing follows the first parameter. *)
Lemma params_lt_1 (s : option string) : (params_given s < 1)%nat -> s = None.
Proof.
  destruct s as [str|]; [|reflexivity]. cbn [params_given].
  destruct (snd (CStr.strsep_str " " str)); lia.
Qed.

Lemma params_lt_2 (s : option string) :
  (params_given s < 2)%nat -> snd (CStr.strsep s " ") = None.
Proof.
  destruct s as [str|]; [|reflexivity]. rewrite strsep_some. cbn [params_given snd].
  destruct (snd (CStr.strsep_str " " str)); [lia|reflexivity].
Qed.

Ltac use_tests Hpre :=
  repeat match goal with
         | E : CStr.strcaseeq _ _ = _ |- _ => rewrite E in Hpre
         end;
  cbn [orb negb] in Hpre.

Ltac reject Hpre :=
  use_tests Hpre;
  let Hlt := fresh "Hlt" in
  let Hn := fresh "Hn" in
  let Hc := fresh "Hc" in
  destruct Hpre as [Hlt|[Hn Hc]]; [|first [discriminate Hn | congruence]];
  first
    [ lia
    | apply params_lt_1 in Hlt; subst; rewrite ?strsep_none;
      apply missing_parameter_rejects
    | apply params_lt_2 in Hlt;
      match goal with
      | |- context [CStr.strsep ?x " "] =>
          let tok := fresh "tok" in
          let s1 := fresh "s1" in
          destruct (CStr.strsep x " ") as [tok s1];
          cbn [snd] in Hlt; subst s1; try destruct tok;
          rewrite ?strsep_none; apply missing_parameter_rejects
      end ].

(** The paths that do reject.  A /command is rejected (-1 is returned,
    one error is logged, no function of the library is called, client
    and globals stay as they were) when fewer tokens follow it than it
    checks with [REQUIRED_PARAMETER], an empty token after a space
    counting as one since the macro tests for NULL only, and when it is
    not one of help, debug, dnd, fg and server and the client is not
    connected. *)
Theorem missing_guarded_parameter_or_connection_is_rejected :
  forall (now : timeval) (pthread_rc : Z) (g : globals)
         (client : irc_client) (s0 : string),
    let command := fst (CStr.strsep_str " " s0) in
    let s := snd (CStr.strsep_str " " s0) in
    (params_given s < guarded_params command)%nat
    \/ (needs_connection command = true
        /\ irc_client_connected client = false) ->
    let r := handle_send_msg now pthread_rc g client (String "/" s0) in
    rejects_without_io r /\ sr_client r = client /\ sr_globals r = g.
Proof.
  intros now rc g client s0 command s Hpre r. subst r.
  unfold handle_send_msg.
  destruct (CStr.strsep_str " " s0) as [cmd rest] eqn:Esep.
  cbn [fst snd] in command, s. subst command s.
  unfold guarded_params, needs_connection in Hpre.
  destruct (CStr.strcaseeq cmd "help") eqn:E1; [reject Hpre|].
  destruct (CStr.strcaseeq cmd "debug") eqn:E2; [reject Hpre|].
  destruct (CStr.strcaseeq cmd "dnd") eqn:E3; [reject Hpre|].
  destruct (CStr.strcaseeq cmd "fg") eqn:E4; [reject Hpre|].
  destruct (CStr.strcaseeq cmd "server") eqn:E5;
    [unfold send_server; reject Hpre|].
  destruct (irc_client_connected client) eqn:Ec; cbn [negb].
  2:{ unfold client_log. split; [apply one_error_rejects|split; reflexivity]. }
  unfold send_connected.
  destruct (CStr.strcaseeq cmd "raw") eqn:E6; [reject Hpre|].
  destruct (CStr.strcaseeq cmd "quit") eqn:E7; [reject Hpre|].
  destruct (CStr.strcaseeq cmd "part") eqn:E8; [reject Hpre|].
  destruct (CStr.strcaseeq cmd "join") eqn:E9; [reject Hpre|].
  destruct (CStr.strcaseeq cmd "msg") eqn:E10; [reject Hpre|].
  destruct (CStr.strcaseeq cmd "notice") eqn:E11; [reject Hpre|].
  destruct (CStr.strcaseeq cmd "me") eqn:E12; [reject Hpre|].
  destruct (CStr.strcaseeq cmd "describe") eqn:E13; [reject Hpre|].
  destruct (CStr.strcaseeq cmd "ctcp") eqn:E14; [reject Hpre|].
  destruct (CStr.strcaseeq cmd "nick") eqn:E15; [reject Hpre|].
  destruct (CStr.strcaseeq cmd "topic") eqn:E16; [reject Hpre|].
  destruct (CStr.strcaseeq cmd "list") eqn:E17; [reject Hpre|].
  destruct (CStr.strcaseeq cmd "invite") eqn:E18; [reject Hpre|].
  destruct (CStr.strcaseeq cmd "identify") eqn:E19; [reject Hpre|].
  reject Hpre.
Qed.

Lemma call_trace (g : globals) (client : irc_client) (c : libcall) :
  sr_trace (call g client c) = [Lib c].
Proof. unfold call. now destruct (lib_exec c client). Qed.

Ltac in_branch :=
  repeat match goal with
         | |- context [match ?x with _ => _ end] =>
             lazymatch x with
             | context [match _ with _ => _ end] => fail
             | _ => destruct x eqn:?
             end
         end;
  rewrite ?call_trace; cbn [sr_trace];
  unfold missing_parameter, no_fg_channel, client_log;
  rewrite ?call_trace; cbn [sr_trace map help_lines];
  let Hin := fresh "Hin" in
  intros Hin;
  repeat match goal with
         | Hi : In _ (_ ++ _)%list |- _ =>
             apply in_app_or in Hi; destruct Hi as [Hi|Hi]
         | Hi : In _ (_ :: _) |- _ => destruct Hi as [Hi|Hi]
         | Hi : In _ [] |- _ => destruct Hi
         end;
  try discriminate.

(** The only flags [handle_send_msg] ever hands to
    [irc_client_set_flags] are those of the /server branch. *)
Lemma send_msg_flags (now : timeval) (rc : Z) (g : globals)
  (client : irc_client) (input : string) (f : Z) :
  In (Lib (irc_client_set_flags f))
     (sr_trace (handle_send_msg now rc g client input)) ->
  f = 0
  \/ f = Z.land (Z.lor 0 IRC_CLIENT_USE_TLS) (Z.lnot IRC_CLIENT_VERIFY_SERVER).
Proof.
  unfold handle_send_msg.
  destruct input as [|c0 s0]; [in_branch|].
  destruct c0 as [[] [] [] [] [] [] [] []]; try solve [in_branch].
  destruct (CStr.strsep_str " " s0) as [cmd rest].
  destruct (CStr.strcaseeq cmd "help"); [solve [in_branch]|].
  destruct (CStr.strcaseeq cmd "debug"); [solve [in_branch]|].
  destruct (CStr.strcaseeq cmd "dnd"); [solve [in_branch]|].
  destruct (CStr.strcaseeq cmd "fg"); [unfold set_fg_chan; solve [in_branch]|].
  destruct (CStr.strcaseeq cmd "server").
  { unfold send_server.
    destruct (CStr.strsep rest " ") as [[server|] s1]; [|solve [in_branch]].
    destruct (CStr.strsep s1 " ") as [portstr s2].
    set (port := match portstr with Some p => CStr.atoi p | None => 0 end).
    destruct (negb (port =? 0) && (6670 <? port)).
    - destruct (negb (Z.land (Z.lor 0 IRC_CLIENT_USE_TLS)
                        (Z.lnot IRC_CLIENT_VERIFY_SERVER) =? 0));
        in_branch.
      all: match goal with
           | Hi : Lib _ = Lib _ |- _ => injection Hi as <-; now right
           end.
    - cbn [Z.eqb negb]. in_branch. }
  destruct (irc_client_connected client); cbn [negb]; [|solve [in_branch]].
  unfold send_connected.
  destruct (CStr.strcaseeq cmd "raw"); [solve [in_branch]|].
  destruct (CStr.strcaseeq cmd "quit"); [solve [in_branch]|].
  destruct (CStr.strcaseeq cmd "part"); [solve [in_branch]|].
  destruct (CStr.strcaseeq cmd "join"); [solve [in_branch]|].
  destruct (CStr.strcaseeq cmd "msg"); [solve [in_branch]|].
  destruct (CStr.strcaseeq cmd "notice"); [solve [in_branch]|].
  destruct (CStr.strcaseeq cmd "me"); [solve [in_branch]|].
  destruct (CStr.strcaseeq cmd "describe"); [solve [in_branch]|].
  destruct (CStr.strcaseeq cmd "ctcp"); [solve [in_branch]|].
  destruct (CStr.strcaseeq cmd "nick"); [solve [in_branch]|].
  destruct (CStr.strcaseeq cmd "topic"); [solve [in_branch]|].
  destruct (CStr.strcaseeq cmd "list"); [solve [in_branch]|].
  destruct (CStr.strcaseeq cmd "invite"); [solve [in_branch]|].
  destruct (CStr.strcaseeq cmd "identify"); [solve [in_branch]|].
  solve [in_branch].
Qed.

End SendMsgFacts.

Lemma missing_guarded_parameter_or_connection_is_rejected_witness :
  (params_given (snd (CStr.strsep_str " " "msg #chan"))
   < guarded_params (fst (CStr.strsep_str " " "msg #chan")))%nat
  /\ rejects_without_io
       (handle_send_msg (L := SpecLib.lib) (H := SpecLib.flags)
          (mk_timeval 0 0) 0 initial_globals SpecLib.connected_client
          "/msg #chan").
Proof.
  assert (Hlt : (params_given (snd (CStr.strsep_str " " "msg #chan"))
                 < guarded_params (fst (CStr.strsep_str " " "msg #chan")))%nat)
    by (vm_compute; lia).
  split; [exact Hlt|].
  exact (proj1 (missing_guarded_parameter_or_connection_is_rejected
                  (L := SpecLib.lib) (H := SpecLib.flags)
                  (mk_timeval 0 0) 0 initial_globals SpecLib.connected_client
                  "msg #chan" (or_introl Hlt))).
Defined.

Example msg_without_text :
  handle_send_msg (L := SpecLib.lib) (H := SpecLib.flags) (mk_timeval 0 0) 0
    initial_globals SpecLib.connected_client "/msg #chan"
  = mk_send_result (-1) SpecLib.connected_client initial_globals
      [ClientLog IRC_LOG_ERR 0 ("Missing required parameter %s" ++ nl)
         [AStr (Some "message")]].
Proof. reflexivity. Qed.

Example invite_without_channel :
  handle_send_msg (L := SpecLib.lib) (H := SpecLib.flags) (mk_timeval 0 0) 0
    initial_globals SpecLib.connected_client "/INVITE bob"
  = mk_send_result (-1) SpecLib.connected_client initial_globals
      [ClientLog IRC_LOG_ERR 0 ("Missing required parameter %s" ++ nl)
         [AStr (Some "channel")]].
Proof. reflexivity. Qed.

Example join_while_not_connected :
  handle_send_msg (L := SpecLib.lib) (H := SpecLib.flags) (mk_timeval 0 0) 0
    initial_globals SpecLib.idle_client "/join #lirc"
  = mk_send_result (-1) SpecLib.idle_client initial_globals
      [ClientLog IRC_LOG_ERR 0
         ("Not connected to a server, operation not permitted." ++ nl) []].
Proof. reflexivity. Qed.

Example msg_with_text :
  handle_send_msg (L := SpecLib.lib) (H := SpecLib.flags) (mk_timeval 0 0) 0
    initial_globals SpecLib.connected_client "/msg #chan hello world"
  = mk_send_result 0 SpecLib.connected_client initial_globals
      [Lib (irc_client_msg (Some "#chan") (Some "hello world"))].
Proof. reflexivity. Qed.

(** C3.  The help text gives /join one argument, and not in the
    brackets that mark the optional ones.  Typed with no argument on a
    connected client, /join is not rejected the way the commands that
    use [REQUIRED_PARAMETER] are: [irc_client_channel_join] is called
    with a NULL channel list and its result is what [handle_send_msg]
    returns.  The same holds for /part, /raw and /me. *)
Lemma join_without_channels_calls_library :
  In "/join <CHANS>             - Join channel(s), comma-separated" help_lines
  /\ params_given (snd (CStr.strsep_str " " "join")) = O
  /\ handle_send_msg (L := SpecLib.lib) (H := SpecLib.flags) (mk_timeval 0 0) 0
       initial_globals SpecLib.connected_client "/join"
     = mk_send_result 0 SpecLib.connected_client initial_globals
         [Lib (irc_client_channel_join None)]
  /\ ~ rejects_without_io
         (handle_send_msg (L := SpecLib.lib) (H := SpecLib.flags)
            (mk_timeval 0 0) 0 initial_globals SpecLib.connected_client
            "/join").
Proof.
  split; [|split; [reflexivity|split; [reflexivity|]]].
  - cbn [help_lines In]. do 7 right. left. reflexivity.
  - intros (Hres & _). vm_compute in Hres. discriminate Hres.
Qed.

(** [REQUIRED_PARAMETER] tests for NULL only: after /msg #chan and one
    space the message is the empty string, not NULL, and it is handed
    to the library. *)
Example msg_with_empty_message_calls_library :
  params_given (snd (CStr.strsep_str " " "msg #chan ")) = 2%nat
  /\ handle_send_msg (L := SpecLib.lib) (H := SpecLib.flags) (mk_timeval 0 0) 0
       initial_globals SpecLib.connected_client "/msg #chan "
     = mk_send_result 0 SpecLib.connected_client initial_globals
         [Lib (irc_client_msg (Some "#chan") (Some EmptyString))].
Proof. split; reflexivity. Qed.

Example raw_without_text_calls_library :
  sr_trace (handle_send_msg (L := SpecLib.lib) (H := SpecLib.flags)
              (mk_timeval 0 0) 0 initial_globals SpecLib.connected_client
              "/raw")
  = [Lib (irc_send None)].
Proof. reflexivity. Qed.

Example me_without_action_calls_library :
  sr_trace (handle_send_msg (L := SpecLib.lib) (H := SpecLib.flags)
              (mk_timeval 0 0) 0
              (fst (set_fg_chan initial_globals "#lirc"))
              SpecLib.connected_client "/me")
  = [Lib (irc_client_action (Some "#lirc") None)].
Proof. reflexivity. Qed.

(** ** main *)

Section MainFacts.
Context {L : IrcLib} {H : IrcH}.

Lemma map_printf_prints (f : string -> string) (ls : list string) :
  Forall is_print (map (fun l => Printf (f l) []) ls).
Proof. induction ls; constructor; [exact I|assumption]. Qed.

(** The option loop only prints. *)
Lemma parse_options_prints (opts : list cli_opt) :
  forall dbg o, Forall is_print (fst (parse_options opts dbg o)).
Proof.
  induction opts as [|[ |a| |a|a|a|a| | |a| ] r IH]; intros dbg o;
    cbn [parse_options fst]; try apply IH.
  - constructor.
  - constructor; [exact I|]. apply map_printf_prints with (f := fun l => (l ++ nl)%string).
  - destruct (10 <=? dbg); [|apply IH]. cbn [fst]. repeat constructor.
  - repeat constructor.
Qed.

Lemma land_clear (x v : Z) : Z.land (Z.land x (Z.lnot v)) v = 0.
Proof.
  rewrite <- Z.land_assoc, (Z.land_comm (Z.lnot v) v), Z.land_lnot_diag.
  apply Z.land_0_r.
Qed.

(** No option sets the verification flag, provided the SASL flag does
    not contain it. *)
Lemma parse_options_flags (opts : list cli_opt) :
  Z.land IRC_CLIENT_USE_SASL IRC_CLIENT_VERIFY_SERVER = 0 ->
  forall dbg o dbg' o',
    Z.land (o_flags o) IRC_CLIENT_VERIFY_SERVER = 0 ->
    snd (parse_options opts dbg o) = Some (dbg', o') ->
    Z.land (o_flags o') IRC_CLIENT_VERIFY_SERVER = 0.
Proof.
  intros Hsasl.
  induction opts as [|[ |a| |a|a|a|a| | |a| ] r IH]; intros dbg o dbg' o' Hclear;
    cbn [parse_options snd]; try discriminate;
    try (apply IH; cbn [o_flags]; assumption).
  - intros [= <- <-]. exact Hclear.
  - destruct (10 <=? dbg); [discriminate|]. now apply IH.
  - apply IH. cbn [o_flags].
    rewrite Z.land_lor_distr_l, Hclear, Hsasl. reflexivity.
  - apply IH. cbn [o_flags]. apply land_clear.
Qed.

Lemma default_port_nonzero (flags port : Z) : default_port flags port <> 0.
Proof.
  unfold default_port. destruct (port =? 0) eqn:E.
  - destruct (negb _); vm_compute; discriminate.
  - now apply Z.eqb_neq.
Qed.

(** Every action of [main] up to [irc_client_connect] is a print, a
    system call, or one of four library calls whose arguments are the
    locals of the option loop. *)
Lemma main_connect_events (env : main_env) (opts : list cli_opt) (e : effect) :
  In e (progress_trace (main_connect env opts)) ->
  is_print e
  \/ exists dbg o,
       snd (parse_options opts 0 initial_options) = Some (dbg, o)
       /\ connect_event o e.
Proof.
  unfold main_connect.
  pose proof (parse_options_prints opts 0 initial_options) as Hprints.
  rewrite Forall_forall in Hprints.
  destruct (parse_options opts 0 initial_options) as [t0 [[dbg o]|]];
    cbn [fst snd] in *.
  2:{ cbn [progress_trace]. intros Hin. left. now apply Hprints. }
  pose proof (default_port_nonzero (o_flags o) (o_port o)) as Hport.
  apply Z.eqb_neq in Hport.
  cbv zeta. cbn [o_flags o_port o_server o_username o_autojoin o_fgchan o_optarg_k].
  rewrite Hport. cbn [negb].
  intros Hin.
  assert (Hgoal : In e t0 \/ connect_event o e);
    [|destruct Hgoal as [Hgoal|Hgoal];
      [left; now apply Hprints|right; exists dbg, o; now split]].
  revert Hin. unfold connect_event, set_term_title.
  branches; cbn [progress_trace ms_trace]; intros Hin; split_trace;
    try (left; assumption); subst e; right; cbn [is_print]; eauto 12.
Qed.

(** From [if (password)] on, [main] adds prints, system calls, the
    login and the creation of the receive thread. *)
Lemma main_login_events (env : main_env) (st : main_state) (e : effect) :
  In e (progress_trace (main_login env st)) ->
  In e (ms_trace st)
  \/ is_print e \/ (exists name, e = Sys name)
  \/ e = Lib irc_client_login \/ e = PthreadCreate.
Proof.
  unfold main_login, main_at_login, set_fg_chan, set_term_title.
  branches; cbn [progress_trace ms_trace]; intros Hin; split_trace;
    try (left; assumption); subst e; right; cbn [is_print]; eauto 8.
Qed.

Lemma main_startup_events (env : main_env) (opts : list cli_opt) (e : effect) :
  In e (progress_trace (main_startup env opts)) ->
  is_print e \/ e = Lib irc_client_login \/ e = PthreadCreate
  \/ exists dbg o,
       snd (parse_options opts 0 initial_options) = Some (dbg, o)
       /\ connect_event o e.
Proof.
  unfold main_startup. intros Hin.
  pose proof (main_connect_events env opts e) as Hev.
  assert (Hwiden : (is_print e
                    \/ exists dbg o,
                         snd (parse_options opts 0 initial_options)
                         = Some (dbg, o) /\ connect_event o e) ->
                   is_print e \/ e = Lib irc_client_login \/ e = PthreadCreate
                   \/ exists dbg o,
                        snd (parse_options opts 0 initial_options)
                        = Some (dbg, o) /\ connect_event o e)
    by (intros [Hp|Hp]; [left; exact Hp|do 3 right; exact Hp]).
  destruct (main_connect env opts) as [code t|code t|st] eqn:Ec;
    cbn [progress_trace] in Hev; [now apply Hwiden, Hev ..|].
  apply main_login_events in Hin.
  destruct Hin as [Hin|[Hin|[(name & Hin)|[Hin|Hin]]]].
  - now apply Hwiden, Hev.
  - now left.
  - (* a system call of the login phase: the option loop had succeeded *)
    assert (Hparsed : exists dbg o,
               snd (parse_options opts 0 initial_options) = Some (dbg, o)).
    { revert Ec. unfold main_connect.
      destruct (parse_options opts 0 initial_options) as [t0 [[dbg o]|]];
        [intros _; cbn [snd]; eauto|discriminate]. }
    destruct Hparsed as (dbg & o & Hparsed).
    do 3 right. exists dbg, o. split; [exact Hparsed|].
    unfold connect_event. right. left. now exists name.
  - right. now left.
  - right. right. now left.
Qed.


(** C9.  Provided the SASL mask does not contain the verification bit,
    every flags value the front end hands to [irc_client_set_flags],
    from [main] with any options and from [handle_send_msg] with any
    input, has the verification bit clear; and the two places that set
    the TLS bit clear the verification bit in the same step. *)
Theorem tls_never_comes_with_verification :
  Z.land IRC_CLIENT_USE_SASL IRC_CLIENT_VERIFY_SERVER = 0 ->
  forall (f : Z),
    (forall env opts,
        In (Lib (irc_client_set_flags f))
           (progress_trace (main_startup env opts)) ->
        Z.land f IRC_CLIENT_VERIFY_SERVER = 0)
    /\ (forall now pthread_rc g client input,
          In (Lib (irc_client_set_flags f))
             (sr_trace (handle_send_msg now pthread_rc g client input)) ->
          Z.land f IRC_CLIENT_VERIFY_SERVER = 0)
    /\ (forall r dbg o,
          exists o1,
            parse_options (Opt_t :: r) dbg o = parse_options r dbg o1
            /\ Z.land (o_flags o1) IRC_CLIENT_VERIFY_SERVER = 0).
Proof.
  intros Hsasl f. split; [|split].
  - intros env opts Hin. apply main_startup_events in Hin.
    destruct Hin as [Hin|[Hin|[Hin|(dbg & o & Hp & Hev)]]];
      try (now destruct Hin); try discriminate Hin.
    unfold connect_event in Hev.
    destruct Hev as [Hev|[(n & Hev)|[(u & p & Hev)|[Hev|[Hev|Hev]]]]];
      try (now destruct Hev); try discriminate Hev.
    injection Hev as ->.
    apply (parse_options_flags opts Hsasl 0 initial_options dbg o);
      [reflexivity|exact Hp].
  - intros now rc g client input Hin.
    apply (send_msg_flags now rc g client input f) in Hin.
    destruct Hin as [-> | ->]; [reflexivity|apply land_clear].
  - intros r dbg o. eexists. split; [reflexivity|]. cbn [o_flags].
    apply land_clear.
Qed.

Lemma memset_all_zero (m : list Z) :
  Forall (fun b => b = 0) (CStr.memset m 0 (List.length m)).
Proof. induction m; cbn [CStr.memset List.length]; constructor; auto. Qed.

(** Writing [strlen] zero bytes over a C string leaves only zero
    bytes, the terminator being one already. *)
Lemma memset_strlen_zero (m : list Z) :
  is_cstr m = true ->
  Forall (fun b => b = 0) (CStr.memset m 0 (CStr.strlen m)).
Proof.
  unfold is_cstr. induction m as [|b r IH]; cbn [CStr.strlen List.length].
  - discriminate.
  - destruct (b =? 0) eqn:Eb.
    + apply Z.eqb_eq in Eb. subst b. destruct r; [|discriminate].
      intros _. cbn [CStr.memset]. repeat constructor.
    + intros Hc. cbn [CStr.memset]. constructor; [reflexivity|].
      apply IH. exact Hc.
Qed.

(** The option loop keeps a -k argument as it was given. *)
Lemma parse_options_optarg (opts : list cli_opt) :
  Forall opt_wf opts ->
  forall dbg o dbg' o' m,
    (forall m0, o_optarg_k o = Some m0 -> is_cstr m0 = true) ->
    snd (parse_options opts dbg o) = Some (dbg', o') ->
    o_optarg_k o' = Some m -> is_cstr m = true.
Proof.
  induction 1 as [|[ |a| |a|a|a|a| | |a| ] r Hwf Hall IH];
    intros dbg o dbg' o' m Ho; cbn [parse_options snd]; try discriminate;
    try (apply IH; cbn [o_optarg_k]; assumption).
  - intros [= <- <-]. apply Ho.
  - destruct (10 <=? dbg); [discriminate|]. now apply IH.
  - apply IH. cbn [o_optarg_k]. intros m0 [= <-]. exact Hwf.
Qed.

(** What holds at the point where [main] has connected. *)
Lemma main_connect_goes_on (env : main_env) (opts : list cli_opt)
  (st : main_state) :
  main_connect env opts = GoesOn st ->
  ms_connected st = true
  /\ (exists server port user pass,
        In (LibNew server port user pass) (ms_trace st))
  /\ (ms_password st = PwOptarg ->
      exists dbg o,
        snd (parse_options opts 0 initial_options) = Some (dbg, o)
        /\ o_optarg_k o = Some (mem_optarg (ms_memory st))).
Proof.
  unfold main_connect.
  destruct (parse_options opts 0 initial_options) as [t0 [[dbg o]|]];
    [|discriminate].
  pose proof (default_port_nonzero (o_flags o) (o_port o)) as Hport.
  apply Z.eqb_neq in Hport.
  cbv zeta. cbn [o_flags o_port o_server o_username o_autojoin o_fgchan o_optarg_k].
  rewrite Hport. cbn [negb].
  branches; try discriminate; intros [= <-];
    cbn [ms_connected ms_trace ms_password ms_memory mem_optarg];
    (split; [reflexivity|split]);
    try (do 4 eexists; rewrite ?in_app_iff; cbn [In]; eauto 10; fail);
    try discriminate;
    intros _; exists dbg, o; (split; [reflexivity|assumption]).
Qed.

(** C4.  When [main] has connected and a password was supplied (by -k,
    every argument of which is a C string, or read into [passwordbuf]),
    then at the call of [irc_client_login] every byte of the memory that
    [password] points to is zero; the client was created before that
    point and no login was attempted before it; and the login is the
    next thing [main] does. *)
Theorem password_is_zeroed_before_login :
  forall (env : main_env) (opts : list cli_opt) (st s1 : main_state),
    Forall opt_wf opts ->
    main_connect env opts = GoesOn st ->
    main_at_login st = Some s1 ->
    Forall (fun b => b = 0) (password_bytes (ms_password s1) (ms_memory s1))
    /\ ms_password s1 <> PwNull
    /\ (exists server port user pass,
          In (LibNew server port user pass) (ms_trace s1))
    /\ ~ In (Lib irc_client_login) (ms_trace s1)
    /\ exists rest,
         progress_trace (main_login env st)
         = (ms_trace s1 ++ Lib irc_client_login :: rest)%list.
Proof.
  intros env opts st s1 Hwf Hconnect Hat.
  destruct (main_connect_goes_on env opts st Hconnect) as (Hc & Hnew & Hk).
  assert (Hnologin : ~ In (Lib irc_client_login) (ms_trace st)).
  { intros Hin.
    pose proof (main_connect_events env opts (Lib irc_client_login)) as Hev.
    rewrite Hconnect in Hev. cbn [progress_trace] in Hev.
    destruct (Hev Hin) as [Hp|(dbg & o & _ & Hp)]; [exact Hp|].
    unfold connect_event in Hp.
    destruct Hp as [Hp|[(n & Hp)|[(u & p & Hp)|[Hp|[Hp|Hp]]]]];
      try (now destruct Hp); discriminate Hp. }
  assert (Hlogin : exists rest,
             progress_trace (main_login env st)
             = (ms_trace s1 ++ Lib irc_client_login :: rest)%list).
  { unfold main_login. rewrite Hc, Hat.
    unfold set_fg_chan.
    branches; cbn [progress_trace ms_trace];
      rewrite <- ?app_assoc; cbn [app]; eexists; reflexivity. }
  unfold main_at_login in Hat. rewrite Hc in Hat.
  destruct (ms_password st) eqn:Ep; [discriminate| |]; injection Hat as <-;
    cbn [ms_password ms_memory ms_trace password_bytes zero_password
         mem_optarg mem_passwordbuf] in *.
  - split; [|split; [discriminate|auto]].
    destruct (Hk eq_refl) as (dbg & o & Hparsed & Hopt).
    apply memset_strlen_zero.
    apply (parse_options_optarg opts Hwf 0 initial_options dbg o);
      [discriminate|exact Hparsed|exact Hopt].
  - split; [apply memset_all_zero|split; [discriminate|auto]].
Qed.

(** A supplied password always takes [main] to the login. *)
Lemma password_supplied_reaches_login (env : main_env) (opts : list cli_opt)
  (st : main_state) :
  main_connect env opts = GoesOn st ->
  ms_password st <> PwNull ->
  exists s1, main_at_login st = Some s1.
Proof.
  intros Hconnect Hpw.
  destruct (main_connect_goes_on env opts st Hconnect) as (Hc & _).
  unfold main_at_login. rewrite Hc.
  destruct (ms_password st); [contradiction|eauto|eauto].
Qed.

End MainFacts.


Example plain_default_port :
  In (LibNew "127.0.0.1" 6667 EmptyString EmptyString)
     (progress_trace (main_startup (L := SpecLib.lib) (H := SpecLib.flags)
                        SpecLib.env [])).
Proof. vm_compute. tauto. Qed.

Example tls_default_port :
  In (LibNew "irc.example.net" 6697 EmptyString EmptyString)
     (progress_trace (main_startup (L := SpecLib.lib) (H := SpecLib.flags)
                        SpecLib.env [Opt_h "irc.example.net"; Opt_t])).
Proof. vm_compute. tauto. Qed.

Example explicit_port_is_kept :
  In (LibNew "127.0.0.1" 7000 EmptyString EmptyString)
     (progress_trace (main_startup (L := SpecLib.lib) (H := SpecLib.flags)
                        SpecLib.env [Opt_p "7000"])).
Proof. vm_compute. tauto. Qed.

Lemma tls_never_comes_with_verification_witness :
  Z.land (IRC_CLIENT_USE_SASL (IrcH := SpecLib.flags))
    (IRC_CLIENT_VERIFY_SERVER (IrcH := SpecLib.flags)) = 0
  /\ In (Lib (irc_client_set_flags 1))
       (sr_trace (handle_send_msg (L := SpecLib.lib) (H := SpecLib.flags)
                    (mk_timeval 0 0) 0 initial_globals SpecLib.idle_client
                    "/server irc.example.net 6697"))
  /\ Z.land 1 (IRC_CLIENT_VERIFY_SERVER (IrcH := SpecLib.flags)) = 0.
Proof.
  assert (Hin : In (Lib (irc_client_set_flags 1))
                  (sr_trace (handle_send_msg (L := SpecLib.lib)
                               (H := SpecLib.flags) (mk_timeval 0 0) 0
                               initial_globals SpecLib.idle_client
                               "/server irc.example.net 6697")))
    by (vm_compute; tauto).
  split; [reflexivity|split; [exact Hin|]].
  exact (proj1 (proj2 (tls_never_comes_with_verification (L := SpecLib.lib)
                         (H := SpecLib.flags) eq_refl 1))
           (mk_timeval 0 0) 0 initial_globals SpecLib.idle_client
           "/server irc.example.net 6697" Hin).
Defined.

Example server_with_tls_port :
  handle_send_msg (L := SpecLib.lib) (H := SpecLib.flags) (mk_timeval 0 0) 0
    initial_globals SpecLib.idle_client "/server irc.example.net 6697"
  = mk_send_result 0
      (mk_irc_client "irc.example.net" 6697 EmptyString EmptyString 1 true false)
      (set_client_prompt initial_globals "irc.example.net> ")
      [LibNew "irc.example.net" 6697 EmptyString EmptyString; Lib irc_client_destroy;
       Lib (irc_client_set_flags 1); Lib irc_client_connect; PthreadCreate].
Proof. reflexivity. Qed.

Example server_with_plain_port :
  sr_trace (handle_send_msg (L := SpecLib.lib) (H := SpecLib.flags)
              (mk_timeval 0 0) 0 initial_globals SpecLib.idle_client
              "/server irc.example.net 6667")
  = [LibNew "irc.example.net" 6667 EmptyString EmptyString; Lib irc_client_destroy;
     Lib irc_client_connect; PthreadCreate].
Proof. reflexivity. Qed.

Example options_t_and_s :
  snd (parse_options (H := SpecLib.flags) [Opt_s; Opt_t; Opt_s] 0 initial_options)
  = Some (0, mk_options 5 0 "127.0.0.1" None None None None).
Proof. reflexivity. Qed.

Lemma password_is_zeroed_before_login_witness :
  Forall opt_wf SpecLib.login_opts
  /\ match main_connect (L := SpecLib.lib) (H := SpecLib.flags) SpecLib.env
            SpecLib.login_opts with
     | GoesOn st =>
         match main_at_login st with
         | Some s1 =>
             Forall (fun b => b = 0)
               (password_bytes (ms_password s1) (ms_memory s1))
         | None => False
         end
     | _ => False
     end.
Proof.
  assert (Hwf : Forall opt_wf SpecLib.login_opts)
    by (repeat constructor).
  split; [exact Hwf|].
  destruct (main_connect (L := SpecLib.lib) (H := SpecLib.flags) SpecLib.env
              SpecLib.login_opts) as [code t|code t|st] eqn:Ec;
    try (vm_compute in Ec; discriminate Ec).
  destruct (main_at_login st) as [s1|] eqn:Eat.
  - exact (proj1 (password_is_zeroed_before_login SpecLib.env
                    SpecLib.login_opts st s1 Hwf Ec Eat)).
  - vm_compute in Ec. injection Ec as <-. vm_compute in Eat. discriminate Eat.
Defined.

(** The password given with -k reaches [irc_client_new] and is wiped
    before the login. *)
Example password_from_k :
  match main_connect (L := SpecLib.lib) (H := SpecLib.flags) SpecLib.env
          SpecLib.login_opts with
  | GoesOn st =>
      In (LibNew "127.0.0.1" 6667 "alice" "s3cr3t") (ms_trace st)
      /\ option_map (fun s1 => mem_optarg (ms_memory s1)) (main_at_login st)
         = Some [0; 0; 0; 0; 0; 0; 0]
  | _ => False
  end.
Proof. vm_compute. split; [tauto|reflexivity]. Qed.

(** The password read from the terminal reaches [irc_client_new] without
    its newline, and the whole buffer is wiped before the login. *)
Example password_from_terminal :
  match main_connect (L := SpecLib.lib) (H := SpecLib.flags) SpecLib.env
          SpecLib.ask_opts with
  | GoesOn st =>
      In (LibNew "127.0.0.1" 6667 "alice" "hunter2") (ms_trace st)
      /\ option_map (fun s1 => mem_passwordbuf (ms_memory s1)) (main_at_login st)
         = Some (repeat 0 73)
  | _ => False
  end.
Proof. vm_compute. split; [tauto|reflexivity]. Qed.

(** ** The receive thread *)

Section RxFacts.
Context {L : IrcLib}.

(** The callback only prints, logs and calls the library. *)
Lemma handle_irc_msg_events (clk : clock) (g : globals) (client : irc_client)
  (msg : irc_msg) (client' : irc_client) (g' : globals) (t : list effect) :
  handle_irc_msg clk g client msg = Some (client', g', t) ->
  Forall callback_event t.
Proof.
  unfold handle_irc_msg, handle_numeric, handle_chat, handle_nick,
    handle_ctcp_request, handle_ctcp_reply, mention_bell, print_chat,
    nick_notice, client_log.
  branches; try discriminate; intros [= <- <- <-];
    repeat (apply Forall_app; split); repeat constructor.
Qed.

(** The receive loop returns only with the connected flag false. *)
Lemma irc_loop_returns_disconnected
  (cb : clock -> globals -> irc_client -> irc_msg
        -> option (irc_client * globals * list effect))
  (feed : list read_line_result) :
  forall g client client' g' t,
    irc_loop cb feed g client = Some (client', g', t) ->
    irc_client_connected client' = false.
Proof.
  induction feed as [|[msg clk| |] rest IH]; intros g client client' g' t;
    cbn [irc_loop]; try discriminate.
  - destruct (cb clk g client msg) as [[[c1 g1] t1]|]; [|discriminate].
    destruct (irc_loop cb rest g1 c1) as [[[c2 g2] t2]|] eqn:E; [|discriminate].
    intros [= <- <- <-]. exact (IH _ _ _ _ _ E).
  - intros [= <- <- <-]. reflexivity.
  - intros [= <- <- <-]. reflexivity.
Qed.

Lemma irc_loop_events (feed : list read_line_result) :
  forall g client client' g' t,
    irc_loop handle_irc_msg feed g client = Some (client', g', t) ->
    Forall callback_event t.
Proof.
  induction feed as [|[msg clk| |] rest IH]; intros g client client' g' t;
    cbn [irc_loop]; try discriminate.
  - destruct (handle_irc_msg clk g client msg) as [[[c1 g1] t1]|] eqn:E1;
      [|discriminate].
    destruct (irc_loop handle_irc_msg rest g1 c1) as [[[c2 g2] t2]|] eqn:E2;
      [|discriminate].
    intros [= <- <- <-]. apply Forall_app. split.
    + exact (handle_irc_msg_events _ _ _ _ _ _ _ E1).
    + exact (IH _ _ _ _ _ E2).
  - intros [= <- <- <-]. constructor.
  - intros [= <- <- <-]. constructor.
Qed.

(** The callback leaves [fully_started] and [debug_level] alone, so
    its output goes where it went before. *)
Lemma handle_irc_msg_keeps_target (clk : clock) (g : globals)
  (client : irc_client) (msg : irc_msg) (client' : irc_client) (g' : globals)
  (t : list effect) :
  handle_irc_msg clk g client msg = Some (client', g', t) ->
  fully_started g' = fully_started g /\ debug_level g' = debug_level g.
Proof.
  unfold handle_irc_msg, handle_chat, handle_nick.
  branches; try discriminate; intros [= <- <- <-]; split; reflexivity.
Qed.

Lemma irc_loop_keeps_target (feed : list read_line_result) :
  forall g client client' g' t,
    irc_loop handle_irc_msg feed g client = Some (client', g', t) ->
    fully_started g' = fully_started g /\ debug_level g' = debug_level g.
Proof.
  induction feed as [|[msg clk| |] rest IH]; intros g client client' g' t;
    cbn [irc_loop]; try discriminate.
  - destruct (handle_irc_msg clk g client msg) as [[[c1 g1] t1]|] eqn:E1;
      [|discriminate].
    destruct (irc_loop handle_irc_msg rest g1 c1) as [[[c2 g2] t2]|] eqn:E2;
      [|discriminate].
    intros [= <- <- <-].
    destruct (handle_irc_msg_keeps_target _ _ _ _ _ _ _ E1) as [Hf Hd].
    destruct (IH _ _ _ _ _ E2) as [Hf' Hd'].
    split; congruence.
  - intros [= <- <- <-]. split; reflexivity.
  - intros [= <- <- <-]. split; reflexivity.
Qed.

Lemma pipe_output_app (g : globals) (a b : list effect) :
  pipe_output g (a ++ b) = (pipe_output g a ++ pipe_output g b)%list.
Proof. unfold pipe_output. apply flat_map_app. Qed.

(** The actions of the callback and the log lines put formatted output
    into the pipe and nothing else. *)
Lemma callback_events_are_formatted (g : globals) (l : list effect) :
  Forall callback_event l ->
  (forall b, ~ In (WritePipe b) l)
  /\ ~ In Abort l
  /\ Forall is_formatted (pipe_output g l).
Proof.
  induction 1 as [|e l He Hl (IHw & IHa & IHf)].
  - split; [intros b []|split; [intros []|constructor]].
  - split; [|split].
    + intros b [E|Hin]; [subst e; exact He|exact (IHw b Hin)].
    + intros [E|Hin]; [subst e; exact He|exact (IHa Hin)].
    + change (pipe_output g (e :: l))
        with (pipe_items g e ++ pipe_output g l)%list.
      apply Forall_app. split; [|exact IHf].
      destruct e; try contradiction; cbn [pipe_items];
        repeat match goal with
               | |- context [if ?c then _ else _] => destruct c
               end;
        repeat constructor.
Qed.

(** C5.  Whenever [rx_thread] gets past [irc_loop], the connected flag
    of the client is false, so the assertion holds and the thread does
    not abort.  The termination signal, the raw write of one zero byte
    to the notification pipe, comes after everything the loop did and
    after the log line about the exit, and it is the only raw write of
    the thread: whatever else the thread puts into the pipe, before or
    after, is formatted output of [irc_print] and [__client_log], which
    goes there once [fully_started] is set. *)
Theorem rx_thread_signals_after_disconnect :
  forall (fopen_ok write_ok : bool) (feed : list read_line_result)
         (g : globals) (client client' : irc_client) (g' : globals)
         (t : list effect),
    rx_thread fopen_ok write_ok feed g client = Some (client', g', t) ->
    irc_client_connected client' = false
    /\ ~ In Abort t
    /\ fully_started g' = fully_started g
    /\ debug_level g' = debug_level g
    /\ exists before after,
         t = (before
                ++ [client_log IRC_LOG_INFO
                      ("IRC client receive thread has exited" ++ nl) [];
                    WritePipe [0]]
                ++ after)%list
         /\ (forall b, ~ In (WritePipe b) before)
         /\ (forall b, ~ In (WritePipe b) after)
         /\ pipe_output g t
            = (pipe_output g before
                 ++ (if fully_started g =? 0 then []
                     else [Formatted
                             ("IRC client receive thread has exited" ++ nl) []])
                 ++ [RawBytes [0]]
                 ++ pipe_output g after)%list
         /\ Forall is_formatted (pipe_output g before)
         /\ Forall is_formatted (pipe_output g after).
Proof.
  intros fopen_ok write_ok feed g client client' g' t. unfold rx_thread.
  destruct (irc_loop handle_irc_msg feed g client) as [[[c1 g1] t1]|] eqn:Eloop;
    [|discriminate].
  pose proof (irc_loop_returns_disconnected _ _ _ _ _ _ _ Eloop) as Hdown.
  pose proof (irc_loop_events _ _ _ _ _ _ Eloop) as Hev.
  destruct (irc_loop_keeps_target _ _ _ _ _ _ Eloop) as [Hfs Hdbg].
  rewrite Hdown. intros [= <- <- <-].
  set (t0 := if fopen_ok then []
             else [client_log IRC_LOG_ERR ("Failed to open file: %s" ++ nl)
                     [AErrno]]).
  set (t3 := if write_ok then [] else [failed_write]).
  assert (Hbefore : Forall callback_event (t0 ++ t1)%list).
  { apply Forall_app. split; [|exact Hev].
    subst t0. destruct fopen_ok; repeat constructor. }
  assert (Hafter : Forall callback_event t3).
  { subst t3. destruct write_ok; repeat constructor. }
  destruct (callback_events_are_formatted g _ Hbefore) as (Hw1 & Ha1 & Hf1).
  destruct (callback_events_are_formatted g _ Hafter) as (Hw3 & Ha3 & Hf3).
  split; [exact Hdown|split; [|split; [exact Hfs|split; [exact Hdbg|]]]].
  - intros Hin. rewrite in_app_iff in Ha1. unfold client_log in Hin.
    rewrite !in_app_iff in Hin. cbn [In] in Hin.
    intuition (try discriminate).
  - exists (t0 ++ t1)%list, t3.
    split; [|split; [exact Hw1|split; [exact Hw3|split; [|split]]]].
    + rewrite <- !app_assoc. reflexivity.
    + assert (Hlog : forall fmt,
                 pipe_output g [client_log IRC_LOG_INFO fmt []]
                 = if fully_started g =? 0 then [] else [Formatted fmt []]).
      { intros fmt. unfold pipe_output.
        cbn [flat_map pipe_items client_log __client_log].
        destruct (fully_started g =? 0); reflexivity. }
      rewrite !pipe_output_app, Hlog, <- !app_assoc. reflexivity.
    + exact Hf1.
    + exact Hf3.
Qed.

(** The loop does return once the peer closes, whatever the callback
    did with the lines before. *)
Lemma irc_loop_returns_on_close
  (cb : clock -> globals -> irc_client -> irc_msg
        -> option (irc_client * globals * list effect))
  (rest : list read_line_result) (g : globals) (client : irc_client) :
  irc_loop cb (PeerClosed :: rest) g client
  = Some (set_connected client false, g, []).
Proof. reflexivity. Qed.

End RxFacts.

Lemma rx_thread_signals_after_disconnect_witness :
  rx_thread (L := SpecLib.lib) true true
    [Line SpecLib.own_nick_change SpecLib.noon; PeerClosed]
    (set_fully_started initial_globals 1) SpecLib.connected_client
  = Some (mk_irc_client "irc.example.net" 6667 "alicia" "alice" 0 false false,
          set_client_prompt (set_fully_started initial_globals 1)
            "alicia@irc.example.net> ",
          [nick_notice SpecLib.own_nick_change;
           Lib (irc_client_set_nick "alicia");
           client_log IRC_LOG_INFO
             ("IRC client receive thread has exited" ++ nl) [];
           WritePipe [0]])
  /\ irc_client_connected
       (mk_irc_client "irc.example.net" 6667 "alicia" "alice" 0 false false)
     = false
  /\ pipe_output (set_fully_started initial_globals 1)
       [nick_notice SpecLib.own_nick_change;
        Lib (irc_client_set_nick "alicia");
        client_log IRC_LOG_INFO
          ("IRC client receive thread has exited" ++ nl) [];
        WritePipe [0]]
     = [Formatted ("%s is %snow known as%s %s" ++ nl)
          [AStr (Some "alice!a@example"); AStr (Some COLOR_CYAN);
           AStr (Some COLOR_RESET); AStr (Some ":alicia")];
        Formatted ("IRC client receive thread has exited" ++ nl) [];
        RawBytes [0]].
Proof.
  assert (Hrun : rx_thread (L := SpecLib.lib) true true
                   [Line SpecLib.own_nick_change SpecLib.noon; PeerClosed]
                   (set_fully_started initial_globals 1)
                   SpecLib.connected_client
                 = Some (mk_irc_client "irc.example.net" 6667 "alicia" "alice"
                           0 false false,
                         set_client_prompt
                           (set_fully_started initial_globals 1)
                           "alicia@irc.example.net> ",
                         [nick_notice SpecLib.own_nick_change;
                          Lib (irc_client_set_nick "alicia");
                          client_log IRC_LOG_INFO
                            ("IRC client receive thread has exited" ++ nl) [];
                          WritePipe [0]]))
    by reflexivity.
  split; [exact Hrun|split; [|reflexivity]].
  exact (proj1 (rx_thread_signals_after_disconnect (L := SpecLib.lib)
                  true true _ _ _ _ _ _ Hrun)).
Defined.

(** A thread still waiting for a line has signalled nothing. *)
Example rx_thread_blocked :
  rx_thread (L := SpecLib.lib) true true
    [Line SpecLib.own_nick_change SpecLib.noon]
    initial_globals SpecLib.connected_client
  = None.
Proof. reflexivity. Qed.

(** * Further properties *)

(** ** The line editor: what it stores and what it leaves alone *)

Section ReadlineMore.

Lemma removelast_length {A : Type} (l : list A) :
  l <> [] -> S (List.length (removelast l)) = List.length l.
Proof.
  intros Hne. destruct (exists_last Hne) as (l' & a & ->).
  rewrite removelast_last, length_app. cbn [List.length]. lia.
Qed.

Lemma Forall_removelast {A : Type} (P : A -> Prop) (l : list A) :
  Forall P l -> Forall P (removelast l).
Proof.
  induction 1 as [|a l Ha Hl IH]; [constructor|].
  cbn [removelast]. destruct l; [constructor|]. constructor; assumption.
Qed.

(** One iteration keeps [rl_exact]; a returned count is the length of
    the buffer and leaves room for the terminator. *)
Lemma readline_step_exact (len0 : Z) (g : globals) (st : rl_state)
  (o : poll_outcome) :
  len0 < 2 ^ 31 -> rl_exact len0 st ->
  match readline_step g st o with
  | RlContinue st' _ _ => rl_exact len0 st'
  | RlReturn res st' _ _ =>
      Forall stored_byte (rl_buf st')
      /\ (res = -1
          \/ (1 <= res <= len0 - 1
              /\ Z.of_nat (List.length (rl_buf st')) = res))
  end.
Proof.
  intros Hb (Hn & Hl & Hsum & Hlen & Hall).
  assert (H64 : 2 ^ 31 < 2 ^ 64) by (vm_compute; reflexivity).
  destruct o as [[|]|byte ok|data ok|]; cbn [readline_step].
  - repeat split; assumption.
  - split; [assumption|now left].
  - unfold readline_stdin. destruct byte as [c|]; [|split; [assumption|now left]].
    destruct (c =? 10) eqn:E10.
    + destruct (rl_num_read st =? 0) eqn:E.
      * repeat split; assumption.
      * apply Z.eqb_neq in E. split; [assumption|]. right. split; [lia|assumption].
    + destruct ((c =? 8) || (c =? 127)) eqn:Edel.
      * destruct (rl_num_read st =? 0) eqn:E; cbn [negb].
        -- repeat split; assumption.
        -- apply Z.eqb_neq in E. cbv zeta. unfold rl_exact.
           cbn [rl_num_read rl_len rl_buf].
           rewrite wrap_int_small, wrap_size_t_small by lia.
           assert (Hne : rl_buf st <> []).
           { intros Hnil. rewrite Hnil in Hlen. cbn [List.length] in Hlen. lia. }
           pose proof (removelast_length (rl_buf st) Hne) as Hrl.
           repeat split; try lia. now apply Forall_removelast.
      * apply orb_false_iff in Edel. destruct Edel as [E8 E127].
        apply Z.eqb_neq in E10, E8, E127.
        assert (Hall' : Forall stored_byte (rl_buf st ++ [c])).
        { apply Forall_app. split; [assumption|]. constructor; [|constructor].
          unfold stored_byte. tauto. }
        cbv zeta. cbn [rl_len rl_num_read rl_buf].
        rewrite wrap_int_small, wrap_size_t_small by lia.
        destruct (rl_len st - 1 <=? 1) eqn:E.
        -- apply Z.leb_le in E. cbn [rl_buf]. split; [assumption|]. right.
           rewrite length_app. cbn [List.length]. lia.
        -- apply Z.leb_gt in E. unfold rl_exact. cbn [rl_num_read rl_len rl_buf].
           rewrite length_app. cbn [List.length]. repeat split; try lia.
           assumption.
  - unfold readline_pipe. destruct (firstn 511 data) as [|first rest];
      [split; [assumption|now left]|].
    destruct ((_ =? 1)%nat && (first =? 0)); [split; [assumption|now left]|].
    destruct ((rl_lastpos st =? 0) && negb ok); [split; [assumption|now left]|].
    repeat split; assumption.
  - repeat split; assumption.
Qed.

Lemma readline_loop_exact (len0 : Z) (w : list poll_outcome) :
  len0 < 2 ^ 31 ->
  forall g st out res,
    rl_exact len0 st ->
    rr_res (readline_loop g st out w) = Some res ->
    Forall stored_byte (rl_buf (rr_state (readline_loop g st out w)))
    /\ (res = -1
        \/ (1 <= res <= len0 - 1
            /\ Z.of_nat (List.length (rl_buf (rr_state (readline_loop g st out w))))
               = res)).
Proof.
  intros Hb. induction w as [|o w IH]; intros g st out res Hinv;
    cbn [readline_loop].
  - discriminate.
  - pose proof (readline_step_exact len0 g st o Hb Hinv) as Hstep.
    destruct (readline_step g st o) as [st' g' t|r st' g' t].
    + now apply IH.
    + cbn [rr_res rr_state]. intros [= <-]. exact Hstep.
Qed.

Lemma initial_exact (len : Z) : 2 <= len -> rl_exact len (mk_rl_state 0 0 len []).
Proof.
  intros Hlen. unfold rl_exact. cbn [rl_num_read rl_len rl_buf List.length].
  repeat split; try lia. constructor.
Qed.

(** X1.  A line that [client_readline] returns fits the caller's buffer
    with its terminator: for a length of at least 2 the count returned
    is at most [len - 1] and is the number of bytes stored, so that the
    [input[res] = 0] of [main] stays inside the buffer. *)
Theorem client_readline_count_is_within_buffer :
  forall (g : globals) (len : Z) (w : list poll_outcome) (res : Z),
    2 <= len < 2 ^ 31 ->
    rr_res (client_readline g len w) = Some res ->
    1 <= res ->
    res <= len - 1
    /\ Z.of_nat (List.length (rl_buf (rr_state (client_readline g len w)))) = res.
Proof.
  intros g len w res Hlen Hres Hpos. unfold client_readline in *.
  destruct (readline_loop_exact len w (proj2 Hlen) g _ _ res
              (initial_exact len (proj1 Hlen)) Hres) as [_ [E|[Hr Hl]]]; lia.
Qed.

(** X3.  Erasing undoes typing: an ordinary byte followed by a backspace
    or delete leaves the count, the room and the stored bytes as they
    were before the byte. *)
Theorem backspace_undoes_typed_byte :
  forall (g : globals) (len0 : Z) (st : rl_state) (c del : Z) (ok ok' : bool),
    len0 < 2 ^ 31 ->
    rl_exact len0 st ->
    3 <= rl_len st ->
    stored_byte c ->
    del = 8 \/ del = 127 ->
    exists st1 out1 out2,
      readline_step g st (PollStdin (Some c) ok) = RlContinue st1 g out1
      /\ rl_buf st1 = (rl_buf st ++ [c])%list
      /\ readline_step g st1 (PollStdin (Some del) ok')
         = RlContinue
             (mk_rl_state (rl_num_read st) 0 (rl_len st) (rl_buf st)) g out2.
Proof.
  intros g len0 st c del ok ok' Hb (Hn & Hl & Hsum & Hlen & Hall) Hroom
    (H10 & H8 & H127) Hdel.
  assert (H64 : 2 ^ 31 < 2 ^ 64) by (vm_compute; reflexivity).
  apply Z.eqb_neq in H10, H8, H127.
  cbn [readline_step]. unfold readline_stdin. rewrite H10, H8, H127.
  cbn [orb]. cbv zeta. cbn [rl_len rl_num_read rl_buf rl_lastpos].
  rewrite wrap_int_small, wrap_size_t_small by lia.
  assert (E : (rl_len st - 1 <=? 1) = false) by (apply Z.leb_gt; lia).
  rewrite E. do 3 eexists. split; [reflexivity|]. split; [reflexivity|].
  assert (Edel : ((del =? 10) = false) /\ ((del =? 8) || (del =? 127)) = true).
  { destruct Hdel as [-> | ->]; split; reflexivity. }
  destruct Edel as [Ed1 Ed2]. rewrite Ed1, Ed2.
  cbn [rl_num_read rl_len rl_buf rl_lastpos].
  assert (E0 : (rl_num_read st + 1 =? 0) = false) by (apply Z.eqb_neq; lia).
  rewrite E0. cbn [negb].
  rewrite wrap_int_small, wrap_size_t_small by lia.
  rewrite removelast_last.
  replace (rl_num_read st + 1 - 1) with (rl_num_read st) by lia.
  replace (rl_len st - 1 + 1) with (rl_len st) by lia.
  reflexivity.
Qed.

End ReadlineMore.

(** ** The main loop: what ends it *)

Section MainLoopMore.
Context {L : IrcLib} {H : IrcH}.

Lemma call_globals (g : globals) (client : irc_client) (c : libcall) :
  sr_globals (call g client c) = g.
Proof. unfold call. now destruct (lib_exec c client). Qed.

Ltac frame_leaf :=
  unfold set_fg_chan; branches; rewrite ?call_globals;
  cbn [sr_globals]; rewrite ?call_globals;
  unfold send_frame, update_prompt, set_fg_chan, set_client_prompt,
    set_debug_level, set_do_not_disturb, set_ctcp_ping_time;
  cbn [shutting_down fully_started debug_level fst];
  repeat match goal with
         | Hb : (_ && _) = true |- _ =>
             apply andb_prop in Hb; destruct Hb
         | Hb : (_ <=? _) = true |- _ => apply Z.leb_le in Hb
         end;
  repeat split; try reflexivity; intros; lia.

(** Whatever the line, [handle_send_msg] leaves [shutting_down] and
    [fully_started] alone and keeps a debug level between 0 and 10
    there. *)
Lemma send_msg_frame (now : timeval) (rc : Z) (g : globals)
  (client : irc_client) (input : string) :
  send_frame g (sr_globals (handle_send_msg now rc g client input)).
Proof.
  unfold handle_send_msg, missing_parameter, no_fg_channel.
  destruct input as [|c0 s0]; [frame_leaf|].
  destruct c0 as [[] [] [] [] [] [] [] []]; try solve [frame_leaf].
  destruct (CStr.strsep_str " " s0) as [cmd rest].
  destruct (CStr.strcaseeq cmd "help"); [solve [frame_leaf]|].
  destruct (CStr.strcaseeq cmd "debug"); [solve [frame_leaf]|].
  destruct (CStr.strcaseeq cmd "dnd"); [solve [frame_leaf]|].
  destruct (CStr.strcaseeq cmd "fg"); [solve [frame_leaf]|].
  destruct (CStr.strcaseeq cmd "server").
  { unfold send_server, missing_parameter.
    destruct (CStr.strsep rest " ") as [[server|] s1]; [|solve [frame_leaf]].
    destruct (CStr.strsep s1 " ") as [portstr s2].
    set (port := match portstr with Some p => CStr.atoi p | None => 0 end).
    destruct (negb (port =? 0) && (6670 <? port)).
    - destruct (negb (Z.land (Z.lor 0 IRC_CLIENT_USE_TLS)
                        (Z.lnot IRC_CLIENT_VERIFY_SERVER) =? 0));
        frame_leaf.
    - cbn [Z.eqb negb]. frame_leaf. }
  destruct (irc_client_connected client); cbn [negb]; [|solve [frame_leaf]].
  unfold send_connected, missing_parameter, no_fg_channel.
  destruct (CStr.strcaseeq cmd "raw"); [solve [frame_leaf]|].
  destruct (CStr.strcaseeq cmd "quit"); [solve [frame_leaf]|].
  destruct (CStr.strcaseeq cmd "part"); [solve [frame_leaf]|].
  destruct (CStr.strcaseeq cmd "join"); [solve [frame_leaf]|].
  destruct (CStr.strcaseeq cmd "msg"); [solve [frame_leaf]|].
  destruct (CStr.strcaseeq cmd "notice"); [solve [frame_leaf]|].
  destruct (CStr.strcaseeq cmd "me"); [solve [frame_leaf]|].
  destruct (CStr.strcaseeq cmd "describe"); [solve [frame_leaf]|].
  destruct (CStr.strcaseeq cmd "ctcp"); [solve [frame_leaf]|].
  destruct (CStr.strcaseeq cmd "nick"); [solve [frame_leaf]|].
  destruct (CStr.strcaseeq cmd "topic"); [solve [frame_leaf]|].
  destruct (CStr.strcaseeq cmd "list"); [solve [frame_leaf]|].
  destruct (CStr.strcaseeq cmd "invite"); [solve [frame_leaf]|].
  destruct (CStr.strcaseeq cmd "identify"); [solve [frame_leaf]|].
  solve [frame_leaf].
Qed.

(** One iteration of the line editor changes the globals only by
    setting [shutting_down] on the signal. *)
Lemma readline_step_globals (g : globals) (st : rl_state) (o : poll_outcome) :
  ~ is_signal o ->
  match readline_step g st o with
  | RlContinue _ g' _ => g' = g
  | RlReturn _ _ g' _ => g' = g
  end.
Proof.
  intros Hns. destruct o as [[|]|byte ok|data ok|]; cbn [readline_step];
    try reflexivity.
  - unfold readline_stdin. branches; reflexivity.
  - unfold readline_pipe. cbn [is_signal] in Hns.
    destruct (firstn 511 data) as [|first rest] eqn:Ed; [reflexivity|].
    destruct ((List.length (first :: rest) =? 1)%nat && (first =? 0)) eqn:Esig.
    + exfalso. apply Hns. apply andb_prop in Esig. destruct Esig as [E1 E2].
      apply Nat.eqb_eq in E1. apply Z.eqb_eq in E2. subst first.
      destruct rest; [reflexivity|discriminate E1].
    + branches; reflexivity.
Qed.

(** X4.  Only the signal ends the main loop with a requested disconnect:
    if [shutting_down] is 0 and no pipe read delivers the zero byte
    alone, then however many lines are typed and handled the loop does
    not report a requested disconnect and [shutting_down] stays 0. *)
Theorem disconnect_is_requested_only_by_signal :
  forall (os : string -> timeval * Z) (w : list poll_outcome) (g : globals)
         (client : irc_client) (st : rl_state),
    shutting_down g = 0 ->
    Forall (fun o => ~ is_signal o) w ->
    let '(e, g', _, _) := main_loop_from os g client st w in
    e <> RequestedDisconnect /\ shutting_down g' = 0.
Proof.
  intros os w. induction w as [|o w IH]; intros g client st Hg Hw;
    cbn [main_loop_from].
  - split; [discriminate|exact Hg].
  - inversion Hw as [|o' w' Ho Hrest]; subst.
    pose proof (readline_step_globals g st o Ho) as Hstep.
    destruct (readline_step g st o) as [st' g' t|res st' g' t]; subst g'.
    + specialize (IH g client st' Hg Hrest).
      destruct (main_loop_from os g client st' w) as [[[e g2] c2] t2].
      exact IH.
    + rewrite Hg. cbn [Z.eqb negb].
      destruct (res <=? 0); [split; [discriminate|exact Hg]|].
      set (r := handle_send_msg _ _ g client _).
      destruct (send_msg_frame (fst (os (cstring (firstn (Z.to_nat res) (rl_buf st')))))
                  (snd (os (cstring (firstn (Z.to_nat res) (rl_buf st')))))
                  g client (cstring (firstn (Z.to_nat res) (rl_buf st'))))
        as (Hsd & _).
      fold r in Hsd. rewrite Hg in Hsd.
      specialize (IH (sr_globals r) (sr_client r)
                    (mk_rl_state 0 0 INPUT_LEN []) Hsd Hrest).
      destruct (main_loop_from os (sr_globals r) (sr_client r)
                  (mk_rl_state 0 0 INPUT_LEN []) w) as [[[e g4] c4] t4].
      exact IH.
Qed.

(** X5.  Output of the receive thread never touches the line being
    typed: across any run of pipe reads, interrupted polls and idle
    polls the count, the room and the stored bytes stay as they were,
    and the call does not return a line. *)
Theorem pipe_output_leaves_typed_line :
  forall (w : list poll_outcome) (g : globals) (st : rl_state)
         (out : list effect),
    Forall no_input w ->
    let r := readline_loop g st out w in
    rl_num_read (rr_state r) = rl_num_read st
    /\ rl_len (rr_state r) = rl_len st
    /\ rl_buf (rr_state r) = rl_buf st
    /\ (rr_res r = None \/ rr_res r = Some (-1)).
Proof.
  induction w as [|o w IH]; intros g st out Hw; cbn [readline_loop].
  - cbn [rr_state rr_res]. auto.
  - inversion Hw as [|o' w' Ho Hrest]; subst.
    destruct o as [[|]|byte ok|data ok|]; cbn [no_input] in Ho;
      try discriminate Ho; try contradiction; cbn [readline_step].
    + now apply IH.
    + unfold readline_pipe.
      destruct (firstn 511 data) as [|first rest];
        [cbn [rr_state rr_res]; auto|].
      destruct ((_ =? 1)%nat && (first =? 0)); [cbn [rr_state rr_res]; auto|].
      destruct ((rl_lastpos st =? 0) && negb ok); [cbn [rr_state rr_res]; auto|].
      match goal with
      | |- context [readline_loop g ?s ?o w] =>
          pose proof (IH g s o Hrest) as IH'
      end.
      cbn [rl_num_read rl_len rl_buf] in IH'. exact IH'.
    + now apply IH.
Qed.

End MainLoopMore.

(** ** The debug level *)

Section DebugLevel.
Context {L : IrcLib} {H : IrcH}.

Lemma parse_options_debug (opts : list cli_opt) :
  forall dbg o dbg' o',
    0 <= dbg <= 10 ->
    snd (parse_options opts dbg o) = Some (dbg', o') ->
    0 <= dbg' <= 10.
Proof.
  induction opts as [|[ |a| |a|a|a|a| | |a| ] r IH]; intros dbg o dbg' o' Hd;
    cbn [parse_options snd]; try discriminate; try (now apply IH).
  - intros [= <- <-]. exact Hd.
  - destruct (10 <=? dbg) eqn:E; [discriminate|]. apply Z.leb_gt in E.
    apply IH. rewrite wrap_int_small by lia. lia.
Qed.

Lemma readline_step_debug (g : globals) (st : rl_state) (o : poll_outcome) :
  match readline_step g st o with
  | RlContinue _ g' _ => debug_level g' = debug_level g
  | RlReturn _ _ g' _ => debug_level g' = debug_level g
  end.
Proof.
  destruct o as [[|]|byte ok|data ok|]; cbn [readline_step]; try reflexivity.
  - unfold readline_stdin. branches; reflexivity.
  - unfold readline_pipe. branches; reflexivity.
Qed.

Ltac level_leaf :=
  unfold set_fg_chan; branches; rewrite ?call_globals;
  cbn [sr_globals]; rewrite ?call_globals;
  unfold update_prompt, set_fg_chan, set_client_prompt, set_do_not_disturb,
    set_ctcp_ping_time;
  cbn [debug_level fst]; reflexivity.

(** A line either leaves the debug level alone or is a /debug command
    with a level between 0 and 10, which becomes the debug level. *)
Lemma send_msg_debug_level (now : timeval) (rc : Z) (g : globals)
  (client : irc_client) (input : string) :
  debug_level (sr_globals (handle_send_msg now rc g client input))
  = debug_level g
  \/ exists s0 level,
       input = String "/" s0
       /\ CStr.strcaseeq (fst (CStr.strsep_str " " s0)) "debug" = true
       /\ fst (CStr.strsep (snd (CStr.strsep_str " " s0)) " ") = Some level
       /\ 0 <= CStr.atoi level <= 10
       /\ sr_globals (handle_send_msg now rc g client input)
          = set_debug_level g (CStr.atoi level).
Proof.
  unfold handle_send_msg, missing_parameter, no_fg_channel.
  destruct input as [|c0 s0]; [left; level_leaf|].
  destruct c0 as [[] [] [] [] [] [] [] []]; try solve [left; level_leaf].
  destruct (CStr.strsep_str " " s0) as [cmd rest] eqn:Esep.
  destruct (CStr.strcaseeq cmd "help"); [solve [left; level_leaf]|].
  destruct (CStr.strcaseeq cmd "debug") eqn:Ecmd.
  { destruct (CStr.strsep rest " ") as [[m|] s1] eqn:Etok;
      [|left; reflexivity].
    destruct ((0 <=? CStr.atoi m) && (CStr.atoi m <=? 10)) eqn:Erange;
      [|left; reflexivity].
    apply andb_prop in Erange. destruct Erange as [Hlo Hhi].
    apply Z.leb_le in Hlo, Hhi.
    right. exists s0, m. rewrite Esep. cbn [fst snd]. rewrite Etok.
    cbn [fst sr_globals]. repeat split; try assumption; reflexivity. }
  destruct (CStr.strcaseeq cmd "dnd"); [solve [left; level_leaf]|].
  destruct (CStr.strcaseeq cmd "fg"); [solve [left; level_leaf]|].
  destruct (CStr.strcaseeq cmd "server").
  { left. unfold send_server, missing_parameter.
    destruct (CStr.strsep rest " ") as [[server|] s1]; [|solve [level_leaf]].
    destruct (CStr.strsep s1 " ") as [portstr s2].
    set (port := match portstr with Some p => CStr.atoi p | None => 0 end).
    destruct (negb (port =? 0) && (6670 <? port)).
    - destruct (negb (Z.land (Z.lor 0 IRC_CLIENT_USE_TLS)
                        (Z.lnot IRC_CLIENT_VERIFY_SERVER) =? 0));
        level_leaf.
    - cbn [Z.eqb negb]. level_leaf. }
  left.
  destruct (irc_client_connected client); cbn [negb]; [|solve [level_leaf]].
  unfold send_connected, missing_parameter, no_fg_channel.
  destruct (CStr.strcaseeq cmd "raw"); [solve [level_leaf]|].
  destruct (CStr.strcaseeq cmd "quit"); [solve [level_leaf]|].
  destruct (CStr.strcaseeq cmd "part"); [solve [level_leaf]|].
  destruct (CStr.strcaseeq cmd "join"); [solve [level_leaf]|].
  destruct (CStr.strcaseeq cmd "msg"); [solve [level_leaf]|].
  destruct (CStr.strcaseeq cmd "notice"); [solve [level_leaf]|].
  destruct (CStr.strcaseeq cmd "me"); [solve [level_leaf]|].
  destruct (CStr.strcaseeq cmd "describe"); [solve [level_leaf]|].
  destruct (CStr.strcaseeq cmd "ctcp"); [solve [level_leaf]|].
  destruct (CStr.strcaseeq cmd "nick"); [solve [level_leaf]|].
  destruct (CStr.strcaseeq cmd "topic"); [solve [level_leaf]|].
  destruct (CStr.strcaseeq cmd "list"); [solve [level_leaf]|].
  destruct (CStr.strcaseeq cmd "invite"); [solve [level_leaf]|].
  destruct (CStr.strcaseeq cmd "identify"); [solve [level_leaf]|].
  solve [level_leaf].
Qed.

(** X6.  The debug level never leaves the range 0 to 10, and only
    /debug changes it.  The option loop refuses an eleventh -d; the
    main loop keeps the level in the range; [client_readline] never
    touches it; and a line that [handle_send_msg] leaves with another
    level than it found is a /debug command whose parameter reads as a
    number from 0 to 10, which is the new level. *)
Theorem debug_level_stays_within_range :
  forall (opts : list cli_opt) (dbg : Z) (o : options)
         (os : string -> timeval * Z) (w : list poll_outcome)
         (client : irc_client) (st : rl_state) (g : globals),
    snd (parse_options opts 0 initial_options) = Some (dbg, o) ->
    debug_level g = dbg ->
    0 <= dbg <= 10
    /\ (let '(_, g', _, _) := main_loop_from os g client st w in
        0 <= debug_level g' <= 10)
    /\ (forall g0 st0 p,
          match readline_step g0 st0 p with
          | RlContinue _ g' _ => debug_level g' = debug_level g0
          | RlReturn _ _ g' _ => debug_level g' = debug_level g0
          end)
    /\ (forall now rc g0 client0 input,
          let r := handle_send_msg now rc g0 client0 input in
          debug_level (sr_globals r) <> debug_level g0 ->
          exists s0 level,
            input = String "/" s0
            /\ CStr.strcaseeq (fst (CStr.strsep_str " " s0)) "debug" = true
            /\ fst (CStr.strsep (snd (CStr.strsep_str " " s0)) " ")
               = Some level
            /\ 0 <= CStr.atoi level <= 10
            /\ debug_level (sr_globals r) = CStr.atoi level).
Proof.
  intros opts dbg o os w client st g Hparse Hg.
  assert (Hd : 0 <= dbg <= 10)
    by (apply (parse_options_debug opts 0 initial_options dbg o); [lia|exact Hparse]).
  split; [exact Hd|split; [|split]].
  - rewrite <- Hg in Hd. clear Hparse Hg.
    revert g client st Hd.
    induction w as [|p w IH]; intros g client st Hd; cbn [main_loop_from].
    + exact Hd.
    + pose proof (readline_step_debug g st p) as Hstep.
      destruct (readline_step g st p) as [st' g' t|res st' g' t];
        rewrite <- Hstep in Hd.
      * specialize (IH g' client st' Hd).
        now destruct (main_loop_from os g' client st' w) as [[[e g2] c2] t2].
      * destruct (negb (shutting_down g' =? 0)); [exact Hd|].
        destruct (res <=? 0); [exact Hd|].
        set (input := cstring (firstn (Z.to_nat res) (rl_buf st'))).
        destruct (send_msg_frame (fst (os input)) (snd (os input)) g' client input)
          as (_ & _ & Hrange).
        specialize (IH _ (sr_client (handle_send_msg (fst (os input))
                                       (snd (os input)) g' client input))
                      (mk_rl_state 0 0 INPUT_LEN []) (Hrange Hd)).
        now destruct (main_loop_from os _ _ (mk_rl_state 0 0 INPUT_LEN []) w)
          as [[[e g4] c4] t4].
  - exact readline_step_debug.
  - intros now rc g0 client0 input r Hne. subst r.
    destruct (send_msg_debug_level now rc g0 client0 input)
      as [Hsame|(s0 & level & Hin & Hcmd & Htok & Hrange & Hset)];
      [contradiction|].
    exists s0, level. rewrite Hset. cbn [set_debug_level debug_level].
    repeat split; try assumption; lia.
Qed.

End DebugLevel.

(** ** Commands *)

Section CommandsMore.
Context {L : IrcLib} {H : IrcH}.

(** Two commands that differ only in case pass the same tests. *)
Lemma strcaseeq_congr (a : string) :
  forall b c, CStr.strcaseeq a b = true ->
              CStr.strcaseeq a c = CStr.strcaseeq b c.
Proof.
  induction a as [|x a IH]; intros [|y b] [|z c]; cbn [CStr.strcaseeq];
    try discriminate; try reflexivity.
  intros Hab. apply andb_prop in Hab. destruct Hab as [Hxy Hab].
  apply Ascii.eqb_eq in Hxy. rewrite Hxy, (IH b c Hab). reflexivity.
Qed.



End CommandsMore.

(** Replace every test on [cmd] by the test on the literal [lit] it
    equals up to case, and evaluate it. *)
Ltac tests_as cmd lit Hk :=
  rewrite ?(strcaseeq_congr cmd lit _ Hk);
  repeat match goal with
         | |- context [CStr.strcaseeq lit ?other] =>
             let v := eval vm_compute in (CStr.strcaseeq lit other) in
             change (CStr.strcaseeq lit other) with v
         end;
  cbv iota.

Ltac no_lib_leaf :=
  unfold set_fg_chan, set_term_title, missing_parameter, no_fg_channel,
    client_log;
  branches; cbn [sr_trace map help_lines];
  let e := fresh "e" in
  let Hin := fresh "Hin" in
  let He := fresh "He" in
  intros (e & Hin & He); split_trace; try subst e; try discriminate He;
  try contradiction.

Section CommandsMore2.
Context {L : IrcLib} {H : IrcH}.

(** X8.  /dnd is a toggle: it never touches the client or the library,
    it leaves Do Not Disturb at 0 or 1, and from 0 or 1 two of them in
    a row restore the globals. *)
Theorem dnd_twice_restores :
  forall (now : timeval) (rc : Z) (g : globals) (client : irc_client)
         (s1 s2 : string),
    CStr.strcaseeq (fst (CStr.strsep_str " " s1)) "dnd" = true ->
    CStr.strcaseeq (fst (CStr.strsep_str " " s2)) "dnd" = true ->
    let r1 := handle_send_msg now rc g client (String "/" s1) in
    let r2 := handle_send_msg now rc (sr_globals r1) (sr_client r1)
                (String "/" s2) in
    sr_client r1 = client
    /\ sr_res r1 = 0
    /\ (forall c, ~ In (Lib c) (sr_trace r1))
    /\ (do_not_disturb (sr_globals r1) = 0 \/ do_not_disturb (sr_globals r1) = 1)
    /\ (do_not_disturb g = 0 \/ do_not_disturb g = 1 -> sr_globals r2 = g).
Proof.
  intros now rc g client s1 s2. unfold handle_send_msg.
  destruct (CStr.strsep_str " " s1) as [c1 r1].
  destruct (CStr.strsep_str " " s2) as [c2 r2]. cbn [fst snd].
  intros H1 H2. tests_as c1 "dnd" H1. tests_as c2 "dnd" H2.
  cbn [sr_client sr_res sr_trace sr_globals].
  split; [reflexivity|split; [reflexivity|split; [|split]]].
  - intros c [E|[]]. discriminate E.
  - unfold set_do_not_disturb. cbn [do_not_disturb].
    destruct (do_not_disturb g =? 0); auto.
  - intros Hd. destruct g as [dl fs sd dnd cp fc pt].
    cbn [do_not_disturb] in Hd. destruct Hd as [-> | ->]; reflexivity.
Qed.

(** A line that does not start with a slash is a message for the
    foreground channel. *)
Lemma plain_text_goes_to_fg (now : timeval) (rc : Z) (g : globals)
  (client : irc_client) (text : string) :
  (forall s0, text <> String "/" s0) ->
  handle_send_msg now rc g client text
  = match fg_chan g with
    | EmptyString => no_fg_channel g client
    | String _ _ =>
        call g client (irc_client_msg (Some (fg_chan g)) (Some text))
    end.
Proof.
  intros Hplain. unfold handle_send_msg.
  destruct text as [|c s0]; [reflexivity|].
  destruct c as [[] [] [] [] [] [] [] []]; try reflexivity.
  now destruct (Hplain s0).
Qed.

Lemma strncpy_nonempty (n : nat) (s : string) :
  s <> EmptyString -> CStr.strncpy (S n) s <> EmptyString.
Proof. destruct s; [contradiction|discriminate]. Qed.

(** X9.  After /fg with a channel, plain text goes to that channel: the
    next line that does not start with a slash is handed whole to
    [irc_client_msg] with the first 63 bytes of the channel as target,
    connected or not. *)
Theorem fg_then_text_sends_to_channel :
  forall (now : timeval) (rc : Z) (g : globals) (client : irc_client)
         (s0 chan text : string),
    CStr.strcaseeq (fst (CStr.strsep_str " " s0)) "fg" = true ->
    fst (CStr.strsep (snd (CStr.strsep_str " " s0)) " ") = Some chan ->
    chan <> EmptyString ->
    (forall t0, text <> String "/" t0) ->
    let r1 := handle_send_msg now rc g client (String "/" s0) in
    let r2 := handle_send_msg now rc (sr_globals r1) (sr_client r1) text in
    sr_res r1 = 0
    /\ fg_chan (sr_globals r1) = CStr.strncpy 63 chan
    /\ sr_trace r2
       = [Lib (irc_client_msg (Some (CStr.strncpy 63 chan)) (Some text))].
Proof.
  intros now rc g client s0 chan text Hfg Hchan Hne Hplain r1 r2.
  assert (Hr1 : r1 = mk_send_result 0 client
                       (update_prompt (fst (set_fg_chan g chan)) client)
                       (snd (set_fg_chan g chan))).
  { subst r1. unfold handle_send_msg.
    destruct (CStr.strsep_str " " s0) as [cmd rest]. cbn [fst snd] in *.
    tests_as cmd "fg" Hfg.
    destruct (CStr.strsep rest " ") as [ch s1]. cbn [fst] in Hchan.
    subst ch. reflexivity. }
  assert (Hfgc : fg_chan (sr_globals r1) = CStr.strncpy 63 chan)
    by (rewrite Hr1; reflexivity).
  split; [rewrite Hr1; reflexivity|split; [exact Hfgc|]].
  subst r2. rewrite plain_text_goes_to_fg by exact Hplain. rewrite Hfgc.
  pose proof (strncpy_nonempty 62 chan Hne) as Hn.
  destruct (CStr.strncpy 63 chan) eqn:E; [contradiction|].
  apply call_trace.
Qed.

(** X10.  While the client is not connected, the only lines that reach
    the library are /server and plain text for the foreground channel:
    every other line produces no library call and starts no thread. *)
Theorem unconnected_library_calls :
  forall (now : timeval) (rc : Z) (g : globals) (client : irc_client)
         (input : string),
    irc_client_connected client = false ->
    (exists e,
        In e (sr_trace (handle_send_msg now rc g client input))
        /\ is_lib_event e = true) ->
    (forall s0, input <> String "/" s0)
    \/ exists s0,
         input = String "/" s0
         /\ CStr.strcaseeq (fst (CStr.strsep_str " " s0)) "server" = true.
Proof.
  intros now rc g client input Hdown. unfold handle_send_msg.
  destruct input as [|c0 s0]; [intros _; left; discriminate|].
  destruct c0 as [[] [] [] [] [] [] [] []];
    try (intros _; left; discriminate).
  destruct (CStr.strsep_str " " s0) as [cmd rest] eqn:Esep.
  destruct (CStr.strcaseeq cmd "help"); [solve [no_lib_leaf]|].
  destruct (CStr.strcaseeq cmd "debug"); [solve [no_lib_leaf]|].
  destruct (CStr.strcaseeq cmd "dnd"); [solve [no_lib_leaf]|].
  destruct (CStr.strcaseeq cmd "fg"); [solve [no_lib_leaf]|].
  destruct (CStr.strcaseeq cmd "server") eqn:Eserver.
  { intros _. right. exists s0. rewrite Esep. split; [reflexivity|exact Eserver]. }
  rewrite Hdown. cbn [negb]. no_lib_leaf.
Qed.

Ltac absurd_case := first [contradiction | congruence | lia].

Ltac server_case :=
  cbn [sr_trace sr_res sr_globals sr_client app client_log];
  (split; [reflexivity|]);
  (split;
   [split;
    [intros E; first [discriminate E | split; reflexivity]
    |intros [E1 E2]; first [reflexivity | absurd_case]]|]);
  (split; [first [left; reflexivity | right; reflexivity]|]);
  (split;
   [intros E;
    first [absurd_case | split; [reflexivity|do 2 eexists; reflexivity]]|]);
  intros E;
  first [absurd_case
        |split; [reflexivity
                |split; intros E'; first [absurd_case | reflexivity]]].

(** X11.  /server replaces the client only once a new one exists, and
    succeeds only if the connection and the thread do.  When
    [irc_client_new] fails, -1 is returned and the old client is kept,
    not destroyed.  When it succeeds the old client is destroyed right
    after and the new one, as [irc_client_connect] left it, takes its
    place; the result is 0 exactly when [irc_client_connect] and
    pthread_create both returned 0, and then the prompt is updated for
    the new client; it is -1 otherwise, with no thread created when the
    connection failed and the globals as they were. *)
Theorem server_replaces_client_after_creating_one :
  forall (now : timeval) (rc : Z) (g : globals) (client : irc_client)
         (s0 server : string),
    CStr.strcaseeq (fst (CStr.strsep_str " " s0)) "server" = true ->
    fst (CStr.strsep (snd (CStr.strsep_str " " s0)) " ") = Some server ->
    let portstr :=
      fst (CStr.strsep (snd (CStr.strsep (snd (CStr.strsep_str " " s0)) " ")) " ") in
    let port := match portstr with Some p => CStr.atoi p | None => 0 end in
    let flags :=
      if negb (port =? 0) && (6670 <? port)
      then Z.land (Z.lor 0 IRC_CLIENT_USE_TLS) (Z.lnot IRC_CLIENT_VERIFY_SERVER)
      else 0 in
    let r := handle_send_msg now rc g client (String "/" s0) in
    (irc_client_new server port EmptyString EmptyString = None ->
     r = mk_send_result (-1) client g
           [LibNew server port EmptyString EmptyString])
    /\ (forall new,
          irc_client_new server port EmptyString EmptyString = Some new ->
          let new1 :=
            if negb (flags =? 0)
            then snd (lib_exec (irc_client_set_flags flags) new) else new in
          let connect := lib_exec irc_client_connect new1 in
          let calls :=
            (LibNew server port EmptyString EmptyString
               :: Lib irc_client_destroy
               :: (if negb (flags =? 0)
                   then [Lib (irc_client_set_flags flags)] else [])
               ++ [Lib irc_client_connect])%list in
          sr_client r = snd connect
          /\ (sr_res r = 0 <-> fst connect = 0 /\ rc = 0)
          /\ (sr_res r = 0 \/ sr_res r = -1)
          /\ (fst connect <> 0 ->
              sr_globals r = g
              /\ exists fmt args,
                   sr_trace r
                   = (calls ++ [ClientLog IRC_LOG_ERR 0 fmt args])%list)
          /\ (fst connect = 0 ->
              sr_trace r = (calls ++ [PthreadCreate])%list
              /\ (rc <> 0 -> sr_globals r = g)
              /\ (rc = 0 -> sr_globals r = update_prompt g (snd connect)))).
Proof.
  intros now rc g client s0 server Hcmd Hserver portstr port flags r.
  subst r flags portstr port. unfold handle_send_msg.
  destruct (CStr.strsep_str " " s0) as [cmd rest]. cbn [fst snd] in *.
  tests_as cmd "server" Hcmd. unfold send_server.
  destruct (CStr.strsep rest " ") as [sv s1]. cbn [fst snd] in *. subst sv.
  destruct (CStr.strsep s1 " ") as [portstr s2]. cbn [fst].
  set (port := match portstr with Some p => CStr.atoi p | None => 0 end).
  set (flags := if negb (port =? 0) && (6670 <? port)
                then Z.land (Z.lor 0 IRC_CLIENT_USE_TLS)
                       (Z.lnot IRC_CLIENT_VERIFY_SERVER)
                else 0).
  destruct (irc_client_new server port EmptyString EmptyString) as [new0|].
  2:{ split; [reflexivity|]. intros new Hnew. discriminate Hnew. }
  split; [discriminate|]. intros new [= <-]. cbv zeta.
  destruct (negb (flags =? 0)).
  - destruct (lib_exec irc_client_connect
                (snd (lib_exec (irc_client_set_flags flags) new0)))
      as [res new2].
    cbn [fst snd].
    destruct (Z.eqb_spec res 0) as [-> |Hne]; cbn [negb];
      [destruct (Z.eqb_spec rc 0) as [-> |Hrc]; cbn [negb]|];
      server_case.
  - destruct (lib_exec irc_client_connect new0) as [res new2].
    cbn [fst snd].
    destruct (Z.eqb_spec res 0) as [-> |Hne]; cbn [negb];
      [destruct (Z.eqb_spec rc 0) as [-> |Hrc]; cbn [negb]|];
      server_case.
Qed.

End CommandsMore2.

(** ** The event callback: when it is defined and what it touches *)

Ltac callback_cases :=
  unfold handle_irc_msg, handle_numeric, handle_chat, handle_nick,
    handle_ctcp_request, handle_ctcp_reply, print_chat, nick_notice,
    client_log, body_or_empty;
  branches; try discriminate.

Section CallbackMore.
Context {L : IrcLib}.

Lemma handle_chat_defined (clk : clock) (g : globals) (client : irc_client)
  (msg : irc_msg) :
  handle_chat clk g client msg = None
  <-> do_not_disturb g = 0 /\ irc_msg_body msg = None.
Proof.
  unfold handle_chat.
  destruct (Z.eqb_spec (do_not_disturb g) 0) as [Hdnd|Hdnd].
  - destruct (irc_msg_body msg) as [body|].
    + split; [|intros [_ E]; discriminate E]. branches; discriminate.
    + tauto.
  - split; [|intros [E _]; contradiction]. branches; discriminate.
Qed.

Lemma handle_nick_defined (g : globals) (client : irc_client) (msg : irc_msg) :
  handle_nick g client msg = None
  <-> match irc_msg_prefix msg with
      | None => True
      | Some prefix =>
          nick_portion (CStr.strncpy 63 prefix) = irc_client_nickname client
          /\ (irc_msg_body msg = None \/ irc_msg_body msg = Some EmptyString)
      end.
Proof.
  unfold handle_nick. destruct (irc_msg_prefix msg) as [prefix|]; [|tauto].
  rewrite strsep_some. fold (nick_portion (CStr.strncpy 63 prefix)).
  destruct (String.eqb_spec (nick_portion (CStr.strncpy 63 prefix))
              (irc_client_nickname client)) as [E|E].
  - destruct (irc_msg_body msg) as [[|c r]|]; split; try tauto; try discriminate.
    intros [_ [Hb|Hb]]; discriminate Hb.
  - split; [discriminate|tauto].
Qed.

(** X12.  Provided the date of a TIME reply fits its 32-byte buffer,
    the callback runs into undefined behaviour on exactly three kinds
    of message: a PRIVMSG or NOTICE without a body while Do Not Disturb
    is off (with it on the body is not examined and the message is
    handled), a NICK without a prefix, and a NICK from our own nick (as
    compared within 63 bytes) whose body is missing or empty.  On every
    other message it returns. *)
Theorem callback_undefined_exactly :
  forall (clk : clock) (g : globals) (client : irc_client) (msg : irc_msg),
    (String.length (clk_timebuf clk) <= 31)%nat ->
    (handle_irc_msg clk g client msg = None <-> callback_undefined g client msg).
Proof.
  intros clk g client msg _. unfold handle_irc_msg, callback_undefined.
  destruct (irc_msg_type msg);
    try (split; [discriminate|contradiction]).
  - apply handle_chat_defined.
  - apply handle_chat_defined.
  - apply handle_nick_defined.
Qed.

(** X13.  No message is dropped in silence: whenever the callback
    returns it has printed, logged or called the library at least once;
    and for a numeric it has done exactly one of the first two and left
    client and globals as they were. *)
Theorem callback_always_acts :
  forall (clk : clock) (g : globals) (client : irc_client) (msg : irc_msg)
         (client' : irc_client) (g' : globals) (t : list effect),
    handle_irc_msg clk g client msg = Some (client', g', t) ->
    t <> []
    /\ (irc_msg_type msg = IRC_NUMERIC ->
        client' = client /\ g' = g
        /\ exists fmt args,
             t = [IrcPrint fmt args]
             \/ t = [ClientLog IRC_LOG_WARN 0 fmt args]).
Proof.
  intros clk g client msg client' g' t Hrun. split.
  - revert Hrun. callback_cases; intros [= <- <- <-]; cbn [snd];
      intros E; try discriminate E;
      apply app_eq_nil in E; destruct E as [_ E]; discriminate E.
  - intros Htype. revert Hrun. unfold handle_irc_msg. rewrite Htype.
    unfold handle_numeric, client_log. branches; intros [= <- <- <-];
      (split; [reflexivity|split; [reflexivity|]]); eauto.
Qed.

End CallbackMore.

Section CallbackMore2.
Context {L : IrcLib} {H : IrcH}.

(** X14.  Do Not Disturb silences the bell, and only the bell: with it
    on, no message makes the callback ring; with it off, a PRIVMSG or
    NOTICE whose body starts with our nickname, in any case of its
    letters, rings before anything else is done. *)
Theorem bell_rings_only_without_dnd :
  forall (clk : clock) (g : globals) (client : irc_client) (msg : irc_msg)
         (client' : irc_client) (g' : globals) (t : list effect),
    handle_irc_msg clk g client msg = Some (client', g', t) ->
    (do_not_disturb g <> 0 -> ~ In (IrcPrint bel []) t)
    /\ (do_not_disturb g = 0 ->
        irc_msg_type msg = IRC_CMD_PRIVMSG \/ irc_msg_type msg = IRC_CMD_NOTICE ->
        forall body,
          irc_msg_body msg = Some body ->
          CStr.strncaseeq body (irc_client_nickname client)
            (String.length (irc_client_nickname client)) = true ->
          exists rest, t = IrcPrint bel [] :: rest).
Proof.
  intros clk g client msg client' g' t Hrun. split.
  - intros Hdnd. apply Z.eqb_neq in Hdnd. revert Hrun.
    unfold handle_irc_msg, handle_chat, mention_bell. rewrite Hdnd.
    cbn [andb].
    callback_cases; intros [= <- <- <-]; cbn [snd app];
      intros Hin; split_trace; discriminate Hin.
  - intros Hdnd Htype body Hbody Hmention. revert Hrun.
    unfold handle_irc_msg, handle_chat.
    assert (Hbell : mention_bell g client body = [IrcPrint bel []]).
    { unfold mention_bell. now rewrite Hdnd, Hmention. }
    destruct Htype as [-> | ->]; rewrite Hdnd, Hbody; cbn [Z.eqb];
      rewrite Hbell; branches; intros [= <- <- <-]; cbn [app]; eauto.
Qed.

(** X15.  The callback changes little: the globals stay as they were
    unless the message is a NICK, in which case at most the prompt is
    rewritten for the client as the library left it; and the client
    stays as it was unless a library function was called. *)
Theorem callback_frame :
  forall (clk : clock) (g : globals) (client : irc_client) (msg : irc_msg)
         (client' : irc_client) (g' : globals) (t : list effect),
    handle_irc_msg clk g client msg = Some (client', g', t) ->
    (g' = g
     \/ (irc_msg_type msg = IRC_CMD_NICK /\ g' = update_prompt g client'))
    /\ ((forall c, ~ In (Lib c) t) -> client' = client).
Proof.
  intros clk g client msg client' g' t Hrun. revert Hrun.
  callback_cases; intros [= <- <- <-]; cbn [snd fst];
    (split; [auto|]); try reflexivity;
    intros Hno; exfalso;
    match goal with
    | _ : context [Lib ?c] |- _ => fail
    | |- _ => idtac
    end;
    first
      [ eapply Hno; apply in_or_app; right; left; reflexivity
      | eapply Hno; left; reflexivity
      | eapply Hno; right; left; reflexivity ].
Qed.

(** X16.  A ping reply is timed from the last ping request: /ctcp with a
    name the library reads as PING stores the time of the request and
    sends the request, and the reply that arrives on NOTICE is printed
    with the arrival time and that stored time; a request of any other
    type leaves the stored time alone. *)
Theorem ping_reply_is_timed_from_request :
  forall (now : timeval) (rc : Z) (g : globals) (client : irc_client)
         (s0 target name : string) (ctcp : irc_ctcp_type),
    irc_client_connected client = true ->
    CStr.strcaseeq (fst (CStr.strsep_str " " s0)) "ctcp" = true ->
    fst (CStr.strsep (snd (CStr.strsep_str " " s0)) " ") = Some target ->
    fst (CStr.strsep (snd (CStr.strsep (snd (CStr.strsep_str " " s0)) " ")) " ")
    = Some name ->
    irc_ctcp_from_string name = Some ctcp ->
    let r := handle_send_msg now rc g client (String "/" s0) in
    sr_trace r = [Lib (irc_client_ctcp_request (Some target) ctcp)]
    /\ (ctcp <> CTCP_PING -> sr_globals r = g)
    /\ (ctcp = CTCP_PING ->
        sr_globals r = set_ctcp_ping_time g now
        /\ forall clk reply,
             irc_msg_ctcp_type reply = CTCP_PING ->
             handle_ctcp_reply clk (sr_globals r) reply
             = [IrcPrint ("Ping reply from %s in %.3f seconds" ++ nl)
                  [AStr (irc_msg_prefix reply); ASecs (clk_now clk) now]]).
Proof.
  intros now rc g client s0 target name ctcp Hup Hcmd Htarget Hname Hctcp r.
  subst r. unfold handle_send_msg.
  destruct (CStr.strsep_str " " s0) as [cmd rest]. cbn [fst snd] in *.
  tests_as cmd "ctcp" Hcmd. rewrite Hup. cbn [negb].
  unfold send_connected. tests_as cmd "ctcp" Hcmd.
  destruct (CStr.strsep rest " ") as [tg s1]. cbn [fst snd] in *. subst tg.
  destruct (CStr.strsep s1 " ") as [nm s2]. cbn [fst] in Hname. subst nm.
  rewrite Hctcp. rewrite call_trace, call_globals.
  split; [reflexivity|split].
  - intros Hne. destruct ctcp; try reflexivity. contradiction.
  - intros ->. split; [reflexivity|]. intros clk reply Hreply.
    unfold handle_ctcp_reply. rewrite Hreply. reflexivity.
Qed.

End CallbackMore2.

(** ** main: options, port, login *)

Section MainMore.
Context {L : IrcLib} {H : IrcH}.

Lemma parse_options_stops (opts : list cli_opt) :
  In Opt_V opts \/ In Opt_usage opts ->
  forall dbg o, snd (parse_options opts dbg o) = None.
Proof.
  induction opts as [|[ |a| |a|a|a|a| | |a| ] r IH]; intros Hin dbg o;
    cbn [parse_options snd]; try reflexivity;
    try (apply IH; destruct Hin as [[E|Hin]|[E|Hin]]; try discriminate E; auto).
  - destruct Hin as [[]|[]].
  - destruct (10 <=? dbg); [reflexivity|].
    apply IH. destruct Hin as [[E|Hin]|[E|Hin]]; try discriminate E; auto.
Qed.

(** X17.  With -V or -? anywhere among the options, [main] returns -1
    from the option loop: it has only printed, and neither the pipe
    nor the library nor the terminal has been touched. *)
Theorem version_and_usage_exit_early :
  forall (env : main_env) (opts : list cli_opt),
    In Opt_V opts \/ In Opt_usage opts ->
    exists t,
      main_startup env opts = Returned (-1) t /\ Forall is_print t.
Proof.
  intros env opts Hin. unfold main_startup, main_connect.
  pose proof (parse_options_stops opts Hin 0 initial_options) as Hnone.
  pose proof (parse_options_prints opts 0 initial_options) as Hprints.
  destruct (parse_options opts 0 initial_options) as [t0 parsed].
  cbn [fst snd] in *. subst parsed. exists t0. split; [reflexivity|exact Hprints].
Qed.

Lemma land_keeps (t v : Z) : Z.land t v = 0 -> Z.land t (Z.lnot v) = t.
Proof.
  intros Hd. rewrite <- Z.ldiff_land.
  rewrite <- (Z.lor_ldiff_and t v) at 2. rewrite Hd. symmetry. apply Z.lor_0_r.
Qed.

Lemma land_lor_same (f t : Z) : Z.land (Z.lor f t) t = t.
Proof.
  apply Z.bits_inj'. intros n Hn. rewrite Z.land_spec, Z.lor_spec.
  destruct (Z.testbit f n), (Z.testbit t n); reflexivity.
Qed.

(** The TLS bits of the flags after the option loop: all of them when
    there was a -t, those of the start otherwise. *)
Lemma parse_options_tls (opts : list cli_opt) :
  Z.land IRC_CLIENT_USE_TLS IRC_CLIENT_VERIFY_SERVER = 0 ->
  Z.land IRC_CLIENT_USE_SASL IRC_CLIENT_USE_TLS = 0 ->
  forall dbg o dbg' o',
    snd (parse_options opts dbg o) = Some (dbg', o') ->
    Z.land (o_flags o') IRC_CLIENT_USE_TLS
    = if has_opt_t opts then IRC_CLIENT_USE_TLS
      else Z.land (o_flags o) IRC_CLIENT_USE_TLS.
Proof.
  intros Htv Hst.
  assert (Hcons : forall x r,
             has_opt_t (x :: r)
             = (match x with Opt_t => true | _ => false end) || has_opt_t r)
    by reflexivity.
  induction opts as [|[ |a| |a|a|a|a| | |a| ] r IH]; intros dbg o dbg' o';
    rewrite ?Hcons; cbn [parse_options snd orb]; try discriminate;
    try (intros Hp; rewrite (IH _ _ _ _ Hp); reflexivity).
  - intros [= <- <-]. reflexivity.
  - destruct (10 <=? dbg); [discriminate|].
    intros Hp. rewrite (IH _ _ _ _ Hp). reflexivity.
  - intros Hp. rewrite (IH _ _ _ _ Hp). cbn [o_flags].
    rewrite Z.land_lor_distr_l, Hst, Z.lor_0_r. reflexivity.
  - intros Hp. rewrite (IH _ _ _ _ Hp). cbn [o_flags].
    rewrite <- Z.land_assoc, (Z.land_comm (Z.lnot _)), (land_keeps _ _ Htv).
    rewrite land_lor_same. now destruct (has_opt_t r).
Qed.

(** The port of every [irc_client_new] of [main]. *)
Lemma libnew_port (env : main_env) (opts : list cli_opt) (dbg : Z)
  (o : options) (server user pass : string) (port : Z) :
  snd (parse_options opts 0 initial_options) = Some (dbg, o) ->
  In (LibNew server port user pass) (progress_trace (main_startup env opts)) ->
  port = default_port (o_flags o) (o_port o).
Proof.
  intros Hparsed Hin. apply main_startup_events in Hin.
  destruct Hin as [Hin|[Hin|[Hin|(dbg' & o' & Hp & Hev)]]];
    try (now destruct Hin); try discriminate Hin.
  rewrite Hparsed in Hp. injection Hp as <- <-.
  unfold connect_event in Hev.
  destruct Hev as [Hev|[(n & Hev)|[(u & p & Hev)|[Hev|[Hev|Hev]]]]];
    try (now destruct Hev); try discriminate Hev.
  now injection Hev as _ -> _ _.
Qed.

(** X18.  With flag masks that do not overlap, the port [main] hands to
    the library when none was given is decided by -t alone: 6697 when
    the options contain -t, 6667 when they do not, whatever else they
    contain. *)
Theorem default_port_follows_option_t :
  IRC_CLIENT_USE_TLS <> 0 ->
  Z.land IRC_CLIENT_USE_TLS IRC_CLIENT_VERIFY_SERVER = 0 ->
  Z.land IRC_CLIENT_USE_SASL IRC_CLIENT_USE_TLS = 0 ->
  forall (env : main_env) (opts : list cli_opt) (dbg : Z) (o : options)
         (server user pass : string) (port : Z),
    snd (parse_options opts 0 initial_options) = Some (dbg, o) ->
    o_port o = 0 ->
    In (LibNew server port user pass) (progress_trace (main_startup env opts)) ->
    port = if has_opt_t opts then 6697 else 6667.
Proof.
  intros Hnz Htv Hst env opts dbg o server user pass port Hp Hzero Hin.
  rewrite (libnew_port env opts dbg o server user pass port Hp Hin).
  unfold default_port. rewrite Hzero. cbn [Z.eqb].
  rewrite (parse_options_tls opts Htv Hst 0 initial_options dbg o Hp).
  cbn [initial_options o_flags Z.land].
  destruct (has_opt_t opts).
  - apply Z.eqb_neq in Hnz. rewrite Hnz. reflexivity.
  - reflexivity.
Qed.

End MainMore.

Section MainMore2.
Context {L : IrcLib} {H : IrcH}.

Lemma parse_options_sources (opts : list cli_opt) :
  forall dbg o dbg' o',
    snd (parse_options opts dbg o) = Some (dbg', o') ->
    (o_optarg_k o' <> None ->
     o_optarg_k o <> None \/ exists m, In (Opt_k m) opts)
    /\ (o_username o' <> None ->
        o_username o <> None \/ exists u, In (Opt_u u) opts).
Proof.
  induction opts as [|[ |a| |a|a|a|a| | |a| ] r IH]; intros dbg o dbg' o';
    cbn [parse_options snd]; try discriminate.
  - intros [= <- <-]. auto.
  - intros Hp. destruct (IH _ _ _ _ Hp) as [Hk Hu].
    cbn [o_optarg_k o_username] in *. split; intros Hn;
      [destruct (Hk Hn) as [?|(m & ?)]|destruct (Hu Hn) as [?|(u & ?)]];
      auto; right; eexists; right; eassumption.
  - destruct (10 <=? dbg); [discriminate|].
    intros Hp. destruct (IH _ _ _ _ Hp) as [Hk Hu].
    split; intros Hn;
      [destruct (Hk Hn) as [?|(m & ?)]|destruct (Hu Hn) as [?|(u & ?)]];
      auto; right; eexists; right; eassumption.
  - intros Hp. destruct (IH _ _ _ _ Hp) as [Hk Hu].
    cbn [o_optarg_k o_username] in *. split; intros Hn;
      [destruct (Hk Hn) as [?|(m & ?)]|destruct (Hu Hn) as [?|(u & ?)]];
      auto; right; eexists; right; eassumption.
  - intros Hp. destruct (IH _ _ _ _ Hp) as [Hk Hu].
    cbn [o_optarg_k o_username] in *. split; intros Hn;
      [destruct (Hk Hn) as [?|(m & ?)]|destruct (Hu Hn) as [?|(u & ?)]];
      auto; right; eexists; right; eassumption.
  - intros Hp. destruct (IH _ _ _ _ Hp) as [Hk Hu].
    cbn [o_optarg_k o_username] in *. split; intros Hn.
    + right. destruct (Hk Hn) as [_|(m & Hm)].
      * exists a. now left.
      * exists m. now right.
    + destruct (Hu Hn) as [?|(u & ?)]; auto. right. eexists. right. eassumption.
  - intros Hp. destruct (IH _ _ _ _ Hp) as [Hk Hu].
    cbn [o_optarg_k o_username] in *. split; intros Hn;
      [destruct (Hk Hn) as [?|(m & ?)]|destruct (Hu Hn) as [?|(u & ?)]];
      auto; right; eexists; right; eassumption.
  - intros Hp. destruct (IH _ _ _ _ Hp) as [Hk Hu].
    cbn [o_optarg_k o_username] in *. split; intros Hn;
      [destruct (Hk Hn) as [?|(m & ?)]|destruct (Hu Hn) as [?|(u & ?)]];
      auto; right; eexists; right; eassumption.
  - intros Hp. destruct (IH _ _ _ _ Hp) as [Hk Hu].
    cbn [o_optarg_k o_username] in *. split; intros Hn;
      [destruct (Hk Hn) as [?|(m & ?)]|destruct (Hu Hn) as [?|(u & ?)]];
      auto; right; eexists; right; eassumption.
  - intros Hp. destruct (IH _ _ _ _ Hp) as [Hk Hu].
    cbn [o_optarg_k o_username] in *. split; intros Hn.
    + destruct (Hk Hn) as [?|(m & ?)]; auto. right. eexists. right. eassumption.
    + right. destruct (Hu Hn) as [_|(u & Hu')].
      * exists a. now left.
      * exists u. now right.
Qed.

(** Where the password pointer of a connected [main] comes from. *)
Lemma main_connect_password (env : main_env) (opts : list cli_opt)
  (st : main_state) :
  main_connect env opts = GoesOn st ->
  ms_password st <> PwNull ->
  exists dbg o,
    snd (parse_options opts 0 initial_options) = Some (dbg, o)
    /\ (o_optarg_k o <> None
        \/ (o_username o <> None /\ e_isatty env = true)).
Proof.
  unfold main_connect.
  destruct (parse_options opts 0 initial_options) as [t0 [[dbg o]|]];
    [|discriminate].
  pose proof (default_port_nonzero (o_flags o) (o_port o)) as Hport.
  apply Z.eqb_neq in Hport.
  cbv zeta. cbn [o_flags o_port o_server o_username o_autojoin o_fgchan o_optarg_k].
  rewrite Hport. cbn [negb].
  branches; try discriminate; intros [= <-]; cbn [ms_password]; intros Hpw;
    try contradiction; exists dbg, o; (split; [reflexivity|]);
    first [left; congruence | right; split; congruence].
Qed.

(** X19.  [main] attempts a login only with a password: if
    [irc_client_login] is among its actions, then the options had a -k,
    or they had a -u and standard input is a terminal from which the
    password was read. *)
Theorem login_needs_password :
  forall (env : main_env) (opts : list cli_opt),
    In (Lib irc_client_login) (progress_trace (main_startup env opts)) ->
    (exists m, In (Opt_k m) opts)
    \/ ((exists u, In (Opt_u u) opts) /\ e_isatty env = true).
Proof.
  intros env opts Hin.
  assert (Hpw : exists st, main_connect env opts = GoesOn st
                           /\ ms_password st <> PwNull).
  { unfold main_startup in Hin.
    pose proof (main_connect_events env opts (Lib irc_client_login)) as Hev.
    assert (Hnot : ~ (is_print (Lib irc_client_login)
                      \/ exists dbg o,
                           snd (parse_options opts 0 initial_options)
                           = Some (dbg, o)
                           /\ connect_event o (Lib irc_client_login))).
    { intros [Hp|(dbg & o & _ & Hp)]; [exact Hp|]. unfold connect_event in Hp.
      destruct Hp as [Hp|[(n & Hp)|[(u & p & Hp)|[Hp|[Hp|Hp]]]]];
        try (now destruct Hp); discriminate Hp. }
    destruct (main_connect env opts) as [code t|code t|st] eqn:Ec;
      cbn [progress_trace] in Hev; try (now destruct (Hnot (Hev Hin))).
    exists st. split; [reflexivity|]. intros Hnull.
    revert Hin. unfold main_login, main_at_login. rewrite Hnull.
    unfold set_fg_chan, set_term_title.
    branches; cbn [progress_trace ms_trace]; intros Hin; split_trace;
      try discriminate Hin; apply Hnot, Hev, Hin. }
  destruct Hpw as (st & Hc & Hpw).
  destruct (main_connect_password env opts st Hc Hpw) as (dbg & o & Hp & Hsrc).
  destruct (parse_options_sources opts 0 initial_options dbg o Hp) as [Hk Hu].
  destruct Hsrc as [Hsrc|[Hsrc Htty]].
  - left. destruct (Hk Hsrc) as [Hinit|Hm]; [now destruct Hinit|exact Hm].
  - right. split; [|exact Htty].
    destruct (Hu Hsrc) as [Hinit|Hm]; [now destruct Hinit|exact Hm].
Qed.

End MainMore2.

Section StartupOrder.
Context {L : IrcLib} {H : IrcH}.

Lemma filter_prints (t : list effect) :
  Forall is_print t -> filter is_lib_event t = [].
Proof.
  induction 1 as [|e t He Ht IH]; [reflexivity|].
  cbn [filter]. destruct e; try contradiction; exact IH.
Qed.

Lemma main_connect_calls (env : main_env) (opts : list cli_opt)
  (st : main_state) :
  main_connect env opts = GoesOn st ->
  ms_connected st = true
  /\ exists server port user pass flags chans,
       filter is_lib_event (ms_trace st)
       = [LibNew server port user pass; Lib (irc_client_set_flags flags);
          Lib (irc_client_autojoin chans); Lib irc_client_connect].
Proof.
  unfold main_connect.
  pose proof (parse_options_prints opts 0 initial_options) as Hprints.
  apply filter_prints in Hprints.
  destruct (parse_options opts 0 initial_options) as [t0 [[dbg o]|]];
    [|discriminate].
  cbn [fst] in Hprints.
  pose proof (default_port_nonzero (o_flags o) (o_port o)) as Hport.
  apply Z.eqb_neq in Hport.
  cbv zeta. cbn [o_flags o_port o_server o_username o_autojoin o_fgchan o_optarg_k].
  rewrite Hport. cbn [negb]. unfold set_term_title.
  branches; try discriminate; intros [= <-]; cbn [ms_connected ms_trace];
    (split; [reflexivity|]); do 6 eexists;
    rewrite ?filter_app, Hprints; cbn [filter is_lib_event app]; reflexivity.
Qed.

Lemma main_login_calls (env : main_env) (st st' : main_state) :
  ms_connected st = true ->
  main_login env st = GoesOn st' ->
  ms_password st' = ms_password st
  /\ fully_started (ms_globals st') = 1
  /\ filter is_lib_event (ms_trace st')
     = (filter is_lib_event (ms_trace st)
          ++ match ms_password st with
             | PwNull => []
             | _ => [Lib irc_client_login]
             end
          ++ [PthreadCreate])%list.
Proof.
  intros Hc. unfold main_login, main_at_login. rewrite Hc.
  unfold set_fg_chan, set_term_title.
  branches; try discriminate; intros [= <-];
    cbn [ms_password ms_trace ms_globals set_fully_started fully_started];
    (split; [reflexivity|split; [reflexivity|]]);
    rewrite ?filter_app; cbn [filter is_lib_event app];
    rewrite ?app_nil_r, <- ?app_assoc; reflexivity.
Qed.

(** X20.  A start of [main] that reaches the main loop has called the
    library in one fixed order: [irc_client_new], [irc_client_set_flags],
    [irc_client_autojoin], [irc_client_connect], then
    [irc_client_login] if and only if there is a password, and last the
    creation of the receive thread; and [fully_started] is 1. *)
Theorem startup_calls_in_order :
  forall (env : main_env) (opts : list cli_opt) (st : main_state),
    main_startup env opts = GoesOn st ->
    fully_started (ms_globals st) = 1
    /\ exists server port user pass flags chans,
         filter is_lib_event (ms_trace st)
         = (LibNew server port user pass
              :: Lib (irc_client_set_flags flags)
              :: Lib (irc_client_autojoin chans)
              :: Lib irc_client_connect
              :: match ms_password st with
                 | PwNull => []
                 | _ => [Lib irc_client_login]
                 end
              ++ [PthreadCreate])%list.
Proof.
  intros env opts st. unfold main_startup.
  destruct (main_connect env opts) as [code t|code t|st0] eqn:Ec;
    try discriminate.
  intros Hlogin.
  destruct (main_connect_calls env opts st0 Ec)
    as (Hc & server & port & user & pass & flags & chans & Hcalls).
  destruct (main_login_calls env st0 st Hc Hlogin) as (Hpw & Hfs & Hall).
  split; [exact Hfs|]. exists server, port, user, pass, flags, chans.
  rewrite Hall, Hcalls, Hpw. reflexivity.
Qed.

End StartupOrder.

(** ** Reading the password *)

Section PasswordMore.

Lemma overwrite_length (data m : list Z) :
  List.length (overwrite m data) = List.length m.
Proof.
  revert m. induction data as [|d ds IH]; intros [|b r];
    cbn [overwrite List.length]; try reflexivity. now rewrite IH.
Qed.

Lemma overwrite_firstn (data m : list Z) :
  (List.length data <= List.length m)%nat ->
  firstn (List.length data) (overwrite m data) = data.
Proof.
  revert m. induction data as [|d ds IH]; intros [|b r] Hlen;
    cbn [overwrite List.length firstn] in *; try reflexivity; try lia.
  rewrite IH by lia. reflexivity.
Qed.

Lemma store_length (m : list Z) (i : nat) (v : Z) :
  List.length (store m i v) = List.length m.
Proof.
  revert i. induction m as [|b r IH]; intros [|i]; cbn [store List.length];
    try reflexivity. now rewrite IH.
Qed.

Lemma store_firstn_below (m : list Z) (i n : nat) (v : Z) :
  (n <= i)%nat -> firstn n (store m i v) = firstn n m.
Proof.
  revert i n. induction m as [|b r IH]; intros [|i] [|n] Hn;
    cbn [store firstn]; try reflexivity; try lia.
  rewrite IH by lia. reflexivity.
Qed.

Lemma store_firstn_at (m : list Z) (i : nat) (v : Z) :
  (i < List.length m)%nat ->
  firstn (S i) (store m i v) = (firstn i m ++ [v])%list.
Proof.
  revert i. induction m as [|b r IH]; intros [|i] Hi;
    cbn [store firstn List.length app] in *; try lia.
  - reflexivity.
  - rewrite <- IH by lia. reflexivity.
Qed.

Lemma nth_firstn_same (m : list Z) (n i : nat) :
  (i < n)%nat -> nth i (firstn n m) 0 = nth i m 0.
Proof.
  revert n i. induction m as [|b r IH]; intros [|n] [|i] Hi;
    cbn [firstn nth]; try reflexivity; try lia.
  apply IH. lia.
Qed.

Lemma nth_last_byte (l : list Z) (k : nat) :
  List.length l = S k -> nth k l 0 = last l 0.
Proof.
  revert k. induction l as [|a l IH]; intros k Hk; [discriminate|].
  destruct l as [|b l'].
  - cbn [List.length] in Hk. injection Hk as <-. reflexivity.
  - destruct k as [|k]; [discriminate|].
    change (nth (S k) (a :: b :: l') 0) with (nth k (b :: l') 0).
    change (last (a :: b :: l') 0) with (last (b :: l') 0).
    apply IH. cbn [List.length] in *. lia.
Qed.

(** X21.  A successful [get_password] leaves a terminated C string at
    the start of the buffer, inside its bounds: the bytes that were
    read, less a final newline unless the newline is all that was read,
    followed by a zero byte; the buffer keeps its length. *)
Theorem get_password_stores_terminated_text :
  forall (env : main_env) (buf buf' : list Z) (len : nat),
    List.length buf = len ->
    get_password env buf len = (0, buf') ->
    let kept := kept_password (firstn (Nat.pred len) (e_read env)) in
    firstn (S (List.length kept)) buf' = (kept ++ [0])%list
    /\ (S (List.length kept) <= len)%nat
    /\ List.length buf' = len.
Proof.
  intros env buf buf' len Hlen. unfold get_password.
  destruct (negb (e_tcgetattr env)); [discriminate|].
  destruct (negb (e_tcsetattr_noecho env)); [discriminate|].
  set (data := firstn (Nat.pred len) (e_read env)).
  assert (Hdata : (List.length data <= Nat.pred len)%nat)
    by (subst data; apply firstn_le_length).
  destruct (List.length data) as [|k] eqn:Hn; [discriminate|].
  assert (Hroom : (S k < List.length buf)%nat) by lia.
  set (buf1 := store (overwrite buf data) (S k) 0).
  assert (Hb1 : firstn (S (S k)) buf1 = (data ++ [0])%list).
  { subst buf1. rewrite store_firstn_at by (rewrite overwrite_length; lia).
    rewrite <- Hn, overwrite_firstn by lia. reflexivity. }
  assert (Hl1 : List.length buf1 = len)
    by (subst buf1; rewrite store_length, overwrite_length; exact Hlen).
  assert (Hnth : nth k buf1 0 = last data 0).
  { rewrite <- (nth_firstn_same buf1 (S (S k)) k) by lia. rewrite Hb1.
    rewrite app_nth1 by lia. now apply nth_last_byte. }
  intros Hrun.
  assert (Hbuf' : buf' = if (1 <? S k)%nat && (nth k buf1 0 =? 10)
                         then store buf1 k 0 else buf1).
  { destruct (negb (e_tcsetattr_restore env)); [discriminate|].
    now injection Hrun as <-. }
  clear Hrun. unfold kept_password.
  rewrite Hnth in Hbuf'.
  destruct data as [|a [|b rest]] eqn:Ed; [discriminate| |].
  - cbn [List.length] in Hn. injection Hn as <-. cbn [Nat.ltb Nat.leb andb] in Hbuf'.
    subst buf'. cbn [List.length]. rewrite Hb1. repeat split; [lia|exact Hl1].
  - assert (Hlt : (1 <? S k)%nat = true)
      by (apply Nat.ltb_lt; cbn [List.length] in Hn; lia).
    rewrite Hlt in Hbuf'. cbn [andb] in Hbuf'.
    destruct (last (a :: b :: rest) 0 =? 10).
    + subst buf'. rewrite store_length.
      assert (Hrl : List.length (removelast (a :: b :: rest)) = k).
      { rewrite removelast_firstn_len, length_firstn, Hn. cbn [Nat.pred]. lia. }
      rewrite Hrl. repeat split; [|lia|exact Hl1].
      rewrite store_firstn_at by lia.
      rewrite removelast_firstn_len, Hn. cbn [Nat.pred].
      replace (firstn k buf1) with (firstn k (firstn (S (S k)) buf1))
        by (rewrite firstn_firstn; f_equal; lia).
      rewrite Hb1, firstn_app, Hn.
      replace (k - S k)%nat with 0%nat by lia.
      cbn [firstn]. now rewrite app_nil_r.
    + subst buf'. rewrite Hn, Hb1. repeat split; [lia|exact Hl1].
Qed.

End PasswordMore.

(** ** The terminal *)

Section TerminalMore.
Context {T : TermiosH}.

Lemma set_lflag_back (t : termios) (v : Z) :
  set_lflag (set_lflag t v) (c_lflag t) = t.
Proof. now destruct t. Qed.

(** X22.  [get_password] gives the terminal back as it found it
    whenever it returns 0.  Between switching echo off and reading, a
    read that delivers nothing makes it return -1 at once, and then the
    terminal is left with echo off. *)
Theorem get_password_restores_terminal_on_success :
  forall (env : main_env) (buf : list Z) (len : nat) (tty : termios),
    (fst (get_password env buf len) = 0 ->
     get_password_tty env len tty = tty)
    /\ (e_tcgetattr env = true ->
        e_tcsetattr_noecho env = true ->
        firstn (Nat.pred len) (e_read env) = [] ->
        fst (get_password env buf len) = -1
        /\ get_password_tty env len tty
           = set_lflag tty (Z.land (c_lflag tty) (Z.lnot ECHO))
        /\ Z.land (c_lflag (get_password_tty env len tty)) ECHO = 0).
Proof.
  intros env buf len tty. unfold get_password, get_password_tty. split.
  - destruct (negb (e_tcgetattr env)); [reflexivity|].
    destruct (negb (e_tcsetattr_noecho env)); [reflexivity|].
    destruct (firstn (Nat.pred len) (e_read env)) as [|d ds];
      [cbn [List.length fst]; discriminate|].
    cbv zeta. cbn [List.length].
    destruct (negb (e_tcsetattr_restore env)); [cbn [fst]; discriminate|].
    reflexivity.
  - intros -> -> ->. cbn [negb List.length fst].
    repeat split. unfold set_lflag. cbn [c_lflag]. apply land_clear.
Qed.

(** X23.  [set_term] switches canonical mode off and nothing else, and
    [restore_term] undoes it.  After a successful [set_term] every bit
    of the local modes is as before except the bits of ICANON, which
    are clear; the other attributes of the terminal are as before;
    [orig_term] holds the attributes found; [restore_term] is
    registered and brings the terminal back.  After a failed one the
    terminal is untouched and nothing is registered. *)
Theorem set_term_is_undone_by_restore_term :
  forall (orig_term tty : termios),
    let r := set_term true true orig_term tty in
    st_res r = 0
    /\ st_atexit r = true
    /\ (forall i, 0 <= i ->
          Z.testbit (c_lflag (st_tty r)) i
          = Z.testbit (c_lflag tty) i && negb (Z.testbit ICANON i))
    /\ Z.land (c_lflag (st_tty r)) ICANON = 0
    /\ set_lflag (st_tty r) (c_lflag tty) = tty
    /\ st_orig_term r = tty
    /\ restore_term true (st_orig_term r) (st_tty r) = tty
    /\ forall get_ok set_ok,
         get_ok && set_ok = false ->
         let f := set_term get_ok set_ok orig_term tty in
         st_res f = -1 /\ st_tty f = tty /\ st_atexit f = false
         /\ exists fmt, st_trace f = [Eprintf fmt [AErrno]].
Proof.
  intros orig_term tty r. subst r. unfold set_term, restore_term.
  cbn [negb st_res st_atexit st_tty st_orig_term].
  split; [reflexivity|split; [reflexivity|split; [|split; [|split;
    [|split; [reflexivity|split; [reflexivity|]]]]]]].
  - intros i Hi. unfold set_lflag. cbn [c_lflag].
    rewrite Z.land_spec, Z.lnot_spec by exact Hi. reflexivity.
  - unfold set_lflag. cbn [c_lflag]. apply land_clear.
  - apply set_lflag_back.
  - intros get_ok set_ok Hfail.
    destruct get_ok, set_ok; try discriminate Hfail;
      cbn [negb st_res st_tty st_atexit st_trace];
      (split; [reflexivity|split; [reflexivity|split; [reflexivity|eauto]]]).
Qed.

End TerminalMore.

(** ** The prompt and the foreground channel *)

Section PromptMore.

Lemma strncpy_length (n : nat) :
  forall s, (String.length (CStr.strncpy n s) <= n)%nat.
Proof.
  induction n as [|n IH]; intros [|c r]; cbn [CStr.strncpy String.length];
    try lia. specialize (IH r). lia.
Qed.

Lemma strncpy_fits (n : nat) :
  forall s, (String.length s <= n)%nat -> CStr.strncpy n s = s.
Proof.
  induction n as [|n IH]; intros [|c r] Hlen;
    cbn [CStr.strncpy String.length] in *; try reflexivity; try lia.
  rewrite IH by lia. reflexivity.
Qed.

Lemma strncpy_prefix (n : nat) :
  forall s, exists rest, s = (CStr.strncpy n s ++ rest)%string.
Proof.
  induction n as [|n IH]; intros [|c r]; cbn [CStr.strncpy].
  - now exists EmptyString.
  - now exists (String c r).
  - now exists EmptyString.
  - destruct (IH r) as (rest & Hr). exists rest. cbn [append]. now rewrite <- Hr.
Qed.

(** X24.  The prompt always fits its 84-byte buffer: [update_prompt]
    leaves a prompt of at most 83 bytes and changes no other global;
    the prompt is nick@host followed by the foreground channel in
    parentheses when there is one, or the host alone when there is no
    nickname, cut only when that text is longer than 83 bytes. *)
Theorem update_prompt_fits_buffer :
  forall (g : globals) (client : irc_client),
    let g' := update_prompt g client in
    let nick := irc_client_nickname client in
    let host := irc_client_hostname client in
    let text :=
      (if String.eqb nick EmptyString then host ++ "> "
       else if String.eqb (fg_chan g) EmptyString then nick ++ "@" ++ host ++ "> "
       else nick ++ "@" ++ host ++ " (" ++ fg_chan g ++ ")> ")%string in
    (String.length (client_prompt g') <= 83)%nat
    /\ set_client_prompt g' (client_prompt g) = g
    /\ (exists rest, text = (client_prompt g' ++ rest)%string)
    /\ ((String.length text <= 83)%nat -> client_prompt g' = text).
Proof.
  intros g client g' nick host text.
  assert (Hprompt : client_prompt g' = CStr.strncpy 83 text).
  { subst g' text nick host. unfold update_prompt, CStr.snprintf.
    cbn [client_prompt set_client_prompt Nat.pred].
    destruct (irc_client_nickname client) as [|c r]; [reflexivity|].
    destruct (fg_chan g); reflexivity. }
  rewrite Hprompt. split; [apply strncpy_length|split; [|split]].
  - subst g'. unfold update_prompt, set_client_prompt.
    cbn [debug_level fully_started shutting_down do_not_disturb client_prompt
         fg_chan ctcp_ping_time]. now destruct g.
  - apply strncpy_prefix.
  - apply strncpy_fits.
Qed.

Lemma strncpy_cut (n : nat) :
  forall s, String.length (CStr.strncpy n s) = Nat.min n (String.length s).
Proof.
  induction n as [|n IH]; intros [|c r]; cbn [CStr.strncpy String.length];
    try reflexivity. rewrite IH. reflexivity.
Qed.

(** X25.  The foreground channel always fits its 64-byte buffer:
    [set_fg_chan] stores the first 63 bytes of the name, that is a
    prefix of the name that is 63 bytes long when the name is longer
    and the whole name when it is not, shows what it stored as the
    title of the terminal, and changes no other global. *)
Theorem set_fg_chan_fits_buffer :
  forall (g : globals) (name : string),
    let g' := fst (set_fg_chan g name) in
    String.length (fg_chan g') = Nat.min 63 (String.length name)
    /\ (exists rest, name = (fg_chan g' ++ rest)%string)
    /\ ((String.length name <= 63)%nat -> fg_chan g' = name)
    /\ snd (set_fg_chan g name) = [set_term_title (fg_chan g')]
    /\ client_prompt g' = client_prompt g
    /\ debug_level g' = debug_level g
    /\ do_not_disturb g' = do_not_disturb g
    /\ shutting_down g' = shutting_down g
    /\ fully_started g' = fully_started g
    /\ ctcp_ping_time g' = ctcp_ping_time g.
Proof.
  intros g name g'. subst g'. unfold set_fg_chan.
  cbn [fst snd fg_chan client_prompt debug_level do_not_disturb shutting_down
       fully_started ctcp_ping_time].
  split; [apply strncpy_cut|split; [apply strncpy_prefix|split]].
  - apply strncpy_fits.
  - repeat split.
Qed.

End PromptMore.

(** ** The line editor: the caller's array *)

Section ReadlineMemory.

Lemma store_nth_at (m : list Z) (i : nat) (v : Z) :
  (i < List.length m)%nat -> nth i (store m i v) 0 = v.
Proof.
  revert i. induction m as [|b r IH]; intros [|i] Hi;
    cbn [store nth List.length] in *; try lia.
  apply IH. lia.
Qed.

Lemma readline_store_step (len0 : Z) (g : globals) (st : rl_state)
  (m : list Z) (o : poll_outcome) :
  len0 < 2 ^ 31 -> rl_memory_inv len0 st m ->
  exists m',
    readline_store m st o = Some m'
    /\ List.length m' = List.length m
    /\ match readline_step g st o with
       | RlContinue st' _ _ => rl_memory_inv len0 st' m'
       | RlReturn res st' _ _ =>
           res = -1
           \/ (1 <= res <= len0 - 1
               /\ firstn (Z.to_nat res) m' = rl_buf st'
               /\ Forall stored_byte (rl_buf st')
               /\ (nth (Z.to_nat res) m' 0 = 10 \/ res = len0 - 1))
       end.
Proof.
  intros Hb (Hex & Hroom & Hpre).
  pose proof Hex as (Hn & Hl & Hsum & Hlen & Hall).
  assert (H64 : 2 ^ 31 < 2 ^ 64) by (vm_compute; reflexivity).
  destruct o as [[|]|byte ok|data ok|]; cbn [readline_step readline_store].
  - exists m. repeat split; assumption.
  - exists m. split; [reflexivity|split; [reflexivity|now left]].
  - destruct byte as [c|].
    2:{ exists m. split; [reflexivity|split; [reflexivity|now left]]. }
    unfold poke.
    assert (Hin : (0 <=? rl_num_read st)
                  && (rl_num_read st <? Z.of_nat (List.length m)) = true).
    { apply andb_true_iff. split; [apply Z.leb_le|apply Z.ltb_lt]; lia. }
    rewrite Hin. set (i := Z.to_nat (rl_num_read st)) in *.
    assert (Hi : (i < List.length m)%nat) by (subst i; lia).
    exists (store m i c). split; [reflexivity|split; [apply store_length|]].
    assert (Hkeep : firstn i (store m i c) = rl_buf st).
    { rewrite store_firstn_below by lia. exact Hpre. }
    unfold readline_stdin.
    destruct (c =? 10) eqn:E10.
    + apply Z.eqb_eq in E10. subst c.
      destruct (rl_num_read st =? 0) eqn:E.
      * split; [exact Hex|split; [rewrite store_length; exact Hroom|]].
        fold i. exact Hkeep.
      * apply Z.eqb_neq in E. right. fold i.
        split; [lia|split; [exact Hkeep|split; [exact Hall|]]].
        left. now apply store_nth_at.
    + destruct ((c =? 8) || (c =? 127)) eqn:Edel.
      * destruct (rl_num_read st =? 0) eqn:E; cbn [negb].
        -- split; [exact Hex|split; [rewrite store_length; exact Hroom|]].
           fold i. exact Hkeep.
        -- apply Z.eqb_neq in E.
           pose proof (readline_step_exact len0 g st (PollStdin (Some c) ok)
                         Hb Hex) as Hstep.
           cbn [readline_step] in Hstep. unfold readline_stdin in Hstep.
           rewrite E10, Edel in Hstep.
           apply Z.eqb_neq in E. rewrite E in Hstep. cbn [negb] in Hstep.
           cbv zeta in Hstep |- *.
           split; [exact Hstep|split; [rewrite store_length; exact Hroom|]].
           cbn [rl_num_read rl_buf].
           rewrite wrap_int_small by lia.
           destruct i as [|k] eqn:Ei; [subst i; apply Z.eqb_neq in E; lia|].
           replace (Z.to_nat (rl_num_read st - 1)) with k by lia.
           rewrite store_firstn_below by lia.
           rewrite <- Hpre. symmetry. apply removelast_firstn. lia.
      * pose proof (readline_step_exact len0 g st (PollStdin (Some c) ok)
                      Hb Hex) as Hstep.
        cbn [readline_step] in Hstep. unfold readline_stdin in Hstep.
        rewrite E10, Edel in Hstep. cbv zeta in Hstep |- *.
        cbn [rl_len rl_num_read rl_buf] in Hstep |- *.
        rewrite wrap_int_small, wrap_size_t_small in Hstep |- * by lia.
        assert (Hgrow : firstn (Z.to_nat (rl_num_read st + 1)) (store m i c)
                        = (rl_buf st ++ [c])%list).
        { replace (Z.to_nat (rl_num_read st + 1)) with (S i) by (subst i; lia).
          rewrite store_firstn_at by exact Hi. now rewrite Hpre. }
        destruct (rl_len st - 1 <=? 1) eqn:E.
        -- apply Z.leb_le in E. cbn [rl_buf] in Hstep |- *.
           destruct Hstep as [Hall' [Hbad|[Hres Hlen']]]; [lia|].
           right. split; [exact Hres|split; [exact Hgrow|split; [exact Hall'|]]].
           right. lia.
        -- split; [exact Hstep|split; [rewrite store_length; exact Hroom|]].
           cbn [rl_num_read rl_buf]. exact Hgrow.
  - exists m. split; [reflexivity|split; [reflexivity|]].
    pose proof (readline_step_exact len0 g st (PollPipe data ok) Hb Hex)
      as Hstep.
    cbn [readline_step] in Hstep. unfold readline_pipe in Hstep |- *.
    destruct (firstn 511 data) as [|first rest]; [now left|].
    destruct ((_ =? 1)%nat && (first =? 0)); [now left|].
    destruct ((rl_lastpos st =? 0) && negb ok); [now left|].
    split; [exact Hstep|split; [exact Hroom|exact Hpre]].
  - exists m. repeat split; assumption.
Qed.

Lemma readline_memory_loop (len0 : Z) (w : list poll_outcome) :
  len0 < 2 ^ 31 ->
  forall g st out m res,
    rl_memory_inv len0 st m ->
    rr_res (readline_loop g st out w) = Some res ->
    exists m',
      readline_memory g st m w = Some m'
      /\ List.length m' = List.length m
      /\ (res = -1
          \/ (1 <= res <= len0 - 1
              /\ firstn (Z.to_nat res) m'
                 = rl_buf (rr_state (readline_loop g st out w))
              /\ Forall stored_byte
                   (rl_buf (rr_state (readline_loop g st out w)))
              /\ (nth (Z.to_nat res) m' 0 = 10 \/ res = len0 - 1))).
Proof.
  intros Hb. induction w as [|o w IH]; intros g st out m res Hinv;
    cbn [readline_loop readline_memory].
  - discriminate.
  - destruct (readline_store_step len0 g st m o Hb Hinv)
      as (m1 & Hstore & Hlen1 & Hstep).
    rewrite Hstore.
    destruct (readline_step g st o) as [st' g' t|r st' g' t].
    + intros Hres. destruct (IH g' st' _ m1 res Hstep Hres)
        as (m' & Hm & Hlen' & Hrest).
      exists m'. split; [exact Hm|split; [congruence|exact Hrest]].
    + cbn [rr_res rr_state]. intros [= <-].
      exists m1. split; [reflexivity|split; [exact Hlen1|exact Hstep]].
Qed.

(** X2.  The line [client_readline] hands to its caller holds no
    newline, backspace or delete, although the array does: read(2)
    stores every byte before it is looked at.  For an array of at least
    [len] bytes every store is inside the array, the first [res] bytes
    of the array are the bytes counted, none of them is a newline, a
    backspace or a delete, and the byte after them is the newline that
    ended the line unless the line filled the buffer. *)
Theorem returned_line_holds_no_control_byte :
  forall (g : globals) (len : Z) (w : list poll_outcome) (res : Z)
         (m : list Z),
    2 <= len < 2 ^ 31 ->
    len <= Z.of_nat (List.length m) ->
    rr_res (client_readline g len w) = Some res ->
    1 <= res ->
    exists m',
      readline_memory g (mk_rl_state 0 0 len []) m w = Some m'
      /\ List.length m' = List.length m
      /\ firstn (Z.to_nat res) m' = rl_buf (rr_state (client_readline g len w))
      /\ Forall stored_byte (firstn (Z.to_nat res) m')
      /\ (nth (Z.to_nat res) m' 0 = 10 \/ res = len - 1).
Proof.
  intros g len w res m Hlen Hroom Hres Hpos. unfold client_readline in *.
  assert (Hinv : rl_memory_inv len (mk_rl_state 0 0 len []) m).
  { split; [exact (initial_exact len (proj1 Hlen))|split; [exact Hroom|]].
    reflexivity. }
  destruct (readline_memory_loop len w (proj2 Hlen) g _ _ m res Hinv Hres)
    as (m' & Hm & Hlen' & [Hbad|(_ & Hfirst & Hall & Hnext)]); [lia|].
  exists m'. split; [exact Hm|split; [exact Hlen'|split; [exact Hfirst|]]].
  split; [rewrite Hfirst; exact Hall|exact Hnext].
Qed.

End ReadlineMemory.

(** * The further properties on concrete inputs *)

Lemma client_readline_count_is_within_buffer_witness :
  2 <= 512 < 2 ^ 31
  /\ rr_res (client_readline initial_globals 512 Sample.typed_hi) = Some 2
  /\ 2 <= 512 - 1
  /\ Z.of_nat
       (List.length
          (rl_buf (rr_state (client_readline initial_globals 512 Sample.typed_hi))))
     = 2.
Proof.
  assert (Hlen : 2 <= 512 < 2 ^ 31) by lia.
  assert (Hres : rr_res (client_readline initial_globals 512 Sample.typed_hi)
                 = Some 2) by reflexivity.
  split; [exact Hlen|split; [exact Hres|]].
  apply (client_readline_count_is_within_buffer initial_globals 512
           Sample.typed_hi 2 Hlen Hres). lia.
Defined.

Lemma backspace_undoes_typed_byte_witness :
  rl_exact 512 Sample.half_typed
  /\ exists st1 out1 out2,
       readline_step initial_globals Sample.half_typed (PollStdin (Some 111) true)
       = RlContinue st1 initial_globals out1
       /\ rl_buf st1 = [47; 106; 111]
       /\ readline_step initial_globals st1 (PollStdin (Some 127) true)
          = RlContinue (mk_rl_state 2 0 510 [47; 106]) initial_globals out2.
Proof.
  assert (Hst : rl_exact 512 Sample.half_typed).
  { unfold rl_exact, Sample.half_typed, stored_byte.
    cbn [rl_num_read rl_len rl_buf List.length].
    repeat split; try lia; repeat constructor; lia. }
  assert (Hc : stored_byte 111) by (unfold stored_byte; lia).
  split; [exact Hst|].
  apply (backspace_undoes_typed_byte initial_globals 512 Sample.half_typed
           111 127 true true); [lia|exact Hst|cbn; lia|exact Hc|now right].
Defined.

Lemma disconnect_is_requested_only_by_signal_witness :
  Forall (fun o => ~ is_signal o) (Sample.output_mid_line ++ Sample.typed_hi)%list
  /\ let '(e, g', _, _) :=
       main_loop_from (L := SpecLib.lib) (H := SpecLib.flags) Sample.no_clock
         initial_globals SpecLib.idle_client (mk_rl_state 0 0 512 [])
         (Sample.output_mid_line ++ Sample.typed_hi)%list in
     e <> RequestedDisconnect /\ shutting_down g' = 0.
Proof.
  assert (Hw : Forall (fun o => ~ is_signal o)
                 (Sample.output_mid_line ++ Sample.typed_hi)%list).
  { repeat constructor; cbn; try tauto; discriminate. }
  split; [exact Hw|].
  exact (disconnect_is_requested_only_by_signal (L := SpecLib.lib)
           (H := SpecLib.flags) Sample.no_clock
           (Sample.output_mid_line ++ Sample.typed_hi)%list initial_globals
           SpecLib.idle_client (mk_rl_state 0 0 512 []) eq_refl Hw).
Defined.

Lemma pipe_output_leaves_typed_line_witness :
  Forall no_input Sample.output_mid_line
  /\ rl_buf (rr_state (readline_loop initial_globals Sample.half_typed []
                         Sample.output_mid_line))
     = [47; 106].
Proof.
  assert (Hw : Forall no_input Sample.output_mid_line)
    by (repeat constructor).
  split; [exact Hw|].
  exact (proj1 (proj2 (proj2 (pipe_output_leaves_typed_line
                                Sample.output_mid_line initial_globals
                                Sample.half_typed [] Hw)))).
Defined.


Lemma dnd_twice_restores_witness :
  CStr.strcaseeq (fst (CStr.strsep_str " " "DND")) "dnd" = true
  /\ sr_globals
       (handle_send_msg (L := SpecLib.lib) (H := SpecLib.flags) (mk_timeval 0 0) 0
          (sr_globals
             (handle_send_msg (L := SpecLib.lib) (H := SpecLib.flags)
                (mk_timeval 0 0) 0 Sample.dnd_on SpecLib.idle_client "/DND"))
          (sr_client
             (handle_send_msg (L := SpecLib.lib) (H := SpecLib.flags)
                (mk_timeval 0 0) 0 Sample.dnd_on SpecLib.idle_client "/DND"))
          "/dnd now")
     = Sample.dnd_on.
Proof.
  split; [reflexivity|].
  apply (dnd_twice_restores (L := SpecLib.lib) (H := SpecLib.flags)
           (mk_timeval 0 0) 0 Sample.dnd_on SpecLib.idle_client "DND" "dnd now"
           eq_refl eq_refl).
  right. reflexivity.
Defined.

Lemma fg_then_text_sends_to_channel_witness :
  fst (CStr.strsep (snd (CStr.strsep_str " " "fg #lirc")) " ") = Some "#lirc"
  /\ sr_trace
       (handle_send_msg (L := SpecLib.lib) (H := SpecLib.flags) (mk_timeval 0 0) 0
          (sr_globals
             (handle_send_msg (L := SpecLib.lib) (H := SpecLib.flags)
                (mk_timeval 0 0) 0 initial_globals SpecLib.connected_client
                "/fg #lirc"))
          (sr_client
             (handle_send_msg (L := SpecLib.lib) (H := SpecLib.flags)
                (mk_timeval 0 0) 0 initial_globals SpecLib.connected_client
                "/fg #lirc"))
          "hello there")
     = [Lib (irc_client_msg (Some "#lirc") (Some "hello there"))].
Proof.
  split; [reflexivity|].
  apply (fg_then_text_sends_to_channel (L := SpecLib.lib) (H := SpecLib.flags)
           (mk_timeval 0 0) 0 initial_globals SpecLib.connected_client
           "fg #lirc" "#lirc" "hello there" eq_refl eq_refl).
  - discriminate.
  - intros t0. discriminate.
Defined.

Lemma unconnected_library_calls_witness :
  irc_client_connected SpecLib.idle_client = false
  /\ In (Lib irc_client_connect)
       (sr_trace (handle_send_msg (L := SpecLib.lib) (H := SpecLib.flags)
                    (mk_timeval 0 0) 0 initial_globals SpecLib.idle_client
                    "/SERVER irc.example.net"))
  /\ ((forall s0, "/SERVER irc.example.net" <> String "/" s0)
      \/ exists s0,
           "/SERVER irc.example.net" = String "/" s0
           /\ CStr.strcaseeq (fst (CStr.strsep_str " " s0)) "server" = true).
Proof.
  assert (Hin : In (Lib irc_client_connect)
                  (sr_trace (handle_send_msg (L := SpecLib.lib)
                               (H := SpecLib.flags) (mk_timeval 0 0) 0
                               initial_globals SpecLib.idle_client
                               "/SERVER irc.example.net")))
    by (vm_compute; tauto).
  split; [reflexivity|split; [exact Hin|]].
  apply (unconnected_library_calls (L := SpecLib.lib) (H := SpecLib.flags)
           (mk_timeval 0 0) 0 initial_globals SpecLib.idle_client
           "/SERVER irc.example.net" eq_refl).
  exists (Lib irc_client_connect). split; [exact Hin|reflexivity].
Defined.

Lemma callback_undefined_exactly_witness :
  (String.length (clk_timebuf SpecLib.noon) <= 31)%nat
  /\ callback_undefined initial_globals SpecLib.connected_client Sample.no_body
  /\ handle_irc_msg (L := SpecLib.lib) SpecLib.noon initial_globals
       SpecLib.connected_client Sample.no_body
     = None
  /\ handle_irc_msg (L := SpecLib.lib) SpecLib.noon Sample.dnd_on
       SpecLib.connected_client Sample.no_body
     <> None.
Proof.
  assert (Hfits : (String.length (clk_timebuf SpecLib.noon) <= 31)%nat)
    by (vm_compute; lia).
  assert (Hu : callback_undefined initial_globals SpecLib.connected_client
                 Sample.no_body) by (split; reflexivity).
  split; [exact Hfits|split; [exact Hu|split]].
  - exact (proj2 (callback_undefined_exactly (L := SpecLib.lib) SpecLib.noon
                    initial_globals SpecLib.connected_client Sample.no_body
                    Hfits) Hu).
  - intros Hnone.
    destruct (proj1 (callback_undefined_exactly (L := SpecLib.lib)
                       SpecLib.noon Sample.dnd_on SpecLib.connected_client
                       Sample.no_body Hfits) Hnone) as [Hdnd _].
    discriminate Hdnd.
Defined.

Lemma callback_always_acts_witness :
  match handle_irc_msg (L := SpecLib.lib) SpecLib.noon Sample.dnd_on
          SpecLib.connected_client Sample.no_body with
  | Some (_, _, t) => t <> []
  | None => False
  end.
Proof.
  destruct (handle_irc_msg (L := SpecLib.lib) SpecLib.noon Sample.dnd_on
              SpecLib.connected_client Sample.no_body)
    as [[[client' g'] t]|] eqn:Erun.
  - exact (proj1 (callback_always_acts (L := SpecLib.lib) SpecLib.noon
                    Sample.dnd_on SpecLib.connected_client Sample.no_body
                    client' g' t Erun)).
  - vm_compute in Erun. discriminate Erun.
Defined.

Lemma bell_rings_only_without_dnd_witness :
  (match handle_irc_msg (L := SpecLib.lib) SpecLib.noon initial_globals
           SpecLib.connected_client Sample.mention with
   | Some (_, _, t) => exists rest, t = IrcPrint bel [] :: rest
   | None => False
   end)
  /\ match handle_irc_msg (L := SpecLib.lib) SpecLib.noon Sample.dnd_on
             SpecLib.connected_client Sample.mention with
     | Some (_, _, t) => ~ In (IrcPrint bel []) t
     | None => False
     end.
Proof.
  split.
  - destruct (handle_irc_msg (L := SpecLib.lib) SpecLib.noon initial_globals
                SpecLib.connected_client Sample.mention)
      as [[[client' g'] t]|] eqn:Erun.
    + apply (proj2 (bell_rings_only_without_dnd (L := SpecLib.lib) SpecLib.noon
                      initial_globals SpecLib.connected_client Sample.mention
                      client' g' t Erun) eq_refl (or_introl eq_refl)
               "ALICE: ping" eq_refl eq_refl).
    + vm_compute in Erun. discriminate Erun.
  - destruct (handle_irc_msg (L := SpecLib.lib) SpecLib.noon Sample.dnd_on
                SpecLib.connected_client Sample.mention)
      as [[[client' g'] t]|] eqn:Erun.
    + apply (proj1 (bell_rings_only_without_dnd (L := SpecLib.lib) SpecLib.noon
                      Sample.dnd_on SpecLib.connected_client Sample.mention
                      client' g' t Erun)).
      cbn. discriminate.
    + vm_compute in Erun. discriminate Erun.
Defined.

Lemma callback_frame_witness :
  match handle_irc_msg (L := SpecLib.lib) SpecLib.noon initial_globals
          SpecLib.connected_client SpecLib.own_nick_change with
  | Some (client', g', _) =>
      g' = initial_globals
      \/ (irc_msg_type SpecLib.own_nick_change = IRC_CMD_NICK
          /\ g' = update_prompt initial_globals client')
  | None => False
  end.
Proof.
  destruct (handle_irc_msg (L := SpecLib.lib) SpecLib.noon initial_globals
              SpecLib.connected_client SpecLib.own_nick_change)
    as [[[client' g'] t]|] eqn:Erun.
  - exact (proj1 (callback_frame (L := SpecLib.lib) SpecLib.noon
                    initial_globals SpecLib.connected_client
                    SpecLib.own_nick_change client' g' t Erun)).
  - vm_compute in Erun. discriminate Erun.
Defined.

Lemma ping_reply_is_timed_from_request_witness :
  irc_client_connected SpecLib.connected_client = true
  /\ irc_ctcp_from_string (IrcLib := SpecLib.lib) "PING" = Some CTCP_PING
  /\ handle_ctcp_reply SpecLib.noon
       (sr_globals
          (handle_send_msg (L := SpecLib.lib) (H := SpecLib.flags)
             (mk_timeval 1699999999 250000) 0 initial_globals
             SpecLib.connected_client "/ctcp bob PING"))
       Sample.ping_reply
     = [IrcPrint ("Ping reply from %s in %.3f seconds" ++ nl)
          [AStr (irc_msg_prefix Sample.ping_reply);
           ASecs (clk_now SpecLib.noon) (mk_timeval 1699999999 250000)]].
Proof.
  split; [reflexivity|split; [reflexivity|]].
  exact (proj2 (proj2 (proj2 (ping_reply_is_timed_from_request
                                (L := SpecLib.lib) (H := SpecLib.flags)
                                (mk_timeval 1699999999 250000) 0
                                initial_globals SpecLib.connected_client
                                "ctcp bob PING" "bob" "PING" CTCP_PING
                                eq_refl eq_refl eq_refl eq_refl eq_refl))
                  eq_refl)
           SpecLib.noon Sample.ping_reply eq_refl).
Defined.

Lemma version_and_usage_exit_early_witness :
  In Opt_V [Opt_t; Opt_V; Opt_u "alice"]
  /\ exists t,
       main_startup (L := SpecLib.lib) (H := SpecLib.flags) SpecLib.env
         [Opt_t; Opt_V; Opt_u "alice"]
       = Returned (-1) t
       /\ Forall is_print t.
Proof.
  assert (Hin : In Opt_V [Opt_t; Opt_V; Opt_u "alice"])
    by (right; left; reflexivity).
  split; [exact Hin|].
  exact (version_and_usage_exit_early (L := SpecLib.lib) (H := SpecLib.flags)
           SpecLib.env [Opt_t; Opt_V; Opt_u "alice"] (or_introl Hin)).
Defined.

Lemma default_port_follows_option_t_witness :
  In (LibNew "127.0.0.1" 6697 EmptyString EmptyString)
    (progress_trace
       (main_startup (L := SpecLib.lib) (H := SpecLib.flags) SpecLib.env
          [Opt_t; Opt_d]))
  /\ 6697 = if has_opt_t [Opt_t; Opt_d] then 6697 else 6667.
Proof.
  assert (Hin : In (LibNew "127.0.0.1" 6697 EmptyString EmptyString)
                  (progress_trace
                     (main_startup (L := SpecLib.lib) (H := SpecLib.flags)
                        SpecLib.env [Opt_t; Opt_d])))
    by (vm_compute; tauto).
  split; [exact Hin|].
  eapply (default_port_follows_option_t (L := SpecLib.lib)
            (H := SpecLib.flags));
    [discriminate|reflexivity|reflexivity|reflexivity|reflexivity|exact Hin].
Defined.

Lemma login_needs_password_witness :
  In (Lib irc_client_login)
    (progress_trace
       (main_startup (L := SpecLib.lib) (H := SpecLib.flags) SpecLib.env
          SpecLib.ask_opts))
  /\ ((exists m, In (Opt_k m) SpecLib.ask_opts)
      \/ ((exists u, In (Opt_u u) SpecLib.ask_opts)
          /\ e_isatty SpecLib.env = true)).
Proof.
  assert (Hin : In (Lib irc_client_login)
                  (progress_trace
                     (main_startup (L := SpecLib.lib) (H := SpecLib.flags)
                        SpecLib.env SpecLib.ask_opts)))
    by (vm_compute; tauto).
  split; [exact Hin|].
  exact (login_needs_password (L := SpecLib.lib) (H := SpecLib.flags)
           SpecLib.env SpecLib.ask_opts Hin).
Defined.

Lemma startup_calls_in_order_witness :
  match main_startup (L := SpecLib.lib) (H := SpecLib.flags) SpecLib.env
          SpecLib.login_opts with
  | GoesOn st => fully_started (ms_globals st) = 1
  | _ => False
  end.
Proof.
  destruct (main_startup (L := SpecLib.lib) (H := SpecLib.flags) SpecLib.env
              SpecLib.login_opts) as [code t|code t|st] eqn:Erun;
    try (vm_compute in Erun; discriminate Erun).
  exact (proj1 (startup_calls_in_order (L := SpecLib.lib)
                  (H := SpecLib.flags) SpecLib.env SpecLib.login_opts st Erun)).
Defined.

Lemma get_password_stores_terminated_text_witness :
  List.length (e_passwordbuf SpecLib.env) = 73%nat
  /\ fst (get_password SpecLib.env (e_passwordbuf SpecLib.env) 73) = 0
  /\ firstn 8 (snd (get_password SpecLib.env (e_passwordbuf SpecLib.env) 73))
     = [104; 117; 110; 116; 101; 114; 50; 0].
Proof.
  assert (Hlen : List.length (e_passwordbuf SpecLib.env) = 73%nat)
    by reflexivity.
  split; [exact Hlen|split; [reflexivity|]].
  exact (proj1 (get_password_stores_terminated_text SpecLib.env
                  (e_passwordbuf SpecLib.env)
                  (snd (get_password SpecLib.env (e_passwordbuf SpecLib.env) 73))
                  73 Hlen eq_refl)).
Defined.

Lemma get_password_restores_terminal_on_success_witness :
  fst (get_password SpecLib.env (e_passwordbuf SpecLib.env) 73) = 0
  /\ get_password_tty (T := Sample.termios_bits) SpecLib.env 73 Sample.tty
     = Sample.tty.
Proof.
  split; [reflexivity|].
  exact (proj1 (get_password_restores_terminal_on_success
                  (T := Sample.termios_bits) SpecLib.env
                  (e_passwordbuf SpecLib.env) 73 Sample.tty) eq_refl).
Defined.

Lemma update_prompt_fits_buffer_witness :
  (String.length
     (client_prompt (update_prompt initial_globals SpecLib.long_nick_client))
   <= 83)%nat
  /\ client_prompt (update_prompt initial_globals SpecLib.connected_client)
     = "alice@irc.example.net> ".
Proof.
  split.
  - exact (proj1 (update_prompt_fits_buffer initial_globals
                    SpecLib.long_nick_client)).
  - apply (proj2 (proj2 (proj2 (update_prompt_fits_buffer initial_globals
                                  SpecLib.connected_client)))).
    vm_compute. lia.
Defined.

Lemma returned_line_holds_no_control_byte_witness :
  2 <= 512 < 2 ^ 31
  /\ 512 <= Z.of_nat (List.length (repeat 0 513))
  /\ rr_res (client_readline initial_globals 512 Sample.typed_hi) = Some 2
  /\ readline_memory initial_globals (mk_rl_state 0 0 512 []) (repeat 0 513)
       Sample.typed_hi
     = Some (104 :: 105 :: 10 :: repeat 0 510)
  /\ exists m',
       readline_memory initial_globals (mk_rl_state 0 0 512 []) (repeat 0 513)
         Sample.typed_hi
       = Some m'
       /\ Forall stored_byte (firstn 2 m')
       /\ (nth 2 m' 0 = 10 \/ 2 = 512 - 1).
Proof.
  assert (Hlen : 2 <= 512 < 2 ^ 31) by lia.
  assert (Hroom : 512 <= Z.of_nat (List.length (repeat 0 513)))
    by (rewrite repeat_length; lia).
  assert (Hres : rr_res (client_readline initial_globals 512 Sample.typed_hi)
                 = Some 2) by reflexivity.
  assert (Hpos : 1 <= 2) by lia.
  split; [exact Hlen|split; [exact Hroom|split; [exact Hres|split;
    [reflexivity|]]]].
  destruct (returned_line_holds_no_control_byte initial_globals 512
              Sample.typed_hi 2 (repeat 0 513) Hlen Hroom Hres Hpos)
    as (m' & Hm & _ & _ & Hall & Hnext).
  exists m'. split; [exact Hm|split; [exact Hall|exact Hnext]].
Defined.

Lemma debug_level_stays_within_range_witness :
  snd (parse_options (H := SpecLib.flags) [Opt_d; Opt_d] 0 initial_options)
  = Some (2, initial_options)
  /\ 0 <= 2 <= 10
  /\ (let '(_, g', _, _) :=
        main_loop_from (L := SpecLib.lib) (H := SpecLib.flags) Sample.no_clock
          (set_debug_level initial_globals 2) SpecLib.idle_client
          (mk_rl_state 0 0 512 []) Sample.typed_debug in
      debug_level g' = 7 /\ 0 <= debug_level g' <= 10)
  /\ exists s0 level,
       "/debug 7" = String "/" s0
       /\ CStr.strcaseeq (fst (CStr.strsep_str " " s0)) "debug" = true
       /\ fst (CStr.strsep (snd (CStr.strsep_str " " s0)) " ") = Some level
       /\ 0 <= CStr.atoi level <= 10
       /\ debug_level
            (sr_globals
               (handle_send_msg (L := SpecLib.lib) (H := SpecLib.flags)
                  (mk_timeval 0 0) 0 (set_debug_level initial_globals 2)
                  SpecLib.idle_client "/debug 7"))
          = CStr.atoi level.
Proof.
  assert (Hparse : snd (parse_options (H := SpecLib.flags) [Opt_d; Opt_d] 0
                          initial_options)
                   = Some (2, initial_options)) by reflexivity.
  destruct (debug_level_stays_within_range (L := SpecLib.lib)
              (H := SpecLib.flags) [Opt_d; Opt_d] 2 initial_options
              Sample.no_clock Sample.typed_debug SpecLib.idle_client
              (mk_rl_state 0 0 512 []) (set_debug_level initial_globals 2)
              Hparse eq_refl)
    as (Hrange & Hloop & _ & Hline).
  split; [exact Hparse|split; [exact Hrange|split]].
  - destruct (main_loop_from (L := SpecLib.lib) (H := SpecLib.flags)
                Sample.no_clock (set_debug_level initial_globals 2)
                SpecLib.idle_client (mk_rl_state 0 0 512 [])
                Sample.typed_debug) as [[[e g'] c'] t'] eqn:Erun.
    split; [|exact Hloop].
    vm_compute in Erun. injection Erun as _ <- _ _. reflexivity.
  - apply (Hline (mk_timeval 0 0) 0 (set_debug_level initial_globals 2)
             SpecLib.idle_client "/debug 7").
    vm_compute. discriminate.
Defined.

Lemma server_replaces_client_after_creating_one_witness :
  CStr.strcaseeq (fst (CStr.strsep_str " " "server irc.example.net 6697")) "server"
  = true
  /\ (sr_res (handle_send_msg (L := SpecLib.lib) (H := SpecLib.flags)
                (mk_timeval 0 0) 0 initial_globals SpecLib.connected_client
                "/server irc.example.net 6697")
      = 0
      <-> fst (lib_exec (IrcLib := SpecLib.lib) irc_client_connect
                 (mk_irc_client "irc.example.net" 6697 EmptyString EmptyString
                    1 false false))
          = 0
          /\ 0 = 0)
  /\ sr_res (handle_send_msg (L := SpecLib.lib) (H := SpecLib.flags)
               (mk_timeval 0 0) 11 initial_globals SpecLib.connected_client
               "/server irc.example.net 6697")
     = -1.
Proof.
  split; [reflexivity|split; [|reflexivity]].
  exact (proj1 (proj2 (proj2 (server_replaces_client_after_creating_one
                                (L := SpecLib.lib) (H := SpecLib.flags)
                                (mk_timeval 0 0) 0 initial_globals
                                SpecLib.connected_client
                                "server irc.example.net 6697"
                                "irc.example.net" eq_refl eq_refl)
                         (mk_irc_client "irc.example.net" 6697 EmptyString
                            EmptyString 0 false false)
                         eq_refl))).
Defined.

Lemma set_term_is_undone_by_restore_term_witness :
  restore_term true
    (st_orig_term (set_term (T := Sample.termios_bits) true true
                     (zero_termios Sample.tty) Sample.tty))
    (st_tty (set_term (T := Sample.termios_bits) true true
               (zero_termios Sample.tty) Sample.tty))
  = Sample.tty
  /\ c_lflag (st_tty (set_term (T := Sample.termios_bits) true true
                        (zero_termios Sample.tty) Sample.tty))
     = 35385
  /\ Z.testbit
       (c_lflag (st_tty (set_term (T := Sample.termios_bits) true true
                           (zero_termios Sample.tty) Sample.tty))) 3
     = Z.testbit (c_lflag Sample.tty) 3
       && negb (Z.testbit (ICANON (TermiosH := Sample.termios_bits)) 3).
Proof.
  pose proof (set_term_is_undone_by_restore_term (T := Sample.termios_bits)
                (zero_termios Sample.tty) Sample.tty)
    as (_ & _ & Hbits & _ & _ & _ & Hback & _).
  split; [exact Hback|split; [reflexivity|]].
  apply Hbits. lia.
Defined.

Lemma set_fg_chan_fits_buffer_witness :
  String.length (fg_chan (fst (set_fg_chan initial_globals SpecLib.longer_prefix)))
  = 63%nat
  /\ fg_chan (fst (set_fg_chan initial_globals "#lirc")) = "#lirc".
Proof.
  split.
  - exact (proj1 (set_fg_chan_fits_buffer initial_globals
                    SpecLib.longer_prefix)).
  - apply (proj1 (proj2 (proj2 (set_fg_chan_fits_buffer initial_globals
                                  "#lirc")))).
    vm_compute. lia.
Defined.
